(** * Order-book connectors: Kucoin, Binance, Kraken and BitMEX

    A shallow embedding of the four connector scripts
    ([kucoin50.js], [binance20.js], the Kraken depth-100 script and
    [bitmex25.js]) and the properties of their order-book maintenance,
    projection, volume conversion and duplicate-insertion gate.

    Modelling conventions.
    - A JavaScript number is an exact rational ([Qc]) or one of the three
      non-finite values; IEEE rounding is not modelled.
    - A value read off the wire is a string or a number ([value]).
    - [Array.prototype.sort] and lodash's [orderBy] are stable sorts; they
      are modelled by a stable insertion sort driven by the comparator.
    - A handler takes the decoded message and returns [Ok] with the new
      book, the rows handed to the sink and the lines it wrote to the
      console, or [Throw] for an uncaught exception.
    - The rows of one call are those its record builder yields from the
      book as it is at the call.  Kucoin and Kraken build every row before
      they wait for the database, and BitMEX never rewrites an order
      object, so these are the rows they write.  Binance builds a row
      after the INSERT of the row before it and rewrites quantities in
      place: what its rows carry when other messages are handled in
      between is the subject of [BinanceObjects].  The answers of the
      database are not modelled.
    - Arithmetic is exact: a property that would hold of rationals and
      fail of doubles by rounding or overflow is not stated. *)

From Stdlib Require Import Ascii QArith Qcanon.
From stdpp Require Import gmap strings list sorting.

(** ** JavaScript numbers and values *)

Inductive number : Type :=
  | Fin (q : Qc)
  | PlusInf
  | MinusInf
  | NaN.

Inductive value : Type :=
  | VStr (s : string)
  | VNum (n : number).

#[global] Instance number_eq_dec : EqDecision number.
Proof. solve_decision. Defined.

#[global] Instance value_eq_dec : EqDecision value.
Proof. solve_decision. Defined.

(** [a === b]: same type and same value; [NaN] is not equal to itself. *)
Definition strict_eq (a b : value) : bool :=
  match a, b with
  | VNum NaN, _ | _, VNum NaN => false
  | _, _ => bool_decide (a = b)
  end.

Definition Qc_sign (q : Qc) : Z := Z.sgn (Qnum (this q)).

(** [a * b] on numbers. *)
Definition js_mul (a b : number) : number :=
  match a, b with
  | NaN, _ | _, NaN => NaN
  | Fin x, Fin y => Fin (x * y)%Qc
  | Fin x, PlusInf | PlusInf, Fin x =>
      match Qc_sign x with Z0 => NaN | Zpos _ => PlusInf | Zneg _ => MinusInf end
  | Fin x, MinusInf | MinusInf, Fin x =>
      match Qc_sign x with Z0 => NaN | Zpos _ => MinusInf | Zneg _ => PlusInf end
  | PlusInf, PlusInf | MinusInf, MinusInf => PlusInf
  | PlusInf, MinusInf | MinusInf, PlusInf => MinusInf
  end.

(** [a / b] on numbers: dividing by zero yields an infinity or [NaN],
    never an exception. *)
Definition js_div (a b : number) : number :=
  match a, b with
  | NaN, _ | _, NaN => NaN
  | Fin x, Fin y =>
      match Qc_sign y with
      | Z0 => match Qc_sign x with Z0 => NaN | Zpos _ => PlusInf | Zneg _ => MinusInf end
      | _ => Fin (x / y)%Qc
      end
  | Fin _, (PlusInf | MinusInf) => Fin (Q2Qc 0)
  | PlusInf, Fin y => match Qc_sign y with Zneg _ => MinusInf | _ => PlusInf end
  | MinusInf, Fin y => match Qc_sign y with Zneg _ => PlusInf | _ => MinusInf end
  | (PlusInf | MinusInf), (PlusInf | MinusInf) => NaN
  end.

(** *** Reading a decimal numeral

    [Number(s)] and [parseFloat(s)] on the decimal numerals venues send:
    an optional sign, digits, and an optional fraction.  A string that is
    not such a numeral is outside the model and reads as zero. *)

Definition digit_of (c : ascii) : option Z :=
  let n := Z.of_nat (nat_of_ascii c) in
  if (48 <=? n)%Z && (n <=? 57)%Z then Some (n - 48)%Z else None.

Fixpoint decimal_digits (s : string) (frac : bool) (num : Z) (scale : positive)
  : option (Z * positive) :=
  match s with
  | EmptyString => Some (num, scale)
  | String c s' =>
      if bool_decide (c = "."%char) && negb frac
      then decimal_digits s' true num scale
      else match digit_of c with
           | Some d =>
               decimal_digits s' frac (10 * num + d)%Z
                 (if frac then (10 * scale)%positive else scale)
           | None => None
           end
  end.

Definition parseDecimal (s : string) : option Qc :=
  match s with
  | String "-"%char s' =>
      (λ p : Z * positive, Q2Qc (- p.1 # p.2)) <$> decimal_digits s' false 0%Z 1
  | _ => (λ p : Z * positive, Q2Qc (p.1 # p.2)) <$> decimal_digits s false 0%Z 1
  end.

Definition toNumber (s : string) : Qc := default (Q2Qc 0) (parseDecimal s).

Definition valueToNumber (v : value) : number :=
  match v with
  | VStr s => Fin (toNumber s)
  | VNum n => n
  end.

(** ** Stable sort by a comparator

    [cmp a b <= 0] keeps [a] before [b]; an element is inserted after every
    element it does not have to precede, so equal elements keep their
    order. *)

Section JsSort.
Context {A : Type} (cmp : A → A → Qc).

Fixpoint insert_sorted (x : A) (l : list A) : list A :=
  match l with
  | [] => [x]
  | y :: l' =>
      if bool_decide (cmp y x ≤ 0)%Qc then y :: insert_sorted x l'
      else x :: l
  end.

Definition js_sort (l : list A) : list A :=
  foldl (λ acc x, insert_sorted x acc) [] l.
End JsSort.

(** The two shapes of comparator the scripts use:
    [(a, b) => key(a) - key(b)] and [(a, b) => key(b) - key(a)]. *)
Definition ascending {A : Type} (key : A → Qc) (a b : A) : Qc :=
  (key a - key b)%Qc.
Definition descending {A : Type} (key : A → Qc) (a b : A) : Qc :=
  (key b - key a)%Qc.

(** ** Rows handed to the sink, handler results *)

Record row : Type := Row {
  timestamp : string;
  platform : string;
  order_level : nat;
  order_type : string;
  row_price : value;
  volume : value
}.

#[global] Instance row_eq_dec : EqDecision row.
Proof. solve_decision. Defined.

Inductive result (A : Type) : Type :=
  | Ok (a : A)
  | Throw (e : string).
Arguments Ok {A} a.
Arguments Throw {A} e.

#[global] Instance result_eq_dec `{EqDecision A} : EqDecision (result A).
Proof. solve_decision. Defined.

Record outcome (B : Type) : Type := Outcome {
  book_after : B;
  emitted : list row;
  logged : list string
}.
Arguments Outcome {B} _ _ _.
Arguments book_after {B} _.
Arguments emitted {B} _.
Arguments logged {B} _.

#[global] Instance outcome_eq_dec `{EqDecision B} : EqDecision (outcome B).
Proof. solve_decision. Defined.

(** The wire strings ['Buy'] and ['Sell']. *)
Inductive book_side : Type := Buy | Sell.

#[global] Instance book_side_eq_dec : EqDecision book_side.
Proof. solve_decision. Defined.

(** [entries()] of a sliced array: each element with its 1-based level. *)
Definition with_levels {A B : Type} (f : nat → A → B) (l : list A) : list B :=
  imap (λ i x, f (S i) x) l.

(** [findIndex]: the index of the first element that satisfies [P];
    [None] stands for -1. *)
Definition findIndex {A : Type} (P : A → Prop) `{∀ x, Decision (P x)}
    (l : list A) : option nat :=
  fst <$> list_find P l.

(** Values read from [config.json]. *)
Record config : Type := Config {
  numLevel : nat;
  baseVolume : bool
}.

(** ** Kucoin ([kucoin50.js]) *)

Module Kucoin.

(** A level is the array [[price, size]]; the book has one array of
    levels per key. *)
Abbreviation level := (string * value)%type.

Inductive type : Type := asks | bids.

Record orderBook : Type := OrderBook {
  ob_asks : list level;
  ob_bids : list level
}.

#[global] Instance orderBook_eq_dec : EqDecision orderBook.
Proof. solve_decision. Defined.

Definition get (t : type) (ob : orderBook) : list level :=
  match t with asks => ob_asks ob | bids => ob_bids ob end.

Definition set (t : type) (levels : list level) (ob : orderBook) : orderBook :=
  match t with
  | asks => OrderBook levels (ob_bids ob)
  | bids => OrderBook (ob_asks ob) levels
  end.

(** The REST response: the first 50 levels of each side. *)
Definition snapshot (data_bids data_asks : list level) : orderBook :=
  OrderBook (take 50 data_asks) (take 50 data_bids).

(** [(a, b) => type === "asks" ? a[0] - b[0] : b[0] - a[0]] *)
Definition cmp (t : type) (a b : level) : Qc :=
  match t with
  | asks => (toNumber a.1 - toNumber b.1)%Qc
  | bids => (toNumber b.1 - toNumber a.1)%Qc
  end.

(** The body of [changes.forEach]: one change applied to the levels of
    its side, then the side is sorted and cut to 50 levels. *)
Definition applyChange (t : type) (levels : list level) (change : level)
  : list level :=
  let price := change.1 in
  let size := change.2 in
  let levels1 :=
    if strict_eq size (VStr "0")
    then filter (λ l : level, l.1 ≠ price) levels
    else match list_find (λ l : level, l.1 = price) levels with
         | Some (i, existingLevel) => <[i := (existingLevel.1, size)]> levels
         | None => levels ++ [(price, size)]
         end in
  take 50 (js_sort (cmp t) levels1).

Record changes : Type := Changes {
  c_asks : list level;
  c_bids : list level
}.

Definition changes_of (t : type) (c : changes) : list level :=
  match t with asks => c_asks c | bids => c_bids c end.

(** A decoded message.  A message without [type] or [subject] is one whose
    field differs from the string tested; [data] is [None] when the message
    carries no [data.changes]. *)
Record message : Type := Message {
  m_type : string;
  m_subject : string;
  m_data : option changes
}.

Definition applySide (t : type) (c : changes) (ob : orderBook) : orderBook :=
  foldl (λ ob change, set t (applyChange t (get t ob) change) ob)
    ob (changes_of t c).

Definition applyChanges (c : changes) (ob : orderBook) : orderBook :=
  applySide bids c (applySide asks c ob).

(** Every level of the book becomes a row; [cfgNumLevels] is not
    consulted. *)
Definition insertOrderBooktoDB (ob : orderBook) (ts : string) : list row :=
  imap (λ index order, Row ts "Kucoin" (index + 1) "bids" (VStr order.1) order.2)
    (ob_bids ob)
  ++ imap (λ index order, Row ts "Kucoin" (index + 1) "asks" (VStr order.1) order.2)
    (ob_asks ob).

Definition recognized (m : message) : Prop :=
  m_type m = "message" ∧ m_subject m = "trade.l2update".

Definition handleOrderBook (cfg : config) (ts : string) (ob : orderBook)
    (m : message) : result (outcome orderBook) :=
  if bool_decide (recognized m) then
    match m_data m with
    | None => Throw "TypeError"
    | Some c =>
        let ob' := applyChanges c ob in
        Ok (Outcome ob' (insertOrderBooktoDB ob' ts) [])
    end
  else Ok (Outcome ob [] []).

End Kucoin.

(** ** Binance ([binance20.js]) *)

Module Binance.

Record order : Type := Order {
  price : string;
  quantity : value;
  side : book_side
}.

#[global] Instance order_eq_dec : EqDecision order.
Proof. solve_decision. Defined.

Definition set_quantity (q : value) (o : order) : order :=
  Order (price o) q (side o).

(** The REST response pushed onto the book. *)
Definition snapshot (orderBook : list order)
    (res_bids res_asks : list (string * value)) : list order :=
  orderBook
  ++ ((λ bid, Order bid.1 bid.2 Buy) <$> res_bids)
  ++ ((λ ask, Order ask.1 ask.2 Sell) <$> res_asks).

(** The body of the two [for] loops of [handleOrderBook]. *)
Definition applyUpdate (sd : book_side) (orderBook : list order)
    (u : string * value) : list order :=
  let p := u.1 in
  let q := u.2 in
  let index := findIndex (λ o, price o = p ∧ side o = sd) orderBook in
  if strict_eq q (VStr "0.00000000") then
    match index with
    | Some i => delete i orderBook
    | None => orderBook
    end
  else
    match index with
    | Some i => alter (set_quantity q) i orderBook
    | None => orderBook ++ [Order p q sd]
    end.

(** [None] stands for a message without that property. *)
Record message : Type := Message {
  m_bids : option (list (string * value));
  m_asks : option (list (string * value))
}.

Definition volume_of (cfgVolumeFlag : bool) (o : order) : value :=
  if cfgVolumeFlag then quantity o
  else VNum (js_mul (Fin (toNumber (price o))) (valueToNumber (quantity o))).

Definition top_bids (n : nat) (orderBook : list order) : list order :=
  take n (js_sort (λ a b, toNumber (price b) - toNumber (price a))%Qc
            (filter (λ o, side o = Buy) orderBook)).

Definition top_asks (n : nat) (orderBook : list order) : list order :=
  take n (js_sort (λ a b, toNumber (price a) - toNumber (price b))%Qc
            (filter (λ o, side o = Sell) orderBook)).

Definition insertOrderBookToDB (cfg : config) (orderBook : list order)
    (ts : string) : list row :=
  with_levels (λ i bid,
      Row ts "Binance" i "Bid" (VStr (price bid)) (volume_of (baseVolume cfg) bid))
    (top_bids (numLevel cfg) orderBook)
  ++ with_levels (λ i ask,
      Row ts "Binance" i "Ask" (VStr (price ask)) (volume_of (baseVolume cfg) ask))
    (top_asks (numLevel cfg) orderBook).

Definition handleOrderBook (cfg : config) (ts : string)
    (orderBook : list order) (m : message) : result (outcome (list order)) :=
  match m_bids m with
  | None => Throw "TypeError: message.bids is not iterable"
  | Some bs =>
      let ob1 := foldl (applyUpdate Buy) orderBook bs in
      match m_asks m with
      | None => Throw "TypeError: message.asks is not iterable"
      | Some as_ =>
          let ob2 := foldl (applyUpdate Sell) ob1 as_ in
          Ok (Outcome ob2 (insertOrderBookToDB cfg ob2 ts) [])
      end
  end.

End Binance.

(** ** Kraken (the depth-100 script) *)

Module Kraken.

(** Each side is an object from price to volume; [{}] has neither
    property. *)
Record orderbook : Type := Orderbook {
  asks : option (gmap string value);
  bids : option (gmap string value)
}.

#[global] Instance orderbook_eq_dec : EqDecision orderbook.
Proof. solve_decision. Defined.

(** [message[1]] with its four optional properties. *)
Record payload : Type := Payload {
  p_as : option (list (string * value));
  p_bs : option (list (string * value));
  p_a : option (list (string * value));
  p_b : option (list (string * value))
}.

(** [_.fromPairs]: a later pair overrides an earlier one. *)
Definition fromPairs (pairs : list (string * value)) : gmap string value :=
  foldl (λ m p, <[p.1 := p.2]> m) ∅ pairs.

(** [_.toPairs]; an undefined object has no pairs. *)
Definition toPairs (o : option (gmap string value)) : list (string * value) :=
  match o with
  | Some m => map_to_list m
  | None => []
  end.

(** The body of [forEach] over the updates of one side. *)
Definition applyUpdate (levels : gmap string value) (update : string * value)
  : gmap string value :=
  let price := update.1 in
  let volume := update.2 in
  if strict_eq volume (VStr "0.00000000") then delete price levels
  else <[price := volume]> levels.

(** Updating a side that is still undefined raises a TypeError at the
    first update. *)
Definition applyUpdates (levels : option (gmap string value))
    (updates : option (list (string * value)))
  : result (option (gmap string value)) :=
  match updates with
  | None | Some [] => Ok levels
  | Some us =>
      match levels with
      | Some m => Ok (Some (foldl applyUpdate m us))
      | None => Throw "TypeError"
      end
  end.

Definition orderedAsks (ob : orderbook) : list (string * value) :=
  js_sort (λ x y, toNumber x.1 - toNumber y.1)%Qc (toPairs (asks ob)).

Definition orderedBids (ob : orderbook) : list (string * value) :=
  js_sort (λ x y, toNumber y.1 - toNumber x.1)%Qc (toPairs (bids ob)).

Definition finalVolume (cfgVolumeFlag : bool) (price : string) (volume : value)
  : number :=
  if cfgVolumeFlag then valueToNumber volume
  else js_mul (valueToNumber volume) (Fin (toNumber price)).

Definition insertOrderBookToDB (cfg : config) (ob : orderbook) (ts : string)
  : list row :=
  with_levels (λ i l,
      Row ts "Kraken" i "ask" (VNum (Fin (toNumber l.1)))
        (VNum (finalVolume (baseVolume cfg) l.1 l.2)))
    (take (numLevel cfg) (orderedAsks ob))
  ++ with_levels (λ i l,
      Row ts "Kraken" i "bid" (VNum (Fin (toNumber l.1)))
        (VNum (finalVolume (baseVolume cfg) l.1 l.2)))
    (take (numLevel cfg) (orderedBids ob)).

Definition handleOrderBook (cfg : config) (ts : string) (ob : orderbook)
    (message1 : option payload) : result (outcome orderbook) :=
  let emit ob' := Ok (Outcome ob' (insertOrderBookToDB cfg ob' ts) []) in
  match message1 with
  | Some (Payload (Some as_) (Some bs) _ _) =>
      emit (Orderbook (Some (fromPairs as_)) (Some (fromPairs bs)))
  | Some (Payload _ _ None None) | None => emit ob
  | Some (Payload _ _ a b) =>
      match applyUpdates (asks ob) a with
      | Throw e => Throw e
      | Ok asks' =>
          match applyUpdates (bids ob) b with
          | Throw e => Throw e
          | Ok bids' => emit (Orderbook asks' bids')
          end
      end
  end.

End Kraken.

(** ** BitMEX ([bitmex25.js]) *)

Module BitMEX.

Record order : Type := Order {
  symbol : string;
  id : Z;
  side : book_side;
  size : Qc;
  price : Qc;
  timestamp : string
}.

#[global] Instance order_eq_dec : EqDecision order.
Proof. solve_decision. Defined.

(** The element of an [update] message: the id and the fields that
    changed. *)
Record patch : Type := Patch {
  u_id : Z;
  u_symbol : option string;
  u_side : option book_side;
  u_size : option Qc;
  u_price : option Qc;
  u_timestamp : option string
}.

(** [{...order, ...update}] *)
Definition merge (o : order) (u : patch) : order :=
  Order (default (symbol o) (u_symbol u)) (u_id u)
    (default (side o) (u_side u)) (default (size o) (u_size u))
    (default (price o) (u_price u)) (default (timestamp o) (u_timestamp u)).

(** [message.action] with [message.data]; a message without [table] is one
    whose table differs from the string tested. *)
Inductive action : Type :=
  | partial (data : list order)
  | insert (data : list order)
  | update (data : list patch)
  | delete (data : list Z)
  | other (name : string).

Record message : Type := Message {
  table : string;
  act : action
}.

Record state : Type := State {
  orderBook : list order;
  lastInsertedOrderBook : option (list order)
}.

#[global] Instance state_eq_dec : EqDecision state.
Proof. solve_decision. Defined.

Definition applyInsert (ob : list order) (o : order) : list order :=
  ob ++ [o].

Definition applyUpdate (ob : list order) (u : patch) : list order :=
  match findIndex (λ item, id item = u_id u) ob with
  | Some index => alter (λ o, merge o u) index ob
  | None => ob
  end.

Definition applyDelete (ob : list order) (i : Z) : list order :=
  match findIndex (λ item, id item = i) ob with
  | Some index => base.delete index ob
  | None => ob
  end.

Definition volume_of (cfgVolumeFlag : bool) (o : order) : number :=
  if cfgVolumeFlag then js_div (Fin (size o)) (Fin (price o)) else Fin (size o).

Definition sorted_bids (ob : list order) : list order :=
  js_sort (λ a b, price b - price a)%Qc (filter (λ o, side o = Buy) ob).

Definition sorted_asks (ob : list order) : list order :=
  js_sort (λ a b, price a - price b)%Qc (filter (λ o, side o = Sell) ob).

(** The rows written once the gate has let the book through. *)
Definition rows (cfg : config) (ob : list order) (ts : string) : list row :=
  with_levels (λ i o,
      Row ts "BitMEX" i "Bid" (VNum (Fin (price o)))
        (VNum (volume_of (baseVolume cfg) o)))
    (take (numLevel cfg) (sorted_bids ob))
  ++ with_levels (λ i o,
      Row ts "BitMEX" i "Ask" (VNum (Fin (price o)))
        (VNum (volume_of (baseVolume cfg) o)))
    (take (numLevel cfg) (sorted_asks ob)).

(** [JSON.stringify(orderBook) === JSON.stringify(lastInsertedOrderBook)]:
    two books serialise alike exactly when they hold the same orders with
    the same fields in the same order; an undefined last book serialises
    to [undefined]. *)
Definition same_as_last (ob : list order) (last : option (list order)) : bool :=
  bool_decide (Some ob = last).

Definition insertOrderBookToDB (cfg : config) (st : state) (ts : string)
  : outcome state :=
  if same_as_last (orderBook st) (lastInsertedOrderBook st)
  then Outcome st [] ["Insertion Skipped"]
  else Outcome (State (orderBook st) (Some (orderBook st)))
         (rows cfg (orderBook st) ts) [].

Definition handleOrderBook (cfg : config) (ts : string) (st : state)
    (m : message) : result (outcome state) :=
  if bool_decide (table m = "orderBookL2_25") then
    let ob' :=
      match act m with
      | partial data => data
      | insert data => foldl applyInsert (orderBook st) data
      | update data => foldl applyUpdate (orderBook st) data
      | delete data => foldl applyDelete (orderBook st) data
      | other _ => orderBook st
      end in
    Ok (insertOrderBookToDB cfg (State ob' (lastInsertedOrderBook st)) ts)
  else Ok (Outcome st [] []).

End BitMEX.

(** ** The volume conversion as the specification words it

    [normalize] follows the specification's sentence, with the language's
    arithmetic; the scripts' [switch] statements are compared with it
    below. *)

Inductive currency : Type := Base | Quote.

#[global] Instance currency_eq_dec : EqDecision currency.
Proof. solve_decision. Defined.

(** [baseVolume = true] asks for base currency, [false] for quote. *)
Definition wanted (baseVolume : bool) : currency :=
  if baseVolume then Base else Quote.

Definition normalize (price size : value) (nativeUnit wantUnit : currency)
  : value :=
  if bool_decide (nativeUnit = wantUnit) then size
  else match nativeUnit with
       | Base => VNum (js_mul (valueToNumber size) (valueToNumber price))
       | Quote => VNum (js_div (valueToNumber size) (valueToNumber price))
       end.

(** ** Event sequences, single changes, projections *)

(** A sequence of upserts and deletes, each on one side, applied in order. *)
Definition binance_run (ob : list Binance.order)
    (events : list (book_side * (string * value))) : list Binance.order :=
  foldl (λ ob e, Binance.applyUpdate e.1 ob e.2) ob events.

Definition kucoin_run (ob : Kucoin.orderBook)
    (events : list (Kucoin.type * Kucoin.level)) : Kucoin.orderBook :=
  foldl (λ ob e, Kucoin.set e.1 (Kucoin.applyChange e.1 (Kucoin.get e.1 ob) e.2) ob)
    ob events.

(** Messages that carry a single change. *)
Definition kucoin_change (t : Kucoin.type) (change : Kucoin.level)
  : Kucoin.message :=
  Kucoin.Message "message" "trade.l2update"
    (Some match t with
          | Kucoin.asks => Kucoin.Changes [change] []
          | Kucoin.bids => Kucoin.Changes [] [change]
          end).

Definition binance_update (sd : book_side) (u : string * value)
  : Binance.message :=
  match sd with
  | Buy => Binance.Message (Some [u]) (Some [])
  | Sell => Binance.Message (Some []) (Some [u])
  end.

Definition kraken_ask_update (u : string * value) : option Kraken.payload :=
  Some (Kraken.Payload None None (Some [u]) None).

Definition kraken_bid_update (u : string * value) : option Kraken.payload :=
  Some (Kraken.Payload None None None (Some [u])).

(** The projected side of a Binance book. *)
Definition binance_top (sd : book_side) (n : nat) (ob : list Binance.order)
  : list Binance.order :=
  match sd with
  | Buy => Binance.top_bids n ob
  | Sell => Binance.top_asks n ob
  end.

(** On side [sd], a level priced [q] is priced no worse than one priced
    [p]: no lower for a bid, no higher for an ask. *)
Definition no_worse (sd : book_side) (p q : string) : Prop :=
  match sd with
  | Buy => (toNumber p ≤ toNumber q)%Qc
  | Sell => (toNumber q ≤ toNumber p)%Qc
  end.

#[global] Instance no_worse_dec sd p q : Decision (no_worse sd p q).
Proof. destruct sd; simpl; apply _. Defined.

(** The rows a handler handed to the sink; none when it raised. *)
Definition emitted_rows {B : Type} (r : result (outcome B)) : list row :=
  match r with
  | Ok out => emitted out
  | Throw _ => []
  end.

(** ** Auxiliary notions for the proofs *)

(** The two branches of Kucoin's upsert. *)
Definition kucoin_upsert (levels : list Kucoin.level) (p : string) (s : value)
  : list Kucoin.level :=
  match list_find (λ l : Kucoin.level, l.1 = p) levels with
  | Some (i, existingLevel) => <[i := (existingLevel.1, s)]> levels
  | None => levels ++ [(p, s)]
  end.

(** What every Kucoin side satisfies once a change has been applied to
    it. *)
Definition kucoin_side_ok (t : Kucoin.type) (levels : list Kucoin.level) : Prop :=
  StronglySorted (λ a b, (Kucoin.cmp t a b ≤ 0)%Qc) levels
  ∧ length levels ≤ 50
  ∧ NoDup levels.*1.

(** The patch [u2] supplies every field that [u1] supplies. *)
Definition supplies_all (u2 u1 : BitMEX.patch) : Prop :=
  (is_Some (BitMEX.u_symbol u1) → is_Some (BitMEX.u_symbol u2))
  ∧ (is_Some (BitMEX.u_side u1) → is_Some (BitMEX.u_side u2))
  ∧ (is_Some (BitMEX.u_size u1) → is_Some (BitMEX.u_size u2))
  ∧ (is_Some (BitMEX.u_price u1) → is_Some (BitMEX.u_price u2))
  ∧ (is_Some (BitMEX.u_timestamp u1) → is_Some (BitMEX.u_timestamp u2)).

(** The key of a Binance order: its price on its side. *)
Definition binance_key (o : Binance.order) : string * book_side :=
  (Binance.price o, Binance.side o).

(** ** Books and messages of the examples *)

(** The scenario of the specification: asks at 100 and 101, a bid at 99,
    then an ask at 100.5; and a deletion of the bid. *)
Definition scenario_bids : list (string * value) := [("99", VStr "1")].

Definition scenario_asks : list (string * value) :=
  [("100", VStr "1"); ("101", VStr "2")].

Definition binance_scenario_events : list (book_side * (string * value)) :=
  [(Sell, ("100.5", VStr "1")); (Buy, ("99", VStr "0.00000000"))].

Definition kucoin_scenario_events : list (Kucoin.type * Kucoin.level) :=
  [(Kucoin.asks, ("100.5", VStr "1")); (Kucoin.bids, ("99", VStr "0"))].

Definition kucoin_sorted_asks : Kucoin.orderBook :=
  Kucoin.snapshot scenario_bids scenario_asks.

(** Three Kucoin bids, best first, and one ask. *)
Definition kucoin_three_bids : Kucoin.orderBook :=
  Kucoin.snapshot
    [("100", VStr "1"); ("99", VStr "2"); ("98", VStr "3")]
    [("101", VStr "1")].

(** An update that touches the asks only. *)
Definition kucoin_l2update : Kucoin.message :=
  kucoin_change Kucoin.asks ("102", VStr "4").

(** The greeting Kucoin sends when the socket opens. *)
Definition kucoin_welcome : Kucoin.message :=
  Kucoin.Message "welcome" "" None.

Definition binance_small_book : list Binance.order :=
  Binance.snapshot [] [("99", VStr "1.00000000")]
    [("100", VStr "1.00000000"); ("101", VStr "2.00000000")].

(** A message that is not a depth update, such as the reply to a
    subscription request. *)
Definition binance_reply : Binance.message := Binance.Message None None.

Definition kraken_asks : gmap string value :=
  Kraken.fromPairs [("100.0", VStr "1.00000000"); ("101.0", VStr "2.00000000")].

Definition kraken_bids : gmap string value :=
  Kraken.fromPairs [("99.0", VStr "1.00000000")].

Definition kraken_small_book : Kraken.orderbook :=
  Kraken.Orderbook (Some kraken_asks) (Some kraken_bids).

Definition bitmex_table : string := "orderBookL2_25".

Definition bitmex_two_bids : list BitMEX.order :=
  [ BitMEX.Order "XBTUSD" 1 Buy (Q2Qc 10) (Q2Qc 50) "t0";
    BitMEX.Order "XBTUSD" 2 Buy (Q2Qc 5) (Q2Qc 40) "t0" ].

(** The second bid resized from 5 to 7, then to 6. *)
Definition bitmex_resize_second_first : BitMEX.patch :=
  BitMEX.Patch 2 None None (Some (Q2Qc 7)) None None.

(** The second bid resized from 5 to 6. *)
Definition bitmex_resize_second : BitMEX.patch :=
  BitMEX.Patch 2 None None (Some (Q2Qc 6)) None None.

Definition bitmex_two_bids_resized : list BitMEX.order :=
  [ BitMEX.Order "XBTUSD" 1 Buy (Q2Qc 10) (Q2Qc 50) "t0";
    BitMEX.Order "XBTUSD" 2 Buy (Q2Qc 6) (Q2Qc 40) "t0" ].

(** An order that reuses the id of the first bid. *)
Definition bitmex_duplicate_of_first : BitMEX.order :=
  BitMEX.Order "XBTUSD" 1 Buy (Q2Qc 7) (Q2Qc 51) "t1".

(** A bid at price zero next to a bid at 50. *)
Definition bitmex_zero_price_book : list BitMEX.order :=
  [ BitMEX.Order "XBTUSD" 1 Buy (Q2Qc 10) (Q2Qc 0) "t0";
    BitMEX.Order "XBTUSD" 2 Buy (Q2Qc 100) (Q2Qc 50) "t0" ].

(** The greeting BitMEX sends when the socket opens: no [table]. *)
Definition bitmex_info : BitMEX.message :=
  BitMEX.Message "" (BitMEX.other "").

(** ** The message loop and further notions

    [ws.on('message', handleOrderBook)]: the handler runs on each message
    in turn, on the book the previous run left; an uncaught exception ends
    the process.  Each message comes with the time it was received; the
    loop yields the last book and the outcome of every run. *)

Fixpoint message_loop {B M : Type}
    (handle : string → B → M → result (outcome B))
    (ob : B) (ms : list (string * M)) : result (B * list (outcome B)) :=
  match ms with
  | [] => Ok (ob, [])
  | (ts, m) :: ms' =>
      match handle ts ob m with
      | Throw e => Throw e
      | Ok out =>
          match message_loop handle (book_after out) ms' with
          | Throw e => Throw e
          | Ok (ob', outs) => Ok (ob', out :: outs)
          end
      end
  end.

(** A Binance message that has both arrays, and the changes it carries in
    the order the handler applies them: bids, then asks. *)
Definition binance_complete (m : Binance.message) : Prop :=
  is_Some (Binance.m_bids m) ∧ is_Some (Binance.m_asks m).

Definition binance_events (m : Binance.message)
  : list (book_side * (string * value)) :=
  ((λ u, (Buy, u)) <$> default [] (Binance.m_bids m))
  ++ ((λ u, (Sell, u)) <$> default [] (Binance.m_asks m)).

(** The changes of a Kucoin message in the order the handler applies them:
    asks, then bids. *)
Definition kucoin_events (c : Kucoin.changes)
  : list (Kucoin.type * Kucoin.level) :=
  ((λ change, (Kucoin.asks, change)) <$> Kucoin.c_asks c)
  ++ ((λ change, (Kucoin.bids, change)) <$> Kucoin.c_bids c).

(** A Kraken book whose two sides have been defined by a snapshot. *)
Definition kraken_synced (ob : Kraken.orderbook) : Prop :=
  is_Some (Kraken.asks ob) ∧ is_Some (Kraken.bids ob).

(** The BitMEX book after the data of a message has been applied. *)
Definition bitmex_next (ob : list BitMEX.order) (a : BitMEX.action)
  : list BitMEX.order :=
  match a with
  | BitMEX.partial data => data
  | BitMEX.insert data => foldl BitMEX.applyInsert ob data
  | BitMEX.update data => foldl BitMEX.applyUpdate ob data
  | BitMEX.delete data => foldl BitMEX.applyDelete ob data
  | BitMEX.other _ => ob
  end.

(** What holds of the BitMEX state at start and after every message: the
    remembered book is the book, or nothing was inserted yet and the book
    is empty. *)
Definition bitmex_settled (st : BitMEX.state) : Prop :=
  BitMEX.lastInsertedOrderBook st = Some (BitMEX.orderBook st)
  ∨ st = BitMEX.State [] None.

(** Two Binance messages received in turn, each with the time it came. *)
Definition binance_two_messages : list (string * Binance.message) :=
  [ ("t1", binance_update Buy ("98", VStr "1.00000000"));
    ("t2", binance_update Sell ("100", VStr "0.00000000")) ].

(** The shape of one batch of rows: every row carries the batch's time and
    the venue's name; [k1] rows of the first side, then [k2] rows of the
    second, each block numbered from 1. *)
Definition batch_shape (ts pf t1 t2 : string) (k1 k2 : nat) (rows : list row)
  : Prop :=
  timestamp <$> rows = replicate (k1 + k2) ts
  ∧ platform <$> rows = replicate (k1 + k2) pf
  ∧ order_type <$> rows = replicate k1 t1 ++ replicate k2 t2
  ∧ order_level <$> rows = seq 1 k1 ++ seq 1 k2.

(** The projected side of a BitMEX book and of a Kraken book. *)
Definition bitmex_top (sd : book_side) (n : nat) (ob : list BitMEX.order)
  : list BitMEX.order :=
  match sd with
  | Buy => take n (BitMEX.sorted_bids ob)
  | Sell => take n (BitMEX.sorted_asks ob)
  end.

Definition kraken_side (sd : book_side) (ob : Kraken.orderbook)
  : option (gmap string value) :=
  match sd with
  | Buy => Kraken.bids ob
  | Sell => Kraken.asks ob
  end.

Definition kraken_top (sd : book_side) (n : nat) (ob : Kraken.orderbook)
  : list (string * value) :=
  match sd with
  | Buy => take n (Kraken.orderedBids ob)
  | Sell => take n (Kraken.orderedAsks ob)
  end.

(** The same comparison on prices that are numbers. *)
Definition no_worse_price (sd : book_side) (p q : Qc) : Prop :=
  match sd with
  | Buy => (p ≤ q)%Qc
  | Sell => (q ≤ p)%Qc
  end.

(** The BitMEX book after a sequence of messages; a message of another
    table leaves it as it is. *)
Definition bitmex_replay (ob : list BitMEX.order)
    (ms : list (string * BitMEX.message)) : list BitMEX.order :=
  foldl (λ ob tm,
      if bool_decide (BitMEX.table tm.2 = "orderBookL2_25")
      then bitmex_next ob (BitMEX.act tm.2) else ob)
    ob ms.

(** A snapshot, the greeting, an update that resizes the second bid, and
    the same update once more. *)
Definition bitmex_four_messages : list (string * BitMEX.message) :=
  [ ("t1", BitMEX.Message bitmex_table (BitMEX.partial bitmex_two_bids));
    ("t2", bitmex_info);
    ("t3", BitMEX.Message bitmex_table (BitMEX.update [bitmex_resize_second]));
    ("t4", BitMEX.Message bitmex_table (BitMEX.update [bitmex_resize_second])) ].

(** An update for an order the book does not hold. *)
Definition bitmex_resize_unknown : BitMEX.patch :=
  BitMEX.Patch 7 None None (Some (Q2Qc 6)) None None.

(** What one side of a Kraken book holds at a price once a list of updates
    has been applied: the last update for the price decides. *)
Definition kraken_decided (levels : gmap string value)
    (updates : list (string * value)) (p : string) : option value :=
  match last (filter (λ u : string * value, u.1 = p) updates) with
  | None => levels !! p
  | Some u => if strict_eq u.2 (VStr "0.00000000") then None else Some u.2
  end.

(** A Kraken snapshot, a heartbeat and an update of both sides. *)
Definition kraken_three_messages : list (string * option Kraken.payload) :=
  [ ("t1", Some (Kraken.Payload
                   (Some [("100.0", VStr "1.00000000"); ("101.0", VStr "2.00000000")])
                   (Some [("99.0", VStr "1.00000000")]) None None));
    ("t2", None);
    ("t3", Some (Kraken.Payload None None
                   (Some [("100.0", VStr "0.00000000")])
                   (Some [("98.0", VStr "3.00000000")]))) ].

(** The ask at 100.0 deleted and set again within one message. *)
Definition kraken_delete_then_set : list (string * value) :=
  [("100.0", VStr "0.00000000"); ("100.0", VStr "3.00000000")].

(** The welcome, an update of the asks and a deletion of the bid. *)
Definition kucoin_three_messages : list (string * Kucoin.message) :=
  [ ("t1", kucoin_welcome);
    ("t2", kucoin_l2update);
    ("t3", kucoin_change Kucoin.bids ("99", VStr "0")) ].

(** A full side: the 50 asks priced 100, 101, ..., 149. *)
Definition decimal_digit (n : nat) : ascii := ascii_of_nat (48 + n).

Definition kucoin_full_asks : list Kucoin.level :=
  (λ i, (String "1" (String (decimal_digit (i / 10))
                       (String (decimal_digit (i mod 10)) EmptyString)),
         VStr "1"))
  <$> seq 0 50.

(** A book into which the stream has already put a bid at 99 when the REST
    response arrives. *)
Definition binance_early_bid : list Binance.order :=
  [Binance.Order "99" (VStr "5.00000000") Buy].

(** ** The check of [numLevel] at start-up

    [if (cfgNumLevels < 1 || cfgNumLevels > limit) console.error(..., err)]:
    no script declares [err], so evaluating the arguments of the call
    raises a ReferenceError before anything is written.  The result holds
    the lines written to the console. *)
Definition checkNumLevels (limit : nat) (cfg : config) : result (list string) :=
  if bool_decide (numLevel cfg < 1 ∨ limit < numLevel cfg)
  then Throw "ReferenceError: err is not defined"
  else Ok [].

(** An ask at the price of a stored ask, spelled differently. *)
Definition binance_respelled_ask : list (book_side * (string * value)) :=
  [(Sell, ("100.0", VStr "3"))].

(** Two asks in the order 101, 100. *)
Definition kucoin_unsorted_asks : list Kucoin.level :=
  [("101", VStr "2"); ("100", VStr "1")].

(** A change of the second bid's price alone, and the second bid after it. *)
Definition bitmex_reprice_second : BitMEX.patch :=
  BitMEX.Patch 2 None None None (Some (Q2Qc 41)) None.

(** The orders of a Binance book at one price and side, oldest first, and
    the events that delete at that price and side. *)
Definition binance_at_key (p : string) (sd : book_side)
    (ob : list Binance.order) : list Binance.order :=
  filter (λ o, binance_key o = (p, sd)) ob.

Definition binance_deletes (p : string) (sd : book_side)
    (e : book_side * (string * value)) : Prop :=
  e.1 = sd ∧ e.2.1 = p ∧ strict_eq e.2.2 (VStr "0.00000000") = true.

#[global] Instance binance_deletes_dec p sd e : Decision (binance_deletes p sd e).
Proof. unfold binance_deletes. apply _. Defined.

(** The bid at 99 rewritten, and an ask deleted. *)
Definition binance_rewrite_bid : list (book_side * (string * value)) :=
  [(Buy, ("99", VStr "7")); (Sell, ("100", VStr "0.00000000"))].

(** What a row carries apart from its volume. *)
Definition row_heading (r : row) : string * string * nat * string * value :=
  (timestamp r, platform r, order_level r, order_type r, row_price r).

(** The events that set a quantity at a price and side. *)
Definition binance_rewrites (p : string) (sd : book_side)
    (e : book_side * (string * value)) : Prop :=
  e.1 = sd ∧ e.2.1 = p ∧ strict_eq e.2.2 (VStr "0.00000000") = false.

#[global] Instance binance_rewrites_dec p sd e : Decision (binance_rewrites p sd e).
Proof. unfold binance_rewrites. apply _. Defined.

(** ** Binance: the order objects

    The book of [binance20.js] is an array of objects.  [filter], [sort]
    and [slice] copy the array, not the objects, and
    [orderBook[index].quantity = quantity] rewrites an object in place.
    [insertOrderBookToDB] builds a row, waits for its INSERT, and only then
    builds the next row, so a row can be built after later messages have
    been handled, from an object those messages have rewritten.  Here the
    objects are numbered in the order they are created; a store holds
    every object created so far and the array of the numbers of the
    objects in the book. *)

Module BinanceObjects.

Record store : Type := Store {
  objects : list Binance.order;
  orderBook : list nat
}.

(** [order.price === price && order.side === sd] of the object numbered
    [r]. *)
Definition is_at (st : store) (p : string) (sd : book_side) (r : nat) : Prop :=
  Binance.price <$> objects st !! r = Some p
  ∧ Binance.side <$> objects st !! r = Some sd.

#[global] Instance is_at_dec st p sd r : Decision (is_at st p sd r).
Proof. unfold is_at. apply _. Defined.

(** The REST response: a new object per level, pushed onto the array. *)
Definition snapshot (st : store) (res_bids res_asks : list (string * value))
  : store :=
  let new := ((λ bid, Binance.Order bid.1 bid.2 Buy) <$> res_bids)
             ++ ((λ ask, Binance.Order ask.1 ask.2 Sell) <$> res_asks) in
  Store (objects st ++ new)
    (orderBook st ++ seq (length (objects st)) (length new)).

(** The body of the two [for] loops of [handleOrderBook]. *)
Definition applyUpdate (sd : book_side) (st : store) (u : string * value)
  : store :=
  let p := u.1 in
  let q := u.2 in
  let index := findIndex (is_at st p sd) (orderBook st) in
  if strict_eq q (VStr "0.00000000") then
    match index with
    | Some i => Store (objects st) (delete i (orderBook st))
    | None => st
    end
  else
    match index with
    | Some i =>
        match orderBook st !! i with
        | Some r =>
            Store (alter (Binance.set_quantity q) r (objects st)) (orderBook st)
        | None => st
        end
    | None =>
        Store (objects st ++ [Binance.Order p q sd])
          (orderBook st ++ [length (objects st)])
    end.

Definition run (st : store) (events : list (book_side * (string * value)))
  : store :=
  foldl (λ st e, applyUpdate e.1 st e.2) st events.

(** The array as the handler reads it: the objects of the book, in order;
    and each of them with its number. *)
Definition contents (st : store) : list Binance.order :=
  omap (λ r, objects st !! r) (orderBook st).

Definition entries (st : store) : list (nat * Binance.order) :=
  omap (λ r, (λ o, (r, o)) <$> objects st !! r) (orderBook st).

(** [filter], [sort] and [slice] of [insertOrderBookToDB]: arrays of the
    objects of the book. *)
Definition top_bids (n : nat) (st : store) : list (nat * Binance.order) :=
  take n (js_sort
            (λ a b, toNumber (Binance.price b.2) - toNumber (Binance.price a.2))%Qc
            (filter (λ e, Binance.side e.2 = Buy) (entries st))).

Definition top_asks (n : nat) (st : store) : list (nat * Binance.order) :=
  take n (js_sort
            (λ a b, toNumber (Binance.price a.2) - toNumber (Binance.price b.2))%Qc
            (filter (λ e, Binance.side e.2 = Sell) (entries st))).

(** A row that is still to be built: its type, its level and the number of
    its object. *)
Record pending : Type := Pending {
  row_type : string;
  row_level : nat;
  row_object : nat
}.

#[global] Instance pending_eq_dec : EqDecision pending.
Proof. solve_decision. Defined.

(** The rows a call of [insertOrderBookToDB] is going to build. *)
Definition batch (cfg : config) (st : store) : list pending :=
  with_levels (λ i e, Pending "Bid" i e.1) (top_bids (numLevel cfg) st)
  ++ with_levels (λ i e, Pending "Ask" i e.1) (top_asks (numLevel cfg) st).

(** A row as it is built when its turn comes, from its object as the
    object is then. *)
Definition build (cfg : config) (ts : string) (st : store) (w : pending)
  : option row :=
  (λ o, Row ts "Binance" (row_level w) (row_type w)
          (VStr (Binance.price o)) (Binance.volume_of (baseVolume cfg) o))
  <$> objects st !! row_object w.

(** Every number in the array is the number of an object, and no object is
    in the array twice. *)
Definition wf (st : store) : Prop :=
  NoDup (orderBook st) ∧ Forall (λ r, r < length (objects st)) (orderBook st).

End BinanceObjects.

(** A store built from the response of the scenario, and a change that
    rewrites the quantity of the ask at 100. *)
Definition binance_scenario_store : BinanceObjects.store :=
  BinanceObjects.snapshot (BinanceObjects.Store [] []) scenario_bids scenario_asks.

Definition binance_rewrite_ask : list (book_side * (string * value)) :=
  [(Sell, ("100", VStr "9"))].

(** * Properties *)

(** Closed equations between computed results are decided by evaluation. *)
Ltac by_evaluation := apply (bool_decide_eq_true_1 _); vm_compute; reflexivity.

(** ** The stable sort *)

Lemma filter_Forall {A} (P : A → Prop) `{∀ x, Decision (P x)} (l : list A) :
  Forall P l → filter P l = l.
Proof.
  induction 1 as [|x l Hx _ IH]; [done|].
  by rewrite filter_cons_True, IH.
Qed.

Section JsSortFacts.
Context {A : Type} (cmp : A → A → Qc).

Abbreviation before := (λ a b : A, (cmp a b ≤ 0)%Qc).

Hypothesis cmp_total : ∀ a b, before a b ∨ before b a.
Hypothesis cmp_trans : ∀ a b c, before a b → before b c → before a c.

Lemma js_sort_snoc l x :
  js_sort cmp (l ++ [x]) = insert_sorted cmp x (js_sort cmp l).
Proof. unfold js_sort. by rewrite foldl_app. Qed.

Lemma insert_sorted_Permutation x l : insert_sorted cmp x l ≡ₚ x :: l.
Proof.
  induction l as [|y l IH]; simpl; [done|].
  case_bool_decide; [|done].
  rewrite IH. apply Permutation_swap.
Qed.

Lemma js_sort_Permutation l : js_sort cmp l ≡ₚ l.
Proof.
  induction l as [|x l IH] using rev_ind; [done|].
  rewrite js_sort_snoc, insert_sorted_Permutation, IH.
  by rewrite Permutation_cons_append.
Qed.

Lemma length_js_sort l : length (js_sort cmp l) = length l.
Proof. by rewrite js_sort_Permutation. Qed.

Lemma insert_sorted_StronglySorted x l :
  StronglySorted before l → StronglySorted before (insert_sorted cmp x l).
Proof.
  induction 1 as [|y l Hl IH Hy]; simpl.
  { repeat constructor. }
  case_bool_decide as Hyx.
  - constructor; [done|].
    rewrite insert_sorted_Permutation. by constructor.
  - assert (before x y) as Hxy.
    { destruct (cmp_total x y) as [?|?]; [done|by destruct Hyx]. }
    constructor; [by constructor|].
    constructor; [done|].
    eapply Forall_impl; [exact Hy|]. intros z Hz. exact (cmp_trans x y z Hxy Hz).
Qed.

Lemma js_sort_StronglySorted l : StronglySorted before (js_sort cmp l).
Proof.
  induction l as [|x l IH] using rev_ind; [constructor|].
  rewrite js_sort_snoc. by apply insert_sorted_StronglySorted.
Qed.

(** Inserting an element that every element may precede appends it. *)
Lemma insert_sorted_last x l :
  Forall (λ y, before y x) l → insert_sorted cmp x l = l ++ [x].
Proof.
  induction 1 as [|y l Hy _ IH]; simpl; [done|].
  rewrite bool_decide_eq_true_2 by done. by rewrite IH.
Qed.

(** Sorting a sorted array leaves it as it is. *)
Lemma js_sort_sorted l : StronglySorted before l → js_sort cmp l = l.
Proof.
  induction l as [|x l IH] using rev_ind; [done|].
  intros (Hx & Hl & _)%StronglySorted_app.
  rewrite js_sort_snoc, IH by done.
  apply insert_sorted_last, Forall_forall. intros y Hy.
  apply Hx; [done|]. by apply list_elem_of_singleton.
Qed.

Lemma StronglySorted_take n l :
  StronglySorted before l → StronglySorted before (take n l).
Proof.
  intros Hl. rewrite <-(take_drop n l) in Hl.
  by apply StronglySorted_app_1_l in Hl.
Qed.

(** Cutting before or after an insertion gives the same first [n]. *)
Lemma take_insert_sorted_take n x l :
  take n (insert_sorted cmp x (take n l)) = take n (insert_sorted cmp x l).
Proof.
  revert n. induction l as [|y l IH]; intros [|n]; simpl; try done.
  case_bool_decide; simpl; [by rewrite IH|].
  f_equal. destruct n as [|n]; simpl; [done|].
  by rewrite take_take, Nat.min_l by lia.
Qed.
End JsSortFacts.

(** *** Comparators that subtract two numeric keys *)

Lemma Qc_sub_le_0 (x y : Qc) : (x - y ≤ 0 ↔ x ≤ y)%Qc.
Proof.
  split; intros H.
  - apply (Qcplus_le_mono_r _ _ (- y)%Qc). by rewrite Qcplus_opp_r.
  - apply (Qcplus_le_mono_r _ _ (- y)%Qc) in H. by rewrite Qcplus_opp_r in H.
Qed.

Section KeyComparators.
Context {A : Type} (key : A → Qc).

Lemma ascending_total a b :
  (ascending key a b ≤ 0)%Qc ∨ (ascending key b a ≤ 0)%Qc.
Proof.
  unfold ascending. rewrite !Qc_sub_le_0.
  destruct (Qclt_le_dec (key b) (key a)); [right|left]; [|done].
  by apply Qclt_le_weak.
Qed.

Lemma ascending_trans a b c :
  (ascending key a b ≤ 0)%Qc → (ascending key b c ≤ 0)%Qc → (ascending key a c ≤ 0)%Qc.
Proof. unfold ascending. rewrite !Qc_sub_le_0. apply Qcle_trans. Qed.

Lemma descending_total a b :
  (descending key a b ≤ 0)%Qc ∨ (descending key b a ≤ 0)%Qc.
Proof. destruct (ascending_total a b); [right|left]; done. Qed.

Lemma descending_trans a b c :
  (descending key a b ≤ 0)%Qc → (descending key b c ≤ 0)%Qc → (descending key a c ≤ 0)%Qc.
Proof. intros H1 H2. exact (ascending_trans c b a H2 H1). Qed.
End KeyComparators.

(** ** Volume conversion *)

Lemma js_mul_comm a b : js_mul a b = js_mul b a.
Proof.
  destruct a as [x| | |], b as [y| | |]; simpl; try done.
  by rewrite Qcmult_comm.
Qed.

Lemma Qc_eq_compute (x y : Qc) : bool_decide (x = y) = true → x = y.
Proof. apply bool_decide_eq_true_1. Qed.

(** C2. Each script's [switch] on the volume flag is the specified
    conversion for its venue's native unit: Binance and Kraken report base
    currency, so the size is kept for [baseVolume = true] and multiplied by
    the price otherwise; BitMEX reports quote currency, so the size is
    divided by the price for [baseVolume = true] and kept otherwise.  With
    [baseVolume = false], native unit base, price 20000 and size 0.5 the
    volume is 10000. *)
Theorem C2_normalize :
  (∀ flag o,
     Binance.volume_of flag o
     = normalize (VStr (Binance.price o)) (Binance.quantity o) Base (wanted flag))
  ∧ (∀ flag o,
     VNum (BitMEX.volume_of flag o)
     = normalize (VNum (Fin (BitMEX.price o))) (VNum (Fin (BitMEX.size o)))
         Quote (wanted flag))
  ∧ (∀ flag price vol,
     Kraken.finalVolume flag price vol
     = valueToNumber (normalize (VStr price) vol Base (wanted flag)))
  ∧ (∀ price size unit, normalize price size unit unit = size)
  ∧ (∀ price size,
     normalize price size Base Quote
     = VNum (js_mul (valueToNumber size) (valueToNumber price)))
  ∧ (∀ price size,
     normalize price size Quote Base
     = VNum (js_div (valueToNumber size) (valueToNumber price)))
  ∧ Binance.volume_of false (Binance.Order "20000" (VStr "0.5") Buy)
    = VNum (Fin (Q2Qc 10000)).
Proof.
  split_and!.
  - intros [] o; unfold Binance.volume_of, normalize; simpl; [done|].
    by rewrite js_mul_comm.
  - by intros [] o.
  - by intros [] price vol.
  - intros price size unit. unfold normalize.
    by rewrite bool_decide_eq_true_2.
  - done.
  - done.
  - unfold Binance.volume_of; simpl. do 2 f_equal.
    by apply Qc_eq_compute; vm_compute.
Qed.

(** ** Rows and levels *)

Lemma length_with_levels {A B} (f : nat → A → B) l :
  length (with_levels f l) = length l.
Proof. unfold with_levels. apply length_imap. Qed.

Lemma elem_of_with_levels {A B} (f : nat → A → B) l y :
  y ∈ with_levels f l ↔ ∃ i x, l !! i = Some x ∧ y = f (S i) x.
Proof.
  unfold with_levels. rewrite list_elem_of_lookup. split.
  - intros [i Hi]. rewrite list_lookup_imap in Hi.
    destruct (l !! i) as [x|] eqn:Hx; simplify_eq/=. by exists i, x.
  - intros (i & x & Hx & ->). exists i.
    by rewrite list_lookup_imap, Hx.
Qed.

(** ** BitMEX: rows, the gate, and inserts *)

(** C4, as claimed, fails: with [baseVolume = true] the bid whose price is
    zero is not skipped; its row is written with an infinite volume, next
    to the row of the other bid, and nothing is logged. *)
Lemma C4_zero_price_row_emitted :
  BitMEX.handleOrderBook (Config 25 true) "ts" (BitMEX.State [] None)
    (BitMEX.Message "orderBookL2_25" (BitMEX.partial bitmex_zero_price_book))
  = Ok (Outcome
          (BitMEX.State bitmex_zero_price_book (Some bitmex_zero_price_book))
          [ Row "ts" "BitMEX" 1 "Bid" (VNum (Fin (Q2Qc 50))) (VNum (Fin (Q2Qc 2)));
            Row "ts" "BitMEX" 2 "Bid" (VNum (Fin (Q2Qc 0))) (VNum PlusInf) ]
          []).
Proof. by_evaluation. Qed.

Lemma js_div_zero_not_finite o q :
  BitMEX.price o = Q2Qc 0 → BitMEX.volume_of true o ≠ Fin q.
Proof.
  intros Hprice. unfold BitMEX.volume_of, js_div. rewrite Hprice.
  change (Qc_sign (Q2Qc 0)) with 0%Z.
  by destruct (Qc_sign (BitMEX.size o)).
Qed.

Lemma BitMEX_handleOrderBook_total cfg ts st m :
  ∃ out, BitMEX.handleOrderBook cfg ts st m = Ok out.
Proof. unfold BitMEX.handleOrderBook. case_bool_decide; eauto. Qed.

Lemma BitMEX_length_rows cfg ob ts :
  length (BitMEX.rows cfg ob ts)
  = numLevel cfg `min` length (filter (λ o, BitMEX.side o = Buy) ob)
    + numLevel cfg `min` length (filter (λ o, BitMEX.side o = Sell) ob).
Proof.
  unfold BitMEX.rows, BitMEX.sorted_bids, BitMEX.sorted_asks.
  by rewrite length_app, !length_with_levels, !length_take, !length_js_sort.
Qed.

(** C4, amended. The BitMEX record builder writes one row for every
    projected order whatever its price: the number of rows is the number of
    projected bids plus the number of projected asks, each projected order
    has a row carrying its price and its volume, with [baseVolume = true]
    that volume is the quotient [size / price] of the language (an infinity
    or [NaN], never a finite number, at price zero), and the handler never
    raises. *)
Theorem C4_every_projected_order_has_a_row cfg ts :
  (∀ st m, ∃ out, BitMEX.handleOrderBook cfg ts st m = Ok out)
  ∧ (∀ ob,
      length (BitMEX.rows cfg ob ts)
      = numLevel cfg `min` length (filter (λ o, BitMEX.side o = Buy) ob)
        + numLevel cfg `min` length (filter (λ o, BitMEX.side o = Sell) ob))
  ∧ (∀ ob o,
      o ∈ take (numLevel cfg) (BitMEX.sorted_bids ob)
          ++ take (numLevel cfg) (BitMEX.sorted_asks ob) →
      ∃ r, r ∈ BitMEX.rows cfg ob ts
           ∧ row_price r = VNum (Fin (BitMEX.price o))
           ∧ volume r = VNum (BitMEX.volume_of (baseVolume cfg) o))
  ∧ (∀ o, BitMEX.volume_of true o
          = js_div (Fin (BitMEX.size o)) (Fin (BitMEX.price o)))
  ∧ (∀ o q, BitMEX.price o = Q2Qc 0 → BitMEX.volume_of true o ≠ Fin q).
Proof.
  split_and!; [intros; apply BitMEX_handleOrderBook_total
              |intros; apply BitMEX_length_rows| |done
              |intros o q Hprice; apply js_div_zero_not_finite, Hprice].
  intros ob o [Ho|Ho]%elem_of_app;
    apply list_elem_of_lookup in Ho as [i Hi]; unfold BitMEX.rows.
  - exists (Row ts "BitMEX" (S i) "Bid" (VNum (Fin (BitMEX.price o)))
              (VNum (BitMEX.volume_of (baseVolume cfg) o))).
    split; [|done]. apply elem_of_app; left. apply elem_of_with_levels.
    by exists i, o.
  - exists (Row ts "BitMEX" (S i) "Ask" (VNum (Fin (BitMEX.price o)))
              (VNum (BitMEX.volume_of (baseVolume cfg) o))).
    split; [|done]. apply elem_of_app; right. apply elem_of_with_levels.
    by exists i, o.
Qed.

Lemma C4_every_projected_order_has_a_row_witness :
  BitMEX.Order "XBTUSD" 1 Buy (Q2Qc 10) (Q2Qc 0) "t0"
    ∈ take 25 (BitMEX.sorted_bids bitmex_zero_price_book)
      ++ take 25 (BitMEX.sorted_asks bitmex_zero_price_book)
  ∧ ∃ r, r ∈ BitMEX.rows (Config 25 true) bitmex_zero_price_book "ts"
         ∧ row_price r = VNum (Fin (Q2Qc 0))
         ∧ volume r = VNum PlusInf.
Proof.
  assert (BitMEX.Order "XBTUSD" 1 Buy (Q2Qc 10) (Q2Qc 0) "t0"
    ∈ take 25 (BitMEX.sorted_bids bitmex_zero_price_book)
      ++ take 25 (BitMEX.sorted_asks bitmex_zero_price_book)) as Hin.
  { apply (bool_decide_eq_true_1 _). vm_compute. reflexivity. }
  split; [exact Hin|].
  destruct (C4_every_projected_order_has_a_row (Config 25 true) "ts")
    as (_ & _ & H & _ & _).
  destruct (H bitmex_zero_price_book _ Hin) as (r & Hr & Hp & Hv).
  exists r. split_and!; [exact Hr|exact Hp|].
  rewrite Hv. apply (bool_decide_eq_true_1 _). vm_compute. reflexivity.
Defined.

(** C3, as claimed, fails: with one level retained, resizing the second
    best bid leaves the rendered projection as it was, yet the second call
    is not suppressed and writes the same row again. *)
Lemma C3_identical_projection_emitted_again :
  BitMEX.handleOrderBook (Config 1 false) "t1" (BitMEX.State [] None)
    (BitMEX.Message bitmex_table (BitMEX.partial bitmex_two_bids))
  = Ok (Outcome (BitMEX.State bitmex_two_bids (Some bitmex_two_bids))
          [Row "t1" "BitMEX" 1 "Bid" (VNum (Fin (Q2Qc 50))) (VNum (Fin (Q2Qc 10)))]
          [])
  ∧ BitMEX.rows (Config 1 false) bitmex_two_bids "t"
    = BitMEX.rows (Config 1 false) bitmex_two_bids_resized "t"
  ∧ BitMEX.handleOrderBook (Config 1 false) "t2"
      (BitMEX.State bitmex_two_bids (Some bitmex_two_bids))
      (BitMEX.Message bitmex_table (BitMEX.update [bitmex_resize_second]))
    = Ok (Outcome
            (BitMEX.State bitmex_two_bids_resized (Some bitmex_two_bids_resized))
            [Row "t2" "BitMEX" 1 "Bid" (VNum (Fin (Q2Qc 50))) (VNum (Fin (Q2Qc 10)))]
            []).
Proof. split_and!; by_evaluation. Qed.

Lemma same_as_last_true ob last :
  BitMEX.same_as_last ob last = true ↔ last = Some ob.
Proof.
  unfold BitMEX.same_as_last. rewrite bool_decide_eq_true. naive_solver.
Qed.

Lemma rows_differ_books_differ cfg ts (prev ob : list BitMEX.order) :
  BitMEX.rows cfg prev ts ≠ BitMEX.rows cfg ob ts → prev ≠ ob.
Proof. intros Hrows ->. by apply Hrows. Qed.

(** C3, amended. The gate compares the stored order book, every order with
    every field in stored order, with the book of the last call that was
    let through: the first call is always let through; a call whose book
    equals the last emitted book is suppressed, is logged, and leaves the
    remembered book as it was; a call whose book differs in any way is let
    through and becomes the remembered book, in particular whenever a row
    of the rendered projection differs. *)
Theorem C3_gate_compares_stored_book cfg ts ob :
  BitMEX.insertOrderBookToDB cfg (BitMEX.State ob None) ts
    = Outcome (BitMEX.State ob (Some ob)) (BitMEX.rows cfg ob ts) []
  ∧ BitMEX.insertOrderBookToDB cfg (BitMEX.State ob (Some ob)) ts
    = Outcome (BitMEX.State ob (Some ob)) [] ["Insertion Skipped"]
  ∧ (∀ prev, prev ≠ ob →
      BitMEX.insertOrderBookToDB cfg (BitMEX.State ob (Some prev)) ts
      = Outcome (BitMEX.State ob (Some ob)) (BitMEX.rows cfg ob ts) [])
  ∧ (∀ prev, BitMEX.rows cfg prev ts ≠ BitMEX.rows cfg ob ts →
      BitMEX.insertOrderBookToDB cfg (BitMEX.State ob (Some prev)) ts
      = Outcome (BitMEX.State ob (Some ob)) (BitMEX.rows cfg ob ts) []).
Proof.
  assert (∀ prev, prev ≠ ob →
    BitMEX.insertOrderBookToDB cfg (BitMEX.State ob (Some prev)) ts
    = Outcome (BitMEX.State ob (Some ob)) (BitMEX.rows cfg ob ts) []) as Hne.
  { intros prev Hprev. unfold BitMEX.insertOrderBookToDB; simpl.
    destruct (BitMEX.same_as_last ob (Some prev)) eqn:Hsame; [|done].
    apply same_as_last_true in Hsame. naive_solver. }
  split_and!.
  - unfold BitMEX.insertOrderBookToDB; simpl.
    destruct (BitMEX.same_as_last ob None) eqn:Hsame; [|done].
    by apply same_as_last_true in Hsame.
  - unfold BitMEX.insertOrderBookToDB; simpl.
    by rewrite (proj2 (same_as_last_true ob (Some ob))).
  - exact Hne.
  - intros prev Hrows. by eapply Hne, rows_differ_books_differ.
Qed.

Lemma C3_gate_compares_stored_book_witness :
  (bitmex_two_bids ≠ bitmex_two_bids_resized
   ∧ BitMEX.insertOrderBookToDB (Config 1 false)
       (BitMEX.State bitmex_two_bids_resized (Some bitmex_two_bids)) "t2"
     = Outcome
         (BitMEX.State bitmex_two_bids_resized (Some bitmex_two_bids_resized))
         (BitMEX.rows (Config 1 false) bitmex_two_bids_resized "t2") [])
  ∧ (BitMEX.rows (Config 2 false) bitmex_two_bids "t2"
       ≠ BitMEX.rows (Config 2 false) bitmex_two_bids_resized "t2"
     ∧ BitMEX.insertOrderBookToDB (Config 2 false)
         (BitMEX.State bitmex_two_bids_resized (Some bitmex_two_bids)) "t2"
       = Outcome
           (BitMEX.State bitmex_two_bids_resized (Some bitmex_two_bids_resized))
           (BitMEX.rows (Config 2 false) bitmex_two_bids_resized "t2") []).
Proof.
  assert (bitmex_two_bids ≠ bitmex_two_bids_resized) as Hbooks.
  { intros H. apply (f_equal (λ l, BitMEX.size <$> l !! 1%nat)) in H.
    vm_compute in H. discriminate H. }
  assert (BitMEX.rows (Config 2 false) bitmex_two_bids "t2"
          ≠ BitMEX.rows (Config 2 false) bitmex_two_bids_resized "t2") as Hrows.
  { intros H. apply (f_equal (λ l, volume <$> l !! 1%nat)) in H.
    vm_compute in H. discriminate H. }
  split; (split; [assumption|]).
  - destruct (C3_gate_compares_stored_book (Config 1 false) "t2"
                bitmex_two_bids_resized) as (_ & _ & Hbook & _).
    apply Hbook, Hbooks.
  - destruct (C3_gate_compares_stored_book (Config 2 false) "t2"
                bitmex_two_bids_resized) as (_ & _ & _ & Hrow).
    apply Hrow, Hrows.
Defined.

(** C5, as claimed, fails: inserting an order whose id is already in the
    book keeps the old order and adds the new one, so two orders carry
    that id. *)
Lemma C5_duplicate_insert_keeps_both :
  BitMEX.handleOrderBook (Config 25 false) "t1"
    (BitMEX.State bitmex_two_bids (Some bitmex_two_bids))
    (BitMEX.Message bitmex_table (BitMEX.insert [bitmex_duplicate_of_first]))
  = Ok (Outcome
          (BitMEX.State (bitmex_two_bids ++ [bitmex_duplicate_of_first])
             (Some (bitmex_two_bids ++ [bitmex_duplicate_of_first])))
          [ Row "t1" "BitMEX" 1 "Bid" (VNum (Fin (Q2Qc 51))) (VNum (Fin (Q2Qc 7)));
            Row "t1" "BitMEX" 2 "Bid" (VNum (Fin (Q2Qc 50))) (VNum (Fin (Q2Qc 10)));
            Row "t1" "BitMEX" 3 "Bid" (VNum (Fin (Q2Qc 40))) (VNum (Fin (Q2Qc 5))) ]
          [])
  ∧ length (filter (λ x, BitMEX.id x = 1%Z)
              (bitmex_two_bids ++ [bitmex_duplicate_of_first])) = 2.
Proof. split; by_evaluation. Qed.

(** C5, amended. An insert whose id is already present appends the new
    order behind the orders already stored: the book then holds one more
    order with that id than before, hence at least two, the earlier ones
    are kept as they were, and the handler does not raise. *)
Theorem C5_insert_appends cfg ts st o :
  (∃ o', o' ∈ BitMEX.orderBook st ∧ BitMEX.id o' = BitMEX.id o) →
  ∃ out,
    BitMEX.handleOrderBook cfg ts st
      (BitMEX.Message bitmex_table (BitMEX.insert [o])) = Ok out
    ∧ BitMEX.orderBook (book_after out) = BitMEX.orderBook st ++ [o]
    ∧ length (filter (λ x, BitMEX.id x = BitMEX.id o)
                (BitMEX.orderBook (book_after out)))
      = S (length (filter (λ x, BitMEX.id x = BitMEX.id o) (BitMEX.orderBook st)))
    ∧ 2 ≤ length (filter (λ x, BitMEX.id x = BitMEX.id o)
                    (BitMEX.orderBook (book_after out))).
Proof.
  intros (o' & Ho' & Hid). destruct st as [ob last]; simpl in *.
  assert (0 < length (filter (λ x, BitMEX.id x = BitMEX.id o) ob)) as Hpos.
  { assert (o' ∈ filter (λ x, BitMEX.id x = BitMEX.id o) ob) as Hin
      by (by apply list_elem_of_filter).
    destruct (filter _ ob); [by apply elem_of_nil in Hin|simpl; lia]. }
  assert (length (filter (λ x, BitMEX.id x = BitMEX.id o) (ob ++ [o]))
          = S (length (filter (λ x, BitMEX.id x = BitMEX.id o) ob))) as Hlen.
  { rewrite filter_app, length_app, filter_cons_True by done. simpl. lia. }
  unfold BitMEX.handleOrderBook, BitMEX.insertOrderBookToDB; simpl.
  unfold BitMEX.applyInsert.
  destruct (BitMEX.same_as_last _ last); simpl;
    (eexists; split; [done|]; simpl; split_and!; [done|done|lia]).
Qed.

Lemma C5_insert_appends_witness :
  (∃ o', o' ∈ bitmex_two_bids
         ∧ BitMEX.id o' = BitMEX.id bitmex_duplicate_of_first)
  ∧ ∃ out,
      BitMEX.handleOrderBook (Config 25 false) "t1"
        (BitMEX.State bitmex_two_bids (Some bitmex_two_bids))
        (BitMEX.Message bitmex_table (BitMEX.insert [bitmex_duplicate_of_first]))
      = Ok out
      ∧ BitMEX.orderBook (book_after out)
        = bitmex_two_bids ++ [bitmex_duplicate_of_first].
Proof.
  assert (∃ o', o' ∈ bitmex_two_bids
                ∧ BitMEX.id o' = BitMEX.id bitmex_duplicate_of_first) as Hdup.
  { eexists. split; [apply list_elem_of_here|reflexivity]. }
  split; [exact Hdup|].
  destruct (C5_insert_appends (Config 25 false) "t1"
              (BitMEX.State bitmex_two_bids (Some bitmex_two_bids))
              bitmex_duplicate_of_first Hdup) as (out & Hout & Hbook & _).
  exists out. split; [exact Hout|exact Hbook].
Defined.

(** ** Kucoin: the configured number of levels *)

(** C6 fails on Kucoin: with two levels configured and three bids in the
    book, an update that touches the asks writes a row of level 3; the rows
    are the whole book, which is cut at 50 levels whatever the
    configuration. *)
Theorem C6_kucoin_ignores_numLevel :
  Kucoin.handleOrderBook (Config 2 true) "ts" kucoin_three_bids kucoin_l2update
  = Ok (Outcome
          (Kucoin.OrderBook
             [("101", VStr "1"); ("102", VStr "4")]
             [("100", VStr "1"); ("99", VStr "2"); ("98", VStr "3")])
          [ Row "ts" "Kucoin" 1 "bids" (VStr "100") (VStr "1");
            Row "ts" "Kucoin" 2 "bids" (VStr "99") (VStr "2");
            Row "ts" "Kucoin" 3 "bids" (VStr "98") (VStr "3");
            Row "ts" "Kucoin" 1 "asks" (VStr "101") (VStr "1");
            Row "ts" "Kucoin" 2 "asks" (VStr "102") (VStr "4") ]
          [])
  ∧ ∀ cfg ts ob m,
      Kucoin.handleOrderBook cfg ts ob m
      = Kucoin.handleOrderBook (Config 50 (baseVolume cfg)) ts ob m.
Proof. split; [by_evaluation|done]. Qed.

(** The other three scripts cut each side at the configured number of
    levels before they number the rows. *)
Lemma with_levels_take_bound {A} (f : nat → A → row) n l r :
  (∀ i x, order_level (f i x) = i) →
  r ∈ with_levels f (take n l) → 1 ≤ order_level r ≤ n.
Proof.
  intros Hf (i & x & Hi & ->)%elem_of_with_levels. rewrite Hf.
  apply lookup_lt_Some in Hi. rewrite length_take in Hi. lia.
Qed.

Lemma rows_within_numLevel cfg ts r :
  (∀ ob, r ∈ Binance.insertOrderBookToDB cfg ob ts →
         1 ≤ order_level r ≤ numLevel cfg)
  ∧ (∀ ob, r ∈ Kraken.insertOrderBookToDB cfg ob ts →
           1 ≤ order_level r ≤ numLevel cfg)
  ∧ (∀ ob, r ∈ BitMEX.rows cfg ob ts → 1 ≤ order_level r ≤ numLevel cfg).
Proof.
  split_and!; intros ob [Hr|Hr]%elem_of_app;
    by eapply with_levels_take_bound in Hr.
Qed.

(** ** Messages that are not recognised *)

(** C7, as claimed, fails: Kucoin's greeting is dropped without a line
    being logged, and a Binance message without [bids] is not dropped at
    all: the handler raises. *)
Lemma C7_unrecognized_not_logged :
  Kucoin.handleOrderBook (Config 50 true) "ts" kucoin_three_bids kucoin_welcome
  = Ok (Outcome kucoin_three_bids [] [])
  ∧ Binance.handleOrderBook (Config 20 true) "ts" [] binance_reply
    = Throw "TypeError: message.bids is not iterable".
Proof. split; by_evaluation. Qed.

(** C7, amended. A message that the Kucoin handler does not recognise as an
    update of the subscribed book (its type is not [message] or its subject
    is not [trade.l2update]), and a message that the BitMEX handler does not
    recognise (its table is not [orderBookL2_25]), is dropped silently: the
    book and the remembered last insertion are unchanged, no row is
    emitted, nothing is logged, and the handler returns normally. *)
Theorem C7_unrecognized_dropped_silently cfg ts :
  (∀ ob m, ¬ Kucoin.recognized m →
     Kucoin.handleOrderBook cfg ts ob m = Ok (Outcome ob [] []))
  ∧ (∀ st m, BitMEX.table m ≠ "orderBookL2_25" →
     BitMEX.handleOrderBook cfg ts st m = Ok (Outcome st [] [])).
Proof.
  split.
  - intros ob m Hm. unfold Kucoin.handleOrderBook.
    by rewrite bool_decide_eq_false_2.
  - intros st m Hm. unfold BitMEX.handleOrderBook.
    by rewrite bool_decide_eq_false_2.
Qed.

Lemma C7_unrecognized_dropped_silently_witness :
  (¬ Kucoin.recognized kucoin_welcome
   ∧ Kucoin.handleOrderBook (Config 50 true) "ts" kucoin_three_bids kucoin_welcome
     = Ok (Outcome kucoin_three_bids [] []))
  ∧ (BitMEX.table bitmex_info ≠ "orderBookL2_25"
     ∧ BitMEX.handleOrderBook (Config 50 true) "ts"
         (BitMEX.State bitmex_two_bids (Some bitmex_two_bids)) bitmex_info
       = Ok (Outcome (BitMEX.State bitmex_two_bids (Some bitmex_two_bids)) [] [])).
Proof.
  assert (¬ Kucoin.recognized kucoin_welcome) as Hk.
  { intros [H _]. discriminate H. }
  assert (BitMEX.table bitmex_info ≠ "orderBookL2_25") as Hb.
  { intros H. discriminate H. }
  destruct (C7_unrecognized_dropped_silently (Config 50 true) "ts") as [HK HB].
  split; (split; [assumption|]).
  - apply HK, Hk.
  - apply HB, Hb.
Defined.

(** ** Deleting what is not there *)

Lemma Kucoin_cmp_total t a b :
  (Kucoin.cmp t a b ≤ 0)%Qc ∨ (Kucoin.cmp t b a ≤ 0)%Qc.
Proof.
  destruct t; [apply (ascending_total (λ l : Kucoin.level, toNumber l.1))
              |apply (descending_total (λ l : Kucoin.level, toNumber l.1))].
Qed.

Lemma Kucoin_cmp_trans t a b c :
  (Kucoin.cmp t a b ≤ 0)%Qc → (Kucoin.cmp t b c ≤ 0)%Qc →
  (Kucoin.cmp t a c ≤ 0)%Qc.
Proof.
  destruct t; [apply (ascending_trans (λ l : Kucoin.level, toNumber l.1))
              |apply (descending_trans (λ l : Kucoin.level, toNumber l.1))].
Qed.

Lemma findIndex_None {A} (P : A → Prop) `{∀ x, Decision (P x)} (l : list A) :
  findIndex P l = None ↔ Forall (λ x, ¬ P x) l.
Proof. unfold findIndex. by rewrite fmap_None, list_find_None. Qed.

(** Kucoin: a zero-size change for an absent price leaves a sorted side of
    at most 50 levels as it is. *)
Lemma Kucoin_applyChange_absent t levels p :
  StronglySorted (λ a b, Kucoin.cmp t a b ≤ 0)%Qc levels →
  length levels ≤ 50 →
  p ∉ levels.*1 →
  Kucoin.applyChange t levels (p, VStr "0") = levels.
Proof.
  intros Hsorted Hlen Hp. unfold Kucoin.applyChange; simpl.
  rewrite filter_Forall.
  - rewrite js_sort_sorted by eauto using Kucoin_cmp_total, Kucoin_cmp_trans.
    by apply take_ge.
  - apply Forall_forall. intros l Hl Heq. apply Hp. rewrite <-Heq.
    by apply list_elem_of_fmap_2.
Qed.

Lemma kucoin_run_length ob events :
  (∀ t, length (Kucoin.get t ob) ≤ 50) →
  ∀ t, length (Kucoin.get t (kucoin_run ob events)) ≤ 50.
Proof.
  revert ob. induction events as [|[t' change] events IH]; intros ob Hob; [done|].
  apply IH. intros t. simpl.
  assert (length (Kucoin.applyChange t' (Kucoin.get t' ob) change) ≤ 50)
    by (unfold Kucoin.applyChange; rewrite length_take; lia).
  pose proof (Hob Kucoin.asks). pose proof (Hob Kucoin.bids).
  destruct t, t', ob; simpl in *; done.
Qed.

Lemma kucoin_snapshot_length data_bids data_asks t :
  length (Kucoin.get t (Kucoin.snapshot data_bids data_asks)) ≤ 50.
Proof. destruct t; simpl; rewrite length_take; lia. Qed.

(** C8, as the scripts have it.  A deletion, or a zero-sentinel update,
    for a price or an id that the book does not hold leaves the book
    unchanged, and the handler returns normally: for every book of Binance
    (either side) and of BitMEX (ids), for every Kraken book whose sides
    the snapshot has defined (either side), and for Kucoin on a side that
    is in sorted order.  Kucoin sorts the side and cuts it to 50 levels
    after every change, this one too; every book the script builds holds
    at most 50 levels a side. *)
Theorem C8_delete_absent_is_noop cfg ts :
  (∀ sd ob p,
     (∀ o, o ∈ ob → ¬ (Binance.price o = p ∧ Binance.side o = sd)) →
     Binance.applyUpdate sd ob (p, VStr "0.00000000") = ob
     ∧ Binance.handleOrderBook cfg ts ob
         (binance_update sd (p, VStr "0.00000000"))
       = Ok (Outcome ob (Binance.insertOrderBookToDB cfg ob ts) []))
  ∧ (∀ st i,
     (∀ o, o ∈ BitMEX.orderBook st → BitMEX.id o ≠ i) →
     BitMEX.applyDelete (BitMEX.orderBook st) i = BitMEX.orderBook st
     ∧ ∃ out, BitMEX.handleOrderBook cfg ts st
                (BitMEX.Message bitmex_table (BitMEX.delete [i])) = Ok out
              ∧ BitMEX.orderBook (book_after out) = BitMEX.orderBook st)
  ∧ (∀ (asks bids : gmap string value) p,
     asks !! p = None →
     Kraken.applyUpdate asks (p, VStr "0.00000000") = asks
     ∧ Kraken.handleOrderBook cfg ts (Kraken.Orderbook (Some asks) (Some bids))
         (kraken_ask_update (p, VStr "0.00000000"))
       = Ok (Outcome (Kraken.Orderbook (Some asks) (Some bids))
               (Kraken.insertOrderBookToDB cfg
                  (Kraken.Orderbook (Some asks) (Some bids)) ts) []))
  ∧ (∀ (asks bids : gmap string value) p,
     bids !! p = None →
     Kraken.handleOrderBook cfg ts (Kraken.Orderbook (Some asks) (Some bids))
       (kraken_bid_update (p, VStr "0.00000000"))
     = Ok (Outcome (Kraken.Orderbook (Some asks) (Some bids))
             (Kraken.insertOrderBookToDB cfg
                (Kraken.Orderbook (Some asks) (Some bids)) ts) []))
  ∧ (∀ t ob p,
     StronglySorted (λ a b, Kucoin.cmp t a b ≤ 0)%Qc (Kucoin.get t ob) →
     length (Kucoin.get t ob) ≤ 50 →
     p ∉ (Kucoin.get t ob).*1 →
     Kucoin.handleOrderBook cfg ts ob (kucoin_change t (p, VStr "0"))
     = Ok (Outcome ob (Kucoin.insertOrderBooktoDB ob ts) []))
  ∧ (∀ data_bids data_asks events t p,
     let ob := kucoin_run (Kucoin.snapshot data_bids data_asks) events in
     StronglySorted (λ a b, Kucoin.cmp t a b ≤ 0)%Qc (Kucoin.get t ob) →
     p ∉ (Kucoin.get t ob).*1 →
     Kucoin.handleOrderBook cfg ts ob (kucoin_change t (p, VStr "0"))
     = Ok (Outcome ob (Kucoin.insertOrderBooktoDB ob ts) []))
  ∧ (∀ t (levels : list Kucoin.level) p,
     p ∉ levels.*1 →
     Kucoin.applyChange t levels (p, VStr "0")
     = take 50 (js_sort (Kucoin.cmp t) levels)).
Proof.
  assert (HKucoin : ∀ t ob p,
    StronglySorted (λ a b, Kucoin.cmp t a b ≤ 0)%Qc (Kucoin.get t ob) →
    length (Kucoin.get t ob) ≤ 50 →
    p ∉ (Kucoin.get t ob).*1 →
    Kucoin.handleOrderBook cfg ts ob (kucoin_change t (p, VStr "0"))
    = Ok (Outcome ob (Kucoin.insertOrderBooktoDB ob ts) [])).
  { intros t ob p Hsorted Hlen Hp.
    unfold Kucoin.handleOrderBook, Kucoin.applyChanges, Kucoin.applySide.
    destruct t; simpl in *;
      rewrite Kucoin_applyChange_absent by done; by destruct ob. }
  split_and!; [| | | |exact HKucoin| |].
  - intros sd ob p Hp.
    assert (Binance.applyUpdate sd ob (p, VStr "0.00000000") = ob) as Hup.
    { unfold Binance.applyUpdate; simpl.
      by rewrite (proj2 (findIndex_None _ ob)) by by apply Forall_forall. }
    split; [done|].
    unfold Binance.handleOrderBook. destruct sd; simpl; by rewrite Hup.
  - intros [ob last] i Hi; simpl in *.
    assert (BitMEX.applyDelete ob i = ob) as Hdel.
    { unfold BitMEX.applyDelete.
      by rewrite (proj2 (findIndex_None _ ob)) by by apply Forall_forall. }
    split; [done|].
    unfold BitMEX.handleOrderBook, BitMEX.insertOrderBookToDB; simpl.
    rewrite Hdel. destruct (BitMEX.same_as_last ob last); eauto.
  - intros asks bids p Hp.
    assert (Kraken.applyUpdate asks (p, VStr "0.00000000") = asks) as Hup.
    { unfold Kraken.applyUpdate; simpl. by apply delete_id. }
    split; [done|].
    unfold Kraken.handleOrderBook; simpl. by rewrite Hup.
  - intros asks bids p Hp.
    assert (Kraken.applyUpdate bids (p, VStr "0.00000000") = bids) as Hup.
    { unfold Kraken.applyUpdate; simpl. by apply delete_id. }
    unfold Kraken.handleOrderBook; simpl. by rewrite Hup.
  - intros data_bids data_asks events t p ob Hsorted Hp.
    apply HKucoin; [done| |done].
    apply kucoin_run_length. intros t'. apply kucoin_snapshot_length.
  - intros t levels p Hp. unfold Kucoin.applyChange; simpl.
    rewrite filter_Forall; [done|].
    apply Forall_forall. intros l Hl Heq. apply Hp. rewrite <-Heq.
    by apply list_elem_of_fmap_2.
Qed.

Lemma C8_delete_absent_is_noop_witness :
  ((∀ o, o ∈ binance_small_book →
         ¬ (Binance.price o = "98" ∧ Binance.side o = Buy))
   ∧ Binance.handleOrderBook (Config 20 true) "ts" binance_small_book
       (binance_update Buy ("98", VStr "0.00000000"))
     = Ok (Outcome binance_small_book
             (Binance.insertOrderBookToDB (Config 20 true) binance_small_book "ts")
             []))
  ∧ ((∀ o, o ∈ bitmex_two_bids → BitMEX.id o ≠ 3%Z)
     ∧ BitMEX.applyDelete bitmex_two_bids 3 = bitmex_two_bids)
  ∧ (kraken_asks !! "102.0" = None
     ∧ Kraken.applyUpdate kraken_asks ("102.0", VStr "0.00000000") = kraken_asks)
  ∧ (kraken_bids !! "98.0" = None
     ∧ Kraken.handleOrderBook (Config 20 true) "ts" kraken_small_book
         (kraken_bid_update ("98.0", VStr "0.00000000"))
       = Ok (Outcome kraken_small_book
               (Kraken.insertOrderBookToDB (Config 20 true) kraken_small_book "ts")
               []))
  ∧ ((StronglySorted (λ a b, Kucoin.cmp Kucoin.asks a b ≤ 0)%Qc
        (Kucoin.get Kucoin.asks kucoin_sorted_asks)
      ∧ length (Kucoin.get Kucoin.asks kucoin_sorted_asks) ≤ 50
      ∧ "102" ∉ (Kucoin.get Kucoin.asks kucoin_sorted_asks).*1)
     ∧ Kucoin.handleOrderBook (Config 20 true) "ts" kucoin_sorted_asks
         (kucoin_change Kucoin.asks ("102", VStr "0"))
       = Ok (Outcome kucoin_sorted_asks
               (Kucoin.insertOrderBooktoDB kucoin_sorted_asks "ts") []))
  ∧ ((StronglySorted (λ a b, Kucoin.cmp Kucoin.asks a b ≤ 0)%Qc
        (Kucoin.get Kucoin.asks
           (kucoin_run (Kucoin.snapshot scenario_bids scenario_asks)
              kucoin_scenario_events))
      ∧ "102" ∉ (Kucoin.get Kucoin.asks
                   (kucoin_run (Kucoin.snapshot scenario_bids scenario_asks)
                      kucoin_scenario_events)).*1)
     ∧ Kucoin.handleOrderBook (Config 20 true) "ts"
         (kucoin_run (Kucoin.snapshot scenario_bids scenario_asks)
            kucoin_scenario_events)
         (kucoin_change Kucoin.asks ("102", VStr "0"))
       = Ok (Outcome
               (kucoin_run (Kucoin.snapshot scenario_bids scenario_asks)
                  kucoin_scenario_events)
               (Kucoin.insertOrderBooktoDB
                  (kucoin_run (Kucoin.snapshot scenario_bids scenario_asks)
                     kucoin_scenario_events) "ts") [])).
Proof.
  destruct (C8_delete_absent_is_noop (Config 20 true) "ts")
    as (HBinance & HBitMEX & HKrakenA & HKrakenB & HKucoin & HReached & _).
  assert (StronglySorted (λ a b, Kucoin.cmp Kucoin.asks a b ≤ 0)%Qc
            (Kucoin.get Kucoin.asks
               (kucoin_run (Kucoin.snapshot scenario_bids scenario_asks)
                  kucoin_scenario_events))) as H8 by by_evaluation.
  assert ("102" ∉ (Kucoin.get Kucoin.asks
                     (kucoin_run (Kucoin.snapshot scenario_bids scenario_asks)
                        kucoin_scenario_events)).*1) as H9 by by_evaluation.
  assert (∀ o, o ∈ binance_small_book →
               ¬ (Binance.price o = "98" ∧ Binance.side o = Buy)) as H1.
  { apply Forall_forall. apply (bool_decide_eq_true_1 _). vm_compute. reflexivity. }
  assert (∀ o, o ∈ bitmex_two_bids → BitMEX.id o ≠ 3%Z) as H2.
  { apply Forall_forall. apply (bool_decide_eq_true_1 _). vm_compute. reflexivity. }
  assert (kraken_asks !! "102.0" = None) as H3 by reflexivity.
  assert (kraken_bids !! "98.0" = None) as H4 by reflexivity.
  assert (StronglySorted (λ a b, Kucoin.cmp Kucoin.asks a b ≤ 0)%Qc
            (Kucoin.get Kucoin.asks kucoin_sorted_asks)) as H5.
  { apply (bool_decide_eq_true_1 _). vm_compute. reflexivity. }
  assert (length (Kucoin.get Kucoin.asks kucoin_sorted_asks) ≤ 50) as H6.
  { simpl. lia. }
  assert ("102" ∉ (Kucoin.get Kucoin.asks kucoin_sorted_asks).*1) as H7.
  { apply (bool_decide_eq_true_1 _). vm_compute. reflexivity. }
  split_and!; try assumption.
  - apply (HBinance Buy binance_small_book "98" H1).
  - apply (HBitMEX (BitMEX.State bitmex_two_bids None) 3%Z H2).
  - apply (HKrakenA kraken_asks kraken_bids "102.0" H3).
  - apply (HKrakenB kraken_asks kraken_bids "98.0" H4).
  - apply (HKucoin Kucoin.asks kucoin_sorted_asks "102" H5 H6 H7).
  - apply (HReached scenario_bids scenario_asks kucoin_scenario_events
             Kucoin.asks "102" H8 H9).
Defined.

(** The claim as the specification words it fails.  The Kraken book starts
    as [{}]: before the snapshot no price is in it, and a zero-sentinel
    update raises a TypeError.  On Kucoin a side that is not in sorted
    order is sorted by the change, so the book is not as it was. *)
Lemma C8_delete_absent_changes_or_raises :
  Kraken.handleOrderBook (Config 100 true) "ts" (Kraken.Orderbook None None)
    (kraken_ask_update ("100.0", VStr "0.00000000"))
  = Throw "TypeError"
  ∧ ("102" ∉ kucoin_unsorted_asks.*1)
  ∧ Kucoin.handleOrderBook (Config 50 true) "ts"
      (Kucoin.OrderBook kucoin_unsorted_asks [])
      (kucoin_change Kucoin.asks ("102", VStr "0"))
    = Ok (Outcome
            (Kucoin.OrderBook [("100", VStr "1"); ("101", VStr "2")] [])
            [ Row "ts" "Kucoin" 1 "asks" (VStr "100") (VStr "1");
              Row "ts" "Kucoin" 2 "asks" (VStr "101") (VStr "2") ]
            [])
  ∧ Kucoin.OrderBook [("100", VStr "1"); ("101", VStr "2")] []
    ≠ Kucoin.OrderBook kucoin_unsorted_asks [].
Proof. split_and!; by_evaluation. Qed.

(** ** Last write wins *)

Section KucoinUpsert.
Context (t : Kucoin.type) (p : string).

Lemma Kucoin_cmp_fst a b a' b' :
  a.1 = a'.1 → b.1 = b'.1 → Kucoin.cmp t a b = Kucoin.cmp t a' b'.
Proof. unfold Kucoin.cmp. by intros -> ->. Qed.

Lemma applyChange_upsert levels s :
  strict_eq s (VStr "0") = false →
  Kucoin.applyChange t levels (p, s)
  = take 50 (js_sort (Kucoin.cmp t) (kucoin_upsert levels p s)).
Proof. intros Hs. unfold Kucoin.applyChange; simpl. by rewrite Hs. Qed.

Lemma kucoin_upsert_absent levels s :
  p ∉ levels.*1 → kucoin_upsert levels p s = levels ++ [(p, s)].
Proof.
  intros Hp. unfold kucoin_upsert.
  destruct (list_find (λ l : Kucoin.level, l.1 = p) levels)
    as [[i e]|] eqn:Hfind; [|done].
  apply list_find_Some in Hfind as (Hi & He & _).
  destruct Hp. rewrite <-He.
  by eapply list_elem_of_fmap_2, list_elem_of_lookup_2.
Qed.

End KucoinUpsert.

Section JsSortCut.
Context {A : Type} (cmp : A → A → Qc).

(** An element that did not make the cut of [n] left the first [n]
    untouched, and each of them may precede it. *)
Lemma take_insert_sorted_out n x l :
  x ∉ take n (insert_sorted cmp x l) →
  take n (insert_sorted cmp x l) = take n l
  ∧ Forall (λ y, (cmp y x ≤ 0)%Qc) (take n l)
  ∧ length (take n l) = n.
Proof.
  revert n. induction l as [|y l IH]; intros [|n] Hx; simpl in *; try done.
  - destruct Hx. apply list_elem_of_here.
  - case_bool_decide as Hy; simpl in *.
    + apply not_elem_of_cons in Hx as [_ Hx].
      destruct (IH n Hx) as (-> & ? & ->). by repeat constructor.
    + destruct Hx. apply list_elem_of_here.
Qed.

End JsSortCut.

Section KucoinLastWrite.
Context (t : Kucoin.type) (p : string).

Abbreviation sort_levels := (js_sort (Kucoin.cmp t)).

Lemma sort_levels_sorted levels :
  StronglySorted (λ a b, (Kucoin.cmp t a b ≤ 0)%Qc) (sort_levels levels).
Proof.
  apply js_sort_StronglySorted;
    eauto using Kucoin_cmp_total, Kucoin_cmp_trans.
Qed.

Lemma NoDup_take_sort_levels n (levels : list Kucoin.level) :
  NoDup levels.*1 → NoDup (take n (sort_levels levels)).*1.
Proof.
  intros Hnodup. rewrite fmap_take.
  eapply sublist_NoDup; [|apply sublist_take].
  by rewrite js_sort_Permutation.
Qed.

(** *** The upsert, element by element *)

Lemma kucoin_upsert_nil s : kucoin_upsert [] p s = [(p, s)].
Proof. done. Qed.

Lemma kucoin_upsert_cons (l : Kucoin.level) levels s :
  kucoin_upsert (l :: levels) p s
  = if decide (l.1 = p) then (l.1, s) :: levels
    else l :: kucoin_upsert levels p s.
Proof.
  unfold kucoin_upsert; simpl. case_decide; [done|].
  by destruct (list_find (λ l : Kucoin.level, l.1 = p) levels) as [[i e]|].
Qed.

Lemma kucoin_upsert_snoc (y : Kucoin.level) levels s :
  kucoin_upsert (levels ++ [y]) p s
  = if decide (p ∈ levels.*1) then kucoin_upsert levels p s ++ [y]
    else if decide (y.1 = p) then levels ++ [(y.1, s)]
    else levels ++ [y; (p, s)].
Proof.
  induction levels as [|l levels IH]; csimpl.
  - rewrite kucoin_upsert_cons, kucoin_upsert_nil.
    destruct (decide (p ∈ [])) as [[]%elem_of_nil|_]. by case_decide.
  - rewrite !kucoin_upsert_cons, IH.
    destruct (decide (p ∈ l.1 :: levels.*1)) as [Hin|Hout].
    + destruct (decide (l.1 = p)) as [Hl|Hl]; [done|].
      apply elem_of_cons in Hin as [?|Hin]; [done|].
      by rewrite decide_True.
    + apply not_elem_of_cons in Hout as [Hl Hout].
      rewrite decide_False by done. rewrite (decide_False (P := p ∈ _)) by done.
      by destruct (decide (y.1 = p)).
Qed.

(** Two upserts at one price: the assignments alone, without the sort. *)
Lemma kucoin_upsert_twice levels s1 s2 :
  kucoin_upsert (kucoin_upsert levels p s1) p s2 = kucoin_upsert levels p s2.
Proof.
  induction levels as [|l levels IH].
  - rewrite !kucoin_upsert_nil, kucoin_upsert_cons. by rewrite decide_True.
  - rewrite !kucoin_upsert_cons. case_decide.
    + rewrite kucoin_upsert_cons. by rewrite decide_True.
    + rewrite kucoin_upsert_cons, decide_False, IH; done.
Qed.

Lemma kucoin_upsert_keys (levels : list Kucoin.level) s :
  p ∈ levels.*1 → (kucoin_upsert levels p s).*1 = levels.*1.
Proof.
  induction levels as [|l levels IH]; [by intros ?%elem_of_nil|].
  intros Hp. rewrite kucoin_upsert_cons. case_decide; [done|].
  csimpl. rewrite IH; [done|].
  apply elem_of_cons in Hp as [?|?]; done.
Qed.

Lemma take_kucoin_upsert_in n (levels : list Kucoin.level) s :
  p ∈ (take n levels).*1 →
  take n (kucoin_upsert levels p s) = kucoin_upsert (take n levels) p s.
Proof.
  revert n. induction levels as [|l levels IH]; intros [|n]; csimpl.
  - by intros ?%elem_of_nil.
  - by intros ?%elem_of_nil.
  - by intros ?%elem_of_nil.
  - intros Hp. rewrite !kucoin_upsert_cons. case_decide; [done|].
    csimpl. rewrite IH; [done|].
    apply elem_of_cons in Hp as [?|?]; done.
Qed.

Lemma take_kucoin_upsert_out n (levels : list Kucoin.level) s :
  p ∈ levels.*1 → p ∉ (take n levels).*1 →
  take n (kucoin_upsert levels p s) = take n levels.
Proof.
  revert n. induction levels as [|l levels IH]; intros [|n]; csimpl;
    try done.
  intros Hp Hout. apply not_elem_of_cons in Hout as [Hl Hout].
  rewrite kucoin_upsert_cons, decide_False by done. csimpl.
  rewrite IH; [done| |done].
  apply elem_of_cons in Hp as [?|?]; done.
Qed.

Lemma NoDup_kucoin_upsert (levels : list Kucoin.level) s :
  NoDup levels.*1 → NoDup (kucoin_upsert levels p s).*1.
Proof.
  intros Hnodup. destruct (decide (p ∈ levels.*1)) as [Hp|Hp].
  - by rewrite kucoin_upsert_keys.
  - rewrite kucoin_upsert_absent, fmap_app by done; simpl.
    apply NoDup_app. split_and!; [done| |apply NoDup_singleton].
    intros q Hq ->%list_elem_of_singleton. done.
Qed.

(** *** The sort is stable, so it commutes with the upsert *)

Lemma insert_sorted_kucoin_upsert (y : Kucoin.level) levels s :
  StronglySorted (λ a b, (Kucoin.cmp t a b ≤ 0)%Qc) levels →
  p ∈ levels.*1 →
  insert_sorted (Kucoin.cmp t) y (kucoin_upsert levels p s)
  = kucoin_upsert (insert_sorted (Kucoin.cmp t) y levels) p s.
Proof.
  induction 1 as [|l levels Hsorted IH Hl]; [by intros ?%elem_of_nil|].
  intros Hp. rewrite kucoin_upsert_cons. simpl.
  destruct (decide (l.1 = p)) as [Hlp|Hlp]; simpl.
  - rewrite (Kucoin_cmp_fst t (l.1, s) y l y) by done.
    case_bool_decide as Hly.
    + rewrite kucoin_upsert_cons. by rewrite decide_True.
    + rewrite kucoin_upsert_cons, decide_False, kucoin_upsert_cons, decide_True;
        [done..|].
      intros Hy. apply Hly.
      rewrite (Kucoin_cmp_fst t l y l l) by congruence.
      destruct (Kucoin_cmp_total t l l); done.
  - assert (p ∈ levels.*1) as Hp'
      by (apply elem_of_cons in Hp as [?|?]; done).
    case_bool_decide as Hly.
    + rewrite kucoin_upsert_cons, decide_False, IH; done.
    + rewrite kucoin_upsert_cons, decide_False, kucoin_upsert_cons, decide_False;
        [done..|].
      intros Hy. apply Hly.
      apply list_elem_of_fmap in Hp' as (e & He & Hin).
      rewrite (Kucoin_cmp_fst t l y l e) by congruence.
      by eapply Forall_forall in Hl.
Qed.

Lemma kucoin_upsert_insert_sorted (y : Kucoin.level) levels s :
  p ∉ levels.*1 → y.1 = p →
  kucoin_upsert (insert_sorted (Kucoin.cmp t) y levels) p s
  = insert_sorted (Kucoin.cmp t) (p, s) levels.
Proof.
  intros Hp Hy. induction levels as [|l levels IH]; simpl.
  - rewrite kucoin_upsert_cons, decide_True by done. by rewrite Hy.
  - apply not_elem_of_cons in Hp as [Hl Hp].
    rewrite (Kucoin_cmp_fst t l (p, s) l y) by done.
    case_bool_decide.
    + rewrite kucoin_upsert_cons, decide_False, IH; done.
    + rewrite kucoin_upsert_cons, decide_True by done. by rewrite Hy.
Qed.

Lemma sort_levels_kucoin_upsert (levels : list Kucoin.level) s :
  sort_levels (kucoin_upsert levels p s)
  = if decide (p ∈ levels.*1) then kucoin_upsert (sort_levels levels) p s
    else insert_sorted (Kucoin.cmp t) (p, s) (sort_levels levels).
Proof.
  induction levels as [|y levels IH] using rev_ind.
  { rewrite decide_False by apply not_elem_of_nil. done. }
  assert (∀ q, q ∈ (sort_levels levels).*1 ↔ q ∈ levels.*1) as Hkeys.
  { intros q. by rewrite js_sort_Permutation. }
  rewrite kucoin_upsert_snoc, fmap_app, (js_sort_snoc _ levels); simpl.
  destruct (decide (p ∈ levels.*1)) as [Hp|Hp].
  - rewrite decide_True by (apply elem_of_app; by left).
    rewrite js_sort_snoc, IH.
    apply insert_sorted_kucoin_upsert; [apply sort_levels_sorted|].
    by apply Hkeys.
  - destruct (decide (y.1 = p)) as [Hy|Hy].
    + rewrite decide_True
        by (apply elem_of_app; right; rewrite Hy; apply list_elem_of_here).
      rewrite js_sort_snoc, Hy, kucoin_upsert_insert_sorted; [done| |done].
      by rewrite Hkeys.
    + rewrite decide_False.
      * replace (levels ++ [y; (p, s)]) with ((levels ++ [y]) ++ [(p, s)])
          by (by rewrite <-app_assoc).
        by rewrite (js_sort_snoc _ (levels ++ [y])), js_sort_snoc.
      * intros [?|Hin%list_elem_of_singleton]%elem_of_app; done.
Qed.

(** Kucoin: the second of two upserts at one price decides the side, also
    across the sort and the cut at 50 that follow each of them. *)
Lemma kucoin_last_write (levels : list Kucoin.level) s1 s2 :
  take 50 (sort_levels
             (kucoin_upsert (take 50 (sort_levels (kucoin_upsert levels p s1)))
                p s2))
  = take 50 (sort_levels (kucoin_upsert levels p s2)).
Proof.
  set (T1 := take 50 (sort_levels (kucoin_upsert levels p s1))).
  assert (sort_levels T1 = T1) as HT1.
  { apply js_sort_sorted, StronglySorted_take, sort_levels_sorted. }
  rewrite (sort_levels_kucoin_upsert T1), HT1.
  rewrite (sort_levels_kucoin_upsert levels s2).
  subst T1. rewrite (sort_levels_kucoin_upsert levels s1).
  set (S := sort_levels levels).
  pose proof (sort_levels_sorted levels) as Hsorted. fold S in Hsorted.
  assert (∀ q, q ∈ S.*1 ↔ q ∈ levels.*1) as Hkeys.
  { intros q. subst S. by rewrite js_sort_Permutation. }
  destruct (decide (p ∈ levels.*1)) as [Hp|Hp].
  - apply Hkeys in Hp.
    destruct (decide (p ∈ (take 50 S).*1)) as [Hin|Hout].
    + rewrite (take_kucoin_upsert_in 50 S s1) by done.
      rewrite decide_True by by rewrite kucoin_upsert_keys.
      rewrite kucoin_upsert_twice, <-take_kucoin_upsert_in by done.
      by rewrite take_take, Nat.min_id.
    + rewrite !(take_kucoin_upsert_out 50 S) by done.
      rewrite decide_False by done.
      apply list_elem_of_fmap in Hp as (e & He & Hin).
      assert (e ∈ drop 50 S) as Hdrop.
      { rewrite <-(take_drop 50 S) in Hin.
        apply elem_of_app in Hin as [Hin|Hin]; [|done].
        destruct Hout. rewrite He. by apply list_elem_of_fmap_2. }
      rewrite <-(take_drop 50 S) in Hsorted.
      rewrite insert_sorted_last.
      * apply take_app_length'. rewrite length_take.
        assert (0 < length (drop 50 S)) as Hlen.
        { destruct (drop 50 S); [by apply elem_of_nil in Hdrop|simpl; lia]. }
        rewrite length_drop in Hlen. lia.
      * apply Forall_forall. intros y Hy.
        rewrite (Kucoin_cmp_fst t y (p, s2) y e) by done.
        exact (StronglySorted_app_1_elem_of _ _ _ y e Hsorted Hy Hdrop).
  - assert (p ∉ S.*1) as HpS by by rewrite Hkeys.
    destruct (decide (p ∈ (take 50 (insert_sorted (Kucoin.cmp t) (p, s1) S)).*1))
      as [Hin|Hout].
    + rewrite <-take_kucoin_upsert_in by done.
      rewrite kucoin_upsert_insert_sorted by done.
      by rewrite take_take, Nat.min_id.
    + assert ((p, s1) ∉ take 50 (insert_sorted (Kucoin.cmp t) (p, s1) S)) as Hx.
      { intros Hx. destruct Hout. by apply (list_elem_of_fmap_2 fst) in Hx. }
      apply take_insert_sorted_out in Hx as (-> & _ & _).
      apply take_insert_sorted_take.
Qed.
End KucoinLastWrite.

(** An assignment that does not change whether the element is the one
    looked for leaves the index found as it is. *)
Lemma findIndex_alter {A} (P : A → Prop) `{∀ x, Decision (P x)}
    (f : A → A) i (l : list A) :
  (∀ x, l !! i = Some x → (P (f x) ↔ P x)) →
  findIndex P (alter f i l) = findIndex P l.
Proof.
  unfold findIndex. revert i.
  induction l as [|x l IH]; intros [|i] Hf; simpl; try done.
  - destruct (decide (P x)) as [Hx|Hx].
    + by rewrite decide_True by by apply Hf.
    + by rewrite decide_False by by rewrite Hf.
  - destruct (decide (P x)); [done|].
    rewrite <-!option_fmap_compose.
    specialize (IH i Hf). unfold alter in IH.
    destruct (list_find P (list_alter f i l)) as [[]|],
      (list_find P l) as [[]|]; simplify_eq/=; done.
Qed.

Lemma findIndex_Some_lookup {A} (P : A → Prop) `{∀ x, Decision (P x)}
    (l : list A) i :
  findIndex P l = Some i → ∃ x, l !! i = Some x ∧ P x.
Proof.
  unfold findIndex. intros ([j x] & Hfind & ->)%fmap_Some.
  apply list_find_Some in Hfind as (? & ? & _). eauto.
Qed.

Lemma findIndex_snoc_absent {A} (P : A → Prop) `{∀ x, Decision (P x)}
    (l : list A) x :
  findIndex P l = None → P x → findIndex P (l ++ [x]) = Some (length l).
Proof.
  unfold findIndex. intros Hl%fmap_None Hx.
  rewrite list_find_app_r by done. simpl. by rewrite decide_True.
Qed.

(** Binance: the second of two upserts at one price and side decides. *)
Lemma binance_last_write sd ob p q1 q2 :
  strict_eq q1 (VStr "0.00000000") = false →
  strict_eq q2 (VStr "0.00000000") = false →
  Binance.applyUpdate sd (Binance.applyUpdate sd ob (p, q1)) (p, q2)
  = Binance.applyUpdate sd ob (p, q2).
Proof.
  intros H1 H2. unfold Binance.applyUpdate; simpl. rewrite H1, H2.
  destruct (findIndex _ ob) as [i|] eqn:Hfind.
  - rewrite findIndex_alter, Hfind by done.
    rewrite list_alter_alter_eq. by apply list_alter_ext.
  - rewrite findIndex_snoc_absent by done.
    rewrite <-(Nat.add_0_r (length ob)), alter_app_r. done.
Qed.

Lemma default_default {A} (x : A) (o1 o2 : option A) :
  (is_Some o1 → is_Some o2) → default (default x o1) o2 = default x o2.
Proof.
  destruct o2 as [y|]; [done|]. destruct o1 as [z|]; [|done].
  intros H. by destruct H as [? [=]].
Qed.

Lemma merge_merge o u1 u2 :
  supplies_all u2 u1 →
  BitMEX.merge (BitMEX.merge o u1) u2 = BitMEX.merge o u2.
Proof.
  intros (Hsymbol & Hside & Hsize & Hprice & Htimestamp).
  unfold BitMEX.merge; simpl. by rewrite !default_default.
Qed.

(** BitMEX: of two updates for one id, the second decides when it supplies
    every field the first supplies; the fields it leaves out keep what the
    first wrote. *)
Lemma bitmex_last_write ob u1 u2 :
  BitMEX.u_id u1 = BitMEX.u_id u2 → supplies_all u2 u1 →
  BitMEX.applyUpdate (BitMEX.applyUpdate ob u1) u2 = BitMEX.applyUpdate ob u2.
Proof.
  intros Hid Hall. unfold BitMEX.applyUpdate. rewrite Hid.
  destruct (findIndex (λ item, BitMEX.id item = BitMEX.u_id u2) ob)
    as [i|] eqn:Hfind; [|by rewrite Hfind].
  rewrite findIndex_alter, Hfind.
  - rewrite list_alter_alter_eq. apply list_alter_ext; [|done].
    intros o _. by apply merge_merge.
  - intros o Ho. apply findIndex_Some_lookup in Hfind as (o' & Ho' & Hid').
    simplify_eq. simpl. by rewrite Hid.
Qed.

(** Kraken: the second of two updates at one price decides, whichever of
    them is a deletion. *)
Lemma kraken_last_write (levels : gmap string value) p v1 v2 :
  Kraken.applyUpdate (Kraken.applyUpdate levels (p, v1)) (p, v2)
  = Kraken.applyUpdate levels (p, v2).
Proof.
  unfold Kraken.applyUpdate; simpl.
  destruct (strict_eq v1 _), (strict_eq v2 _).
  - apply delete_delete_eq.
  - apply insert_delete_eq.
  - apply delete_insert_eq.
  - apply insert_insert_eq.
Qed.

(** ** The zero sentinel is compared as text *)

Lemma kucoin_upsert_elem (levels : list Kucoin.level) p s :
  (p, s) ∈ kucoin_upsert levels p s.
Proof.
  unfold kucoin_upsert.
  destruct (list_find (λ l : Kucoin.level, l.1 = p) levels)
    as [[i e]|] eqn:Hfind.
  - apply list_find_Some in Hfind as (Hi & <- & _).
    apply list_elem_of_lookup. exists i.
    apply list_lookup_insert_eq. by eapply lookup_lt_Some.
  - apply elem_of_app. right. apply list_elem_of_here.
Qed.

Lemma length_kucoin_upsert (levels : list Kucoin.level) p s :
  length levels < 50 ∨ (p ∈ levels.*1 ∧ length levels ≤ 50) →
  length (kucoin_upsert levels p s) ≤ 50.
Proof.
  unfold kucoin_upsert.
  destruct (list_find (λ l : Kucoin.level, l.1 = p) levels)
    as [[i e]|] eqn:Hfind.
  - rewrite length_insert. lia.
  - rewrite length_app; simpl. intros [?|[Hp _]]; [lia|].
    apply list_find_None in Hfind.
    apply list_elem_of_fmap in Hp as (l & -> & Hl).
    by eapply Forall_forall in Hfind.
Qed.

Lemma kucoin_zero_sized_level_kept t (levels : list Kucoin.level) p s :
  strict_eq s (VStr "0") = false →
  length levels < 50 ∨ (p ∈ levels.*1 ∧ length levels ≤ 50) →
  (p, s) ∈ Kucoin.applyChange t levels (p, s).
Proof.
  intros Hs Hlen. rewrite applyChange_upsert by done.
  rewrite take_ge by by rewrite length_js_sort; apply length_kucoin_upsert.
  rewrite js_sort_Permutation. apply kucoin_upsert_elem.
Qed.



Lemma binance_upsert_elem sd ob p q :
  strict_eq q (VStr "0.00000000") = false →
  Binance.Order p q sd ∈ Binance.applyUpdate sd ob (p, q).
Proof.
  intros Hq. unfold Binance.applyUpdate, findIndex; simpl. rewrite Hq.
  destruct (list_find (λ o, Binance.price o = p ∧ Binance.side o = sd) ob)
    as [[i o]|] eqn:Hfind; simpl.
  - apply list_find_Some in Hfind as (Hi & [<- <-] & _).
    apply list_elem_of_lookup. exists i.
    by rewrite list_lookup_alter_eq, Hi.
  - apply elem_of_app. right. apply list_elem_of_here.
Qed.


Lemma Kucoin_get_set t levels ob : Kucoin.get t (Kucoin.set t levels ob) = levels.
Proof. by destruct t. Qed.




(** The three handlers on a size that reads as zero but is not the
    sentinel: the level stays, and its row carries the zero size. *)
Example zero_sized_levels_reach_the_sink :
  Kucoin.handleOrderBook (Config 50 true) "ts" kucoin_sorted_asks
    (kucoin_change Kucoin.asks ("100", VStr "0.0"))
  = Ok (Outcome
          (Kucoin.OrderBook [("100", VStr "0.0"); ("101", VStr "2")]
             [("99", VStr "1")])
          [ Row "ts" "Kucoin" 1 "bids" (VStr "99") (VStr "1");
            Row "ts" "Kucoin" 1 "asks" (VStr "100") (VStr "0.0");
            Row "ts" "Kucoin" 2 "asks" (VStr "101") (VStr "2") ]
          [])
  ∧ emitted_rows
      (Binance.handleOrderBook (Config 20 true) "ts" binance_small_book
         (binance_update Sell ("100", VNum (Fin (Q2Qc 0)))))
    = [ Row "ts" "Binance" 1 "Bid" (VStr "99") (VStr "1.00000000");
        Row "ts" "Binance" 1 "Ask" (VStr "100") (VNum (Fin (Q2Qc 0)));
        Row "ts" "Binance" 2 "Ask" (VStr "101") (VStr "2.00000000") ]
  ∧ emitted_rows
      (Kraken.handleOrderBook (Config 100 true) "ts" kraken_small_book
         (kraken_ask_update ("100.0", VStr "0")))
    = [ Row "ts" "Kraken" 1 "ask" (VNum (Fin (Q2Qc 100))) (VNum (Fin (Q2Qc 0)));
        Row "ts" "Kraken" 2 "ask" (VNum (Fin (Q2Qc 101))) (VNum (Fin (Q2Qc 2)));
        Row "ts" "Kraken" 1 "bid" (VNum (Fin (Q2Qc 99))) (VNum (Fin (Q2Qc 1))) ].
Proof. split_and!; by_evaluation. Qed.


(** ** The projection is sorted, bounded, and has one level per price *)

Section Projection.
Context {A : Type} (key : A → Qc).

Lemma sorted_ascending_keys l :
  StronglySorted (λ a b, (ascending key a b ≤ 0)%Qc) l →
  StronglySorted Qcle (key <$> l).
Proof.
  apply StronglySorted_fmap. intros x y. unfold ascending.
  by rewrite Qc_sub_le_0.
Qed.

Lemma sorted_descending_keys l :
  StronglySorted (λ a b, (descending key a b ≤ 0)%Qc) l →
  StronglySorted (flip Qcle) (key <$> l).
Proof.
  apply StronglySorted_fmap. intros x y. unfold descending, flip.
  by rewrite Qc_sub_le_0.
Qed.

Lemma top_ascending_sorted n l :
  StronglySorted Qcle (key <$> take n (js_sort (ascending key) l)).
Proof.
  apply sorted_ascending_keys, StronglySorted_take, js_sort_StronglySorted.
  - apply ascending_total.
  - apply ascending_trans.
Qed.

Lemma top_descending_sorted n l :
  StronglySorted (flip Qcle) (key <$> take n (js_sort (descending key) l)).
Proof.
  apply sorted_descending_keys, StronglySorted_take, js_sort_StronglySorted.
  - apply descending_total.
  - apply descending_trans.
Qed.
End Projection.

Lemma top_length {A} (cmp : A → A → Qc) n l :
  length (take n (js_sort cmp l)) ≤ n.
Proof. rewrite length_take. lia. Qed.

Lemma top_NoDup {A B} (cmp : A → A → Qc) (f : A → B) n l :
  NoDup (f <$> l) → NoDup (f <$> take n (js_sort cmp l)).
Proof.
  intros Hnodup. rewrite fmap_take.
  eapply sublist_NoDup; [|apply sublist_take].
  by rewrite js_sort_Permutation.
Qed.

(** *** Binance: one order per price and side *)

Lemma binance_snapshot_keys res_bids res_asks :
  NoDup res_bids.*1 → NoDup res_asks.*1 →
  NoDup (binance_key <$> Binance.snapshot [] res_bids res_asks).
Proof.
  intros Hbids Hasks. unfold Binance.snapshot; simpl.
  rewrite fmap_app, <-!list_fmap_compose.
  rewrite (list_fmap_ext _ ((λ p, (p, Buy)) ∘ fst) res_bids) by done.
  rewrite (list_fmap_ext _ ((λ p, (p, Sell)) ∘ fst) res_asks) by done.
  rewrite !list_fmap_compose.
  assert (∀ sd : book_side, Inj (=) (=) (λ p : string, (p, sd))) as Hinj
    by (by intros sd ?? [=]).
  apply NoDup_app. split_and!.
  - by apply (NoDup_fmap_2 _).
  - intros k (p & -> & _)%list_elem_of_fmap (p' & [=] & _)%list_elem_of_fmap.
  - by apply (NoDup_fmap_2 _).
Qed.

Lemma binance_applyUpdate_keys sd ob u :
  NoDup (binance_key <$> ob) →
  NoDup (binance_key <$> Binance.applyUpdate sd ob u).
Proof.
  intros Hnodup. unfold Binance.applyUpdate.
  destruct (findIndex _ ob) as [i|] eqn:Hfind, (strict_eq _ _); try done.
  - eapply sublist_NoDup; [exact Hnodup|].
    apply fmap_sublist, sublist_delete.
  - rewrite (list_fmap_alter _ _ id).
    + by rewrite list_alter_id.
    + by apply Forall_forall.
  - rewrite fmap_app. apply NoDup_app. split_and!; [done| |apply NoDup_singleton].
    intros k (o & -> & Ho)%list_elem_of_fmap Heq%list_elem_of_singleton.
    apply findIndex_None in Hfind.
    eapply Forall_forall in Hfind; [|exact Ho].
    apply Hfind. by injection Heq.
Qed.

Lemma binance_run_keys ob events :
  NoDup (binance_key <$> ob) → NoDup (binance_key <$> binance_run ob events).
Proof.
  revert ob. induction events as [|e events IH]; intros ob Hnodup; [done|].
  apply IH. by apply binance_applyUpdate_keys.
Qed.

Lemma binance_side_prices sd ob :
  NoDup (binance_key <$> ob) →
  NoDup (Binance.price <$> filter (λ o, Binance.side o = sd) ob).
Proof.
  induction ob as [|o ob IH]; [intros; apply NoDup_nil_2|].
  rewrite fmap_cons, NoDup_cons. intros [Ho Hnodup].
  rewrite filter_cons. case_decide as Hsd; [|by apply IH].
  rewrite fmap_cons. apply NoDup_cons. split; [|by apply IH].
  intros (o' & Hprice & [Hsd' Ho']%list_elem_of_filter)%list_elem_of_fmap.
  apply Ho. apply list_elem_of_fmap. exists o'. split; [|done].
  unfold binance_key. by rewrite Hprice, Hsd, Hsd'.
Qed.

(** *** Kucoin: each side stays sorted, within 50 levels, one level per
    price *)

Lemma kucoin_applyChange_ok t levels change :
  NoDup levels.*1 → kucoin_side_ok t (Kucoin.applyChange t levels change).
Proof.
  intros Hnodup. unfold kucoin_side_ok, Kucoin.applyChange. split_and!.
  - apply StronglySorted_take, sort_levels_sorted.
  - apply top_length.
  - apply NoDup_take_sort_levels. destruct (strict_eq _ _).
    + eapply sublist_NoDup; [exact Hnodup|]. apply fmap_sublist, sublist_filter.
    + destruct change as [p s]. by apply NoDup_kucoin_upsert.
Qed.

Lemma kucoin_run_ok ob events :
  (∀ t, kucoin_side_ok t (Kucoin.get t ob)) →
  ∀ t, kucoin_side_ok t (Kucoin.get t (kucoin_run ob events)).
Proof.
  revert ob. induction events as [|[t' change] events IH]; intros ob Hob; [done|].
  apply IH. intros t. simpl.
  destruct (Hob t') as (_ & _ & Hnodup).
  pose proof (kucoin_applyChange_ok t' _ change Hnodup) as Hnew.
  destruct t, t', ob; simpl in *; try done; apply Hob.
Qed.

Lemma kucoin_snapshot_ok data_bids data_asks :
  StronglySorted (λ a b, (Kucoin.cmp Kucoin.bids a b ≤ 0)%Qc) data_bids →
  StronglySorted (λ a b, (Kucoin.cmp Kucoin.asks a b ≤ 0)%Qc) data_asks →
  NoDup data_bids.*1 → NoDup data_asks.*1 →
  ∀ t, kucoin_side_ok t (Kucoin.get t (Kucoin.snapshot data_bids data_asks)).
Proof.
  intros Hb Ha Hnb Hna [|]; simpl; (split_and!;
    [by apply StronglySorted_take
    |rewrite length_take; lia
    |rewrite fmap_take; eapply sublist_NoDup; [|apply sublist_take]; done]).
Qed.

Lemma StronglySorted_fmap_back {A B} (f : A → B) (R1 : relation A)
    (R2 : relation B) l :
  (∀ x y, R2 (f x) (f y) → R1 x y) →
  StronglySorted R2 (f <$> l) → StronglySorted R1 l.
Proof.
  intros Hf. induction l as [|x l IH]; [constructor|].
  rewrite fmap_cons, !StronglySorted_cons, Forall_fmap.
  intros [Hx Hl]. split; [|by apply IH].
  eapply Forall_impl; [exact Hx|]. intros y Hy. by apply Hf.
Qed.

Lemma kucoin_sorted_keys t (levels : list Kucoin.level) :
  StronglySorted (λ a b, (Kucoin.cmp t a b ≤ 0)%Qc) levels
  ↔ StronglySorted (match t with Kucoin.asks => Qcle | Kucoin.bids => flip Qcle end)
      ((λ l, toNumber l.1) <$> levels).
Proof.
  split.
  - apply StronglySorted_fmap. intros x y.
    destruct t; simpl; unfold flip; by rewrite Qc_sub_le_0.
  - apply StronglySorted_fmap_back. intros x y.
    destruct t; simpl; unfold flip; by rewrite Qc_sub_le_0.
Qed.

(** C1, as the scripts have it.  For every book and every sequence of
    upserts and deletes applied to it, the projection of a side is sorted
    by the numeric price (ascending for asks, descending for bids) and
    holds at most [n] entries.  Binance and Kraken project with the
    configured bound [n]; Kucoin's projection is the side it keeps, cut at
    its bound of 50.  The price strings of the projection are pairwise
    distinct whenever the book held at most one level per price string and
    side before the sequence: that is so of every Kraken book, of a
    Binance book built by appending a response that lists each price once
    to the empty book, and of a Kucoin book built from such a response.
    Kucoin writes a side no change has touched as it was received, so
    the order of such a side is that of the response; a side a change has
    touched is sorted and within 50 levels whatever it was before. *)
Theorem C1_projection_sorted_bounded_distinct :
  (∀ ob events n,
     let ob' := binance_run ob events in
     (StronglySorted (flip Qcle)
        ((λ o, toNumber (Binance.price o)) <$> Binance.top_bids n ob')
      ∧ length (Binance.top_bids n ob') ≤ n
      ∧ (NoDup (binance_key <$> ob) →
         NoDup (Binance.price <$> Binance.top_bids n ob')))
     ∧ (StronglySorted Qcle
          ((λ o, toNumber (Binance.price o)) <$> Binance.top_asks n ob')
        ∧ length (Binance.top_asks n ob') ≤ n
        ∧ (NoDup (binance_key <$> ob) →
           NoDup (Binance.price <$> Binance.top_asks n ob'))))
  ∧ (∀ res_bids res_asks,
     NoDup res_bids.*1 → NoDup res_asks.*1 →
     NoDup (binance_key <$> Binance.snapshot [] res_bids res_asks))
  ∧ (∀ ob n,
     (StronglySorted (flip Qcle)
        ((λ l, toNumber l.1) <$> take n (Kraken.orderedBids ob))
      ∧ length (take n (Kraken.orderedBids ob)) ≤ n
      ∧ NoDup (take n (Kraken.orderedBids ob)).*1)
     ∧ (StronglySorted Qcle
          ((λ l, toNumber l.1) <$> take n (Kraken.orderedAsks ob))
        ∧ length (take n (Kraken.orderedAsks ob)) ≤ n
        ∧ NoDup (take n (Kraken.orderedAsks ob)).*1))
  ∧ (∀ data_bids data_asks events,
     StronglySorted (flip Qcle) ((λ l, toNumber l.1) <$> data_bids) →
     StronglySorted Qcle ((λ l, toNumber l.1) <$> data_asks) →
     NoDup data_bids.*1 → NoDup data_asks.*1 →
     let ob := kucoin_run (Kucoin.snapshot data_bids data_asks) events in
     (StronglySorted (flip Qcle) ((λ l, toNumber l.1) <$> Kucoin.ob_bids ob)
      ∧ length (Kucoin.ob_bids ob) ≤ 50
      ∧ NoDup (Kucoin.ob_bids ob).*1)
     ∧ (StronglySorted Qcle ((λ l, toNumber l.1) <$> Kucoin.ob_asks ob)
        ∧ length (Kucoin.ob_asks ob) ≤ 50
        ∧ NoDup (Kucoin.ob_asks ob).*1))
  ∧ (∀ t (levels : list Kucoin.level) change,
     StronglySorted
       (match t with Kucoin.asks => Qcle | Kucoin.bids => flip Qcle end)
       ((λ l, toNumber l.1) <$> Kucoin.applyChange t levels change)
     ∧ length (Kucoin.applyChange t levels change) ≤ 50
     ∧ (NoDup levels.*1 → NoDup (Kucoin.applyChange t levels change).*1)).
Proof.
  split_and!; [| | | |
    intros t levels change; split_and!;
      [ apply kucoin_sorted_keys; unfold Kucoin.applyChange;
        apply StronglySorted_take, sort_levels_sorted
      | apply top_length
      | intros Hnd; by destruct (kucoin_applyChange_ok t levels change Hnd)
          as (_ & _ & ?) ] ].
  - intros ob events n ob'. split; split_and!.
    + apply (top_descending_sorted (λ o, toNumber (Binance.price o))).
    + apply top_length.
    + intros Hkeys. by apply top_NoDup, binance_side_prices, binance_run_keys.
    + apply (top_ascending_sorted (λ o, toNumber (Binance.price o))).
    + apply top_length.
    + intros Hkeys. by apply top_NoDup, binance_side_prices, binance_run_keys.
  - apply binance_snapshot_keys.
  - intros ob n. split; split_and!.
    + apply (top_descending_sorted (λ l : string * value, toNumber l.1)).
    + apply top_length.
    + apply top_NoDup. destruct (Kraken.bids ob); simpl;
        [apply NoDup_fst_map_to_list|apply NoDup_nil_2].
    + apply (top_ascending_sorted (λ l : string * value, toNumber l.1)).
    + apply top_length.
    + apply top_NoDup. destruct (Kraken.asks ob); simpl;
        [apply NoDup_fst_map_to_list|apply NoDup_nil_2].
  - intros data_bids data_asks events Hb Ha Hnb Hna ob.
    assert (∀ t, kucoin_side_ok t (Kucoin.get t ob)) as Hok.
    { apply kucoin_run_ok, kucoin_snapshot_ok; try done.
      - by apply (kucoin_sorted_keys Kucoin.bids).
      - by apply (kucoin_sorted_keys Kucoin.asks). }
    destruct (Hok Kucoin.bids) as (Hsb & Hlb & Hdb).
    destruct (Hok Kucoin.asks) as (Hsa & Hla & Hda).
    split; split_and!; try done.
    + by apply (kucoin_sorted_keys Kucoin.bids).
    + by apply (kucoin_sorted_keys Kucoin.asks).
Qed.

(** The scenario of the specification, evaluated: with two levels retained
    the asks are 100 and 100.5. *)
Example scenario_top_two_asks :
  Binance.top_asks 2
    (binance_run (Binance.snapshot [] scenario_bids scenario_asks)
       binance_scenario_events)
  = [Binance.Order "100" (VStr "1") Sell; Binance.Order "100.5" (VStr "1") Sell]
  ∧ kucoin_run (Kucoin.snapshot scenario_bids scenario_asks)
      kucoin_scenario_events
    = Kucoin.OrderBook
        [("100", VStr "1"); ("100.5", VStr "1"); ("101", VStr "2")] [].
Proof. split; by_evaluation. Qed.

Lemma C1_projection_sorted_bounded_distinct_witness :
  (NoDup (binance_key <$> Binance.snapshot [] scenario_bids scenario_asks)
   ∧ StronglySorted Qcle
       ((λ o, toNumber (Binance.price o))
          <$> Binance.top_asks 2
                (binance_run (Binance.snapshot [] scenario_bids scenario_asks)
                   binance_scenario_events))
   ∧ NoDup (Binance.price
              <$> Binance.top_asks 2
                    (binance_run (Binance.snapshot [] scenario_bids scenario_asks)
                       binance_scenario_events)))
  ∧ ((StronglySorted (flip Qcle) ((λ l, toNumber l.1) <$> scenario_bids)
      ∧ StronglySorted Qcle ((λ l, toNumber l.1) <$> scenario_asks)
      ∧ NoDup scenario_bids.*1 ∧ NoDup scenario_asks.*1)
     ∧ StronglySorted Qcle
         ((λ l, toNumber l.1)
            <$> Kucoin.ob_asks
                  (kucoin_run (Kucoin.snapshot scenario_bids scenario_asks)
                     kucoin_scenario_events))
     ∧ length (Kucoin.ob_asks
                 (kucoin_run (Kucoin.snapshot scenario_bids scenario_asks)
                    kucoin_scenario_events)) ≤ 50).
Proof.
  destruct C1_projection_sorted_bounded_distinct
    as (HBinance & HSnapshot & _ & HKucoin & _).
  assert (NoDup scenario_bids.*1) as Hnb by by_evaluation.
  assert (NoDup scenario_asks.*1) as Hna by by_evaluation.
  assert (StronglySorted (flip Qcle) ((λ l, toNumber l.1) <$> scenario_bids))
    as Hsb.
  { repeat constructor. }
  assert (StronglySorted Qcle ((λ l, toNumber l.1) <$> scenario_asks)) as Hsa
    by by_evaluation.
  pose proof (HSnapshot scenario_bids scenario_asks Hnb Hna) as Hkeys.
  split.
  - split; [done|].
    destruct (HBinance (Binance.snapshot [] scenario_bids scenario_asks)
                binance_scenario_events 2) as (_ & Hsorted & _ & Hnodup).
    split; [done|]. exact (Hnodup Hkeys).
  - split; [by split_and!|].
    destruct (HKucoin scenario_bids scenario_asks kucoin_scenario_events
                Hsb Hsa Hnb Hna) as (_ & Hsorted & Hlen & _).
    by split.
Defined.

(** The claim as the specification words it fails.  One number spelled in
    two ways is two prices for the book: after an ask at ["100.0"] the
    projected asks hold the prices 100, 100 and 101.  The response of the
    REST request is appended to what the stream has stored by then: with a
    bid at ["99"] stored before the response, the projected bids hold
    ["99"] twice, whatever follows.  And Kucoin writes a side no change has
    touched in the order the response had. *)
Lemma C1_projection_repeats_a_price :
  ¬ NoDup ((λ o, toNumber (Binance.price o))
             <$> Binance.top_asks 3
                   (binance_run (Binance.snapshot [] scenario_bids scenario_asks)
                      binance_respelled_ask))
  ∧ ¬ NoDup (Binance.price
               <$> Binance.top_bids 2
                     (binance_run
                        (Binance.snapshot binance_early_bid scenario_bids
                           scenario_asks)
                        binance_respelled_ask))
  ∧ ¬ StronglySorted Qcle
        ((λ l, toNumber l.1)
           <$> Kucoin.ob_asks
                 (kucoin_run (Kucoin.snapshot scenario_bids kucoin_unsorted_asks)
                    [(Kucoin.bids, ("98", VStr "1"))])).
Proof. split_and!; by_evaluation. Qed.

(** ** Last write wins *)

Lemma NoDup_fmap_elem_inj {A B} (f : A → B) (l : list A) x y :
  NoDup (f <$> l) → x ∈ l → y ∈ l → f x = f y → x = y.
Proof.
  intros Hnd (i & Hi)%list_elem_of_lookup (j & Hj)%list_elem_of_lookup Hf.
  assert (i = j) as ->; [|congruence].
  apply (NoDup_lookup (f <$> l) i j (f x) Hnd);
    rewrite list_lookup_fmap; [by rewrite Hi|by rewrite Hj, Hf].
Qed.

Lemma bitmex_two_updates ob u1 u2 i :
  BitMEX.u_id u1 = BitMEX.u_id u2 →
  findIndex (λ item, BitMEX.id item = BitMEX.u_id u2) ob = Some i →
  BitMEX.applyUpdate (BitMEX.applyUpdate ob u1) u2
  = alter (λ o, BitMEX.merge (BitMEX.merge o u1) u2) i ob.
Proof.
  intros Hid Hfind. unfold BitMEX.applyUpdate. rewrite Hid, Hfind.
  rewrite findIndex_alter, Hfind.
  - by rewrite list_alter_alter_eq.
  - intros o Ho. apply findIndex_Some_lookup in Hfind as (o' & Ho' & Hid').
    simplify_eq. simpl. by rewrite Hid.
Qed.

(** C9, as the scripts have it.  Two upserts at one price, applied in
    order, leave what the second alone would leave: on Binance (price and
    side), Kraken and Kucoin (where each upsert is followed by the sort and
    the cut at 50 levels).  The book then holds the second value at the
    key: on Kraken always; on Binance always, and no other value at the key
    when the book held at most one order per price and side; on Kucoin
    when the side has room or already holds the price, and no other value
    when the side held one level per price.  BitMEX, keyed by id, has no
    upsert: an update merges its fields into the order of that id, so after
    two updates the order holds the second's value in each field the
    second supplies and what the first left in the others; that is what
    the second alone would leave when the second supplies every field the
    first supplies. *)
Theorem C9_last_write_wins :
  (∀ sd ob p q1 q2,
     strict_eq q1 (VStr "0.00000000") = false →
     strict_eq q2 (VStr "0.00000000") = false →
     let ob' := Binance.applyUpdate sd (Binance.applyUpdate sd ob (p, q1)) (p, q2) in
     ob' = Binance.applyUpdate sd ob (p, q2)
     ∧ Binance.Order p q2 sd ∈ ob'
     ∧ (NoDup (binance_key <$> ob) →
        ∀ o, o ∈ ob' → binance_key o = (p, sd) → o = Binance.Order p q2 sd))
  ∧ (∀ (levels : gmap string value) p v1 v2,
     strict_eq v1 (VStr "0.00000000") = false →
     strict_eq v2 (VStr "0.00000000") = false →
     Kraken.applyUpdate (Kraken.applyUpdate levels (p, v1)) (p, v2)
     = Kraken.applyUpdate levels (p, v2)
     ∧ Kraken.applyUpdate (Kraken.applyUpdate levels (p, v1)) (p, v2) !! p
       = Some v2)
  ∧ (∀ t (levels : list Kucoin.level) p s1 s2,
     strict_eq s1 (VStr "0") = false →
     strict_eq s2 (VStr "0") = false →
     let levels' :=
       Kucoin.applyChange t (Kucoin.applyChange t levels (p, s1)) (p, s2) in
     levels' = Kucoin.applyChange t levels (p, s2)
     ∧ (length levels < 50 ∨ (p ∈ levels.*1 ∧ length levels ≤ 50) →
        (p, s2) ∈ levels')
     ∧ (NoDup levels.*1 → ∀ s, (p, s) ∈ levels' → s = s2))
  ∧ (∀ ob u1 u2,
     BitMEX.u_id u1 = BitMEX.u_id u2 →
     (supplies_all u2 u1 →
      BitMEX.applyUpdate (BitMEX.applyUpdate ob u1) u2 = BitMEX.applyUpdate ob u2)
     ∧ (∀ i, findIndex (λ item, BitMEX.id item = BitMEX.u_id u2) ob = Some i →
          BitMEX.applyUpdate (BitMEX.applyUpdate ob u1) u2
          = alter (λ o, BitMEX.merge (BitMEX.merge o u1) u2) i ob)
     ∧ (∀ o,
          BitMEX.size (BitMEX.merge (BitMEX.merge o u1) u2)
          = default (default (BitMEX.size o) (BitMEX.u_size u1)) (BitMEX.u_size u2)
          ∧ BitMEX.price (BitMEX.merge (BitMEX.merge o u1) u2)
            = default (default (BitMEX.price o) (BitMEX.u_price u1))
                (BitMEX.u_price u2))).
Proof.
  split_and!.
  - intros sd ob p q1 q2 H1 H2 ob'.
    assert (Heq : ob' = Binance.applyUpdate sd ob (p, q2))
      by (by apply binance_last_write).
    assert (Hin : Binance.Order p q2 sd ∈ ob')
      by (by apply binance_upsert_elem).
    split_and!; [done..|].
    intros Hnd o Ho Hkey.
    apply (NoDup_fmap_elem_inj binance_key ob'); [|done..].
    by apply binance_applyUpdate_keys, binance_applyUpdate_keys.
  - intros levels p v1 v2 _ H2. rewrite kraken_last_write. split; [done|].
    unfold Kraken.applyUpdate; simpl. rewrite H2. apply lookup_insert_eq.
  - intros t levels p s1 s2 H1 H2 levels'.
    assert (Heq : levels' = Kucoin.applyChange t levels (p, s2)).
    { unfold levels'. rewrite !applyChange_upsert by done. apply kucoin_last_write. }
    split_and!; [done| |].
    + intros Hroom. rewrite Heq. by apply kucoin_zero_sized_level_kept.
    + intros Hnd s. rewrite Heq, applyChange_upsert by done.
      intros (i & Hi & _)%elem_of_take.
      apply list_elem_of_lookup_2 in Hi. rewrite js_sort_Permutation in Hi.
      assert (Hpair : (p, s) = (p, s2)); [|by injection Hpair].
      apply (NoDup_fmap_elem_inj fst (kucoin_upsert levels p s2));
        [by apply NoDup_kucoin_upsert|done|apply kucoin_upsert_elem|done].
  - intros ob u1 u2 Hid. split_and!.
    + by apply bitmex_last_write.
    + intros i. by apply bitmex_two_updates.
    + done.
Qed.

Lemma C9_last_write_wins_witness :
  ((strict_eq (VStr "2.50000000") (VStr "0.00000000") = false
    ∧ strict_eq (VStr "3.50000000") (VStr "0.00000000") = false
    ∧ NoDup (binance_key <$> binance_small_book))
   ∧ ∀ o, o ∈ Binance.applyUpdate Buy
                (Binance.applyUpdate Buy binance_small_book
                   ("99", VStr "2.50000000"))
                ("99", VStr "3.50000000") →
          binance_key o = ("99", Buy) →
          o = Binance.Order "99" (VStr "3.50000000") Buy)
  ∧ Kraken.applyUpdate
      (Kraken.applyUpdate kraken_asks ("100.0", VStr "2.50000000"))
      ("100.0", VStr "3.50000000") !! "100.0"
    = Some (VStr "3.50000000")
  ∧ ((strict_eq (VStr "5") (VStr "0") = false
      ∧ strict_eq (VStr "6") (VStr "0") = false
      ∧ length (Kucoin.get Kucoin.asks kucoin_sorted_asks) < 50)
     ∧ ("100", VStr "6")
         ∈ Kucoin.applyChange Kucoin.asks
             (Kucoin.applyChange Kucoin.asks
                (Kucoin.get Kucoin.asks kucoin_sorted_asks) ("100", VStr "5"))
             ("100", VStr "6"))
  ∧ ((BitMEX.u_id bitmex_resize_second_first = BitMEX.u_id bitmex_resize_second
      ∧ supplies_all bitmex_resize_second bitmex_resize_second_first)
     ∧ BitMEX.applyUpdate
         (BitMEX.applyUpdate bitmex_two_bids bitmex_resize_second_first)
         bitmex_resize_second
       = BitMEX.applyUpdate bitmex_two_bids bitmex_resize_second).
Proof.
  destruct C9_last_write_wins as (HBinance & HKraken & HKucoin & HBitMEX).
  assert (supplies_all bitmex_resize_second bitmex_resize_second_first) as Hall.
  { unfold supplies_all; simpl. split_and!; intros [? [=]]; eauto. }
  assert (NoDup (binance_key <$> binance_small_book)) as Hnd by by_evaluation.
  assert (length (Kucoin.get Kucoin.asks kucoin_sorted_asks) < 50) as Hroom
    by (simpl; lia).
  split; [|split; [|split]].
  - split; [by split_and!|].
    destruct (HBinance Buy binance_small_book "99" (VStr "2.50000000")
                (VStr "3.50000000") eq_refl eq_refl) as (_ & _ & Honly).
    exact (Honly Hnd).
  - by destruct (HKraken kraken_asks "100.0" (VStr "2.50000000")
                   (VStr "3.50000000") eq_refl eq_refl) as [_ ->].
  - split; [by split_and!|].
    destruct (HKucoin Kucoin.asks (Kucoin.get Kucoin.asks kucoin_sorted_asks)
                "100" (VStr "5") (VStr "6") eq_refl eq_refl) as (_ & Hheld & _).
    apply Hheld. by left.
  - split; [by split|].
    destruct (HBitMEX bitmex_two_bids bitmex_resize_second_first
                bitmex_resize_second eq_refl) as (Hsecond & _).
    exact (Hsecond Hall).
Defined.

(** The claim as the specification words it fails.  On BitMEX a field the
    second update leaves out keeps what the first wrote: after a resize to
    6 and a reprice to 41 the second bid has size 6, where the reprice
    alone leaves size 5.  On a full Kucoin side a price that ranks behind
    the 50 stored levels is dropped at each upsert: the side holds neither
    value.  And on a Binance book with two orders for one price and side,
    only the older is rewritten: the book holds the second value and the
    stale one. *)
Lemma C9_second_value_not_the_only_one :
  (BitMEX.u_id bitmex_resize_second = BitMEX.u_id bitmex_reprice_second
   ∧ BitMEX.applyUpdate (BitMEX.applyUpdate bitmex_two_bids bitmex_resize_second)
       bitmex_reprice_second
     = [ BitMEX.Order "XBTUSD" 1 Buy (Q2Qc 10) (Q2Qc 50) "t0";
         BitMEX.Order "XBTUSD" 2 Buy (Q2Qc 6) (Q2Qc 41) "t0" ]
   ∧ BitMEX.applyUpdate bitmex_two_bids bitmex_reprice_second
     = [ BitMEX.Order "XBTUSD" 1 Buy (Q2Qc 10) (Q2Qc 50) "t0";
         BitMEX.Order "XBTUSD" 2 Buy (Q2Qc 5) (Q2Qc 41) "t0" ]
   ∧ BitMEX.applyUpdate (BitMEX.applyUpdate bitmex_two_bids bitmex_resize_second)
       bitmex_reprice_second
     ≠ BitMEX.applyUpdate bitmex_two_bids bitmex_reprice_second)
  ∧ (strict_eq (VStr "1") (VStr "0") = false
     ∧ strict_eq (VStr "2") (VStr "0") = false
     ∧ "150" ∉ (Kucoin.applyChange Kucoin.asks
                  (Kucoin.applyChange Kucoin.asks kucoin_full_asks
                     ("150", VStr "1"))
                  ("150", VStr "2")).*1)
  ∧ (Binance.applyUpdate Buy
       (Binance.applyUpdate Buy
          (Binance.snapshot binance_early_bid scenario_bids scenario_asks)
          ("99", VStr "2.50000000"))
       ("99", VStr "3.50000000")
     = [ Binance.Order "99" (VStr "3.50000000") Buy;
         Binance.Order "99" (VStr "1") Buy;
         Binance.Order "100" (VStr "1") Sell;
         Binance.Order "101" (VStr "2") Sell ]).
Proof. split_and!; by_evaluation. Qed.

(** * Further properties of the scripts *)

(** ** Lists: removing and assigning by index *)

Lemma filter_delete_other {A} (Q : A → Prop) `{∀ x, Decision (Q x)}
    (l : list A) i x :
  l !! i = Some x → ¬ Q x → filter Q (delete i l) = filter Q l.
Proof.
  revert i. induction l as [|y l IH]; intros [|i] Hi Hx; simplify_eq/=.
  - by rewrite filter_cons_False.
  - rewrite !filter_cons. by rewrite (IH i).
Qed.

Lemma filter_alter_other {A} (Q : A → Prop) `{∀ x, Decision (Q x)}
    (f : A → A) (l : list A) i x :
  l !! i = Some x → ¬ Q x → ¬ Q (f x) → filter Q (alter f i l) = filter Q l.
Proof.
  revert i. induction l as [|y l IH]; intros [|i] Hi Hx Hfx; simplify_eq/=.
  - by rewrite !filter_cons_False.
  - rewrite !filter_cons.
    change (list_alter f i l) with (alter f i l). by rewrite (IH i).
Qed.

(** With one element per key, removing an element removes its key. *)
Lemma delete_unique_key {A B} `{EqDecision B} (key : A → B) (l : list A) i x :
  NoDup (key <$> l) → l !! i = Some x →
  delete i l = filter (λ y, key y ≠ key x) l.
Proof.
  revert i. induction l as [|y l IH]; intros [|i] Hnodup Hi; simplify_eq/=.
  - apply NoDup_cons in Hnodup as [Hx _].
    rewrite filter_cons_False by (intros Hne; by apply Hne).
    symmetry. apply filter_Forall, Forall_forall. intros y Hy Heq.
    apply Hx. rewrite <-Heq. by apply list_elem_of_fmap_2.
  - apply NoDup_cons in Hnodup as [Hy Hnodup].
    rewrite filter_cons_True.
    + f_equal. by apply IH.
    + intros Heq. apply Hy. rewrite Heq.
      by eapply list_elem_of_fmap_2, list_elem_of_lookup_2.
Qed.

(** ** Binance: what an update touches *)

Lemma binance_applyUpdate_frame (Q : Binance.order → Prop)
    `{∀ o, Decision (Q o)} sd ob u :
  (∀ o, Q o → ¬ (Binance.price o = u.1 ∧ Binance.side o = sd)) →
  filter Q (Binance.applyUpdate sd ob u) = filter Q ob.
Proof.
  intros HQ. unfold Binance.applyUpdate.
  destruct (findIndex _ ob) as [i|] eqn:Hfind.
  - apply findIndex_Some_lookup in Hfind as (x & Hi & Hx).
    destruct (strict_eq _ _).
    + eapply filter_delete_other; [done|]. intros ?. by eapply HQ.
    + eapply filter_alter_other; [done|..]; intros ?; by eapply HQ.
  - destruct (strict_eq _ _); [done|].
    rewrite filter_app, filter_cons_False, filter_nil, app_nil_r; [done|].
    intros ?. by eapply HQ.
Qed.

(** X1. A Binance update for a price on one side leaves every order with
    another price or on the other side as it is, in the order it has; so a
    bid update never changes the projected asks, nor an ask update the
    projected bids. *)
Theorem X1_binance_update_touches_one_key sd ob u n :
  filter (λ o, binance_key o ≠ (u.1, sd)) (Binance.applyUpdate sd ob u)
  = filter (λ o, binance_key o ≠ (u.1, sd)) ob
  ∧ Binance.top_asks n (Binance.applyUpdate Buy ob u) = Binance.top_asks n ob
  ∧ Binance.top_bids n (Binance.applyUpdate Sell ob u) = Binance.top_bids n ob.
Proof.
  split_and!.
  - apply binance_applyUpdate_frame. intros o Ho [Hp Hs]. apply Ho.
    unfold binance_key. by rewrite Hp, Hs.
  - unfold Binance.top_asks. rewrite binance_applyUpdate_frame; [done|].
    by intros o -> [_ ?].
  - unfold Binance.top_bids. rewrite binance_applyUpdate_frame; [done|].
    by intros o -> [_ ?].
Qed.

(** X2. In a Binance book with one order per price and side, the zero
    sentinel for a price that is present removes exactly that order: the
    book becomes the other orders in their order, one order shorter, and
    holds no order at that price on that side. *)
Theorem X2_binance_sentinel_removes_the_order sd ob p :
  NoDup (binance_key <$> ob) →
  (∃ o, o ∈ ob ∧ binance_key o = (p, sd)) →
  Binance.applyUpdate sd ob (p, VStr "0.00000000")
  = filter (λ o, binance_key o ≠ (p, sd)) ob
  ∧ S (length (Binance.applyUpdate sd ob (p, VStr "0.00000000"))) = length ob
  ∧ (∀ o, o ∈ Binance.applyUpdate sd ob (p, VStr "0.00000000") →
          binance_key o ≠ (p, sd)).
Proof.
  intros Hnodup (o & Ho & Hkey).
  assert (Binance.applyUpdate sd ob (p, VStr "0.00000000")
          = filter (λ o, binance_key o ≠ (p, sd)) ob
          ∧ S (length (Binance.applyUpdate sd ob (p, VStr "0.00000000")))
            = length ob) as [Heq Hlen].
  { unfold Binance.applyUpdate; simpl.
    destruct (findIndex _ ob) as [i|] eqn:Hfind.
    - apply findIndex_Some_lookup in Hfind as (x & Hi & [Hp Hs]).
      split.
      + rewrite (delete_unique_key binance_key ob i x) by done.
        apply list_filter_iff. intros y.
        replace (binance_key x) with (p, sd); [done|].
        unfold binance_key. by rewrite Hp, Hs.
      + rewrite length_delete by eauto.
        apply lookup_lt_Some in Hi. lia.
    - apply findIndex_None in Hfind.
      eapply Forall_forall in Hfind; [|exact Ho].
      destruct Hfind. by injection Hkey. }
  split_and!; [done..|].
  rewrite Heq. by intros o' [? _]%list_elem_of_filter.
Qed.

Lemma X2_binance_sentinel_removes_the_order_witness :
  (NoDup (binance_key <$> binance_small_book)
   ∧ ∃ o, o ∈ binance_small_book ∧ binance_key o = ("100", Sell))
  ∧ S (length (Binance.applyUpdate Sell binance_small_book
                 ("100", VStr "0.00000000")))
    = length binance_small_book.
Proof.
  assert (NoDup (binance_key <$> binance_small_book)) as Hnodup.
  { apply (bool_decide_eq_true_1 _). vm_compute. reflexivity. }
  assert (∃ o, o ∈ binance_small_book ∧ binance_key o = ("100", Sell)) as Hin.
  { exists (Binance.Order "100" (VStr "1.00000000") Sell).
    split; [|reflexivity]. apply (bool_decide_eq_true_1 _). vm_compute.
    reflexivity. }
  split; [by split|].
  apply (X2_binance_sentinel_removes_the_order Sell binance_small_book "100"
           Hnodup Hin).
Defined.

(** X3. Upserting a price that a Binance side does not hold and then
    sending the zero sentinel for it gives the book back as it was. *)
Theorem X3_binance_insert_then_delete sd ob p q :
  strict_eq q (VStr "0.00000000") = false →
  (∀ o, o ∈ ob → ¬ (Binance.price o = p ∧ Binance.side o = sd)) →
  Binance.applyUpdate sd (Binance.applyUpdate sd ob (p, q))
    (p, VStr "0.00000000") = ob.
Proof.
  intros Hq Hp.
  assert (findIndex (λ o, Binance.price o = p ∧ Binance.side o = sd) ob = None)
    as Hfind by by apply findIndex_None, Forall_forall.
  unfold Binance.applyUpdate at 2; simpl. rewrite Hq, Hfind.
  unfold Binance.applyUpdate; simpl.
  rewrite findIndex_snoc_absent by done.
  by rewrite (delete_middle ob []), app_nil_r.
Qed.

Lemma X3_binance_insert_then_delete_witness :
  (strict_eq (VStr "0.0") (VStr "0.00000000") = false
   ∧ ∀ o, o ∈ binance_small_book →
          ¬ (Binance.price o = "98" ∧ Binance.side o = Buy))
  ∧ Binance.applyUpdate Buy
      (Binance.applyUpdate Buy binance_small_book ("98", VStr "0.0"))
      ("98", VStr "0.00000000") = binance_small_book.
Proof.
  assert (∀ o, o ∈ binance_small_book →
               ¬ (Binance.price o = "98" ∧ Binance.side o = Buy)) as Habsent.
  { apply Forall_forall. apply (bool_decide_eq_true_1 _). vm_compute.
    reflexivity. }
  split; [by split|].
  apply (X3_binance_insert_then_delete Buy binance_small_book "98" (VStr "0.0"));
    [reflexivity|exact Habsent].
Defined.

(** ** Binance: the message loop *)

Lemma binance_run_app ob es1 es2 :
  binance_run ob (es1 ++ es2) = binance_run (binance_run ob es1) es2.
Proof. apply foldl_app. Qed.

Lemma binance_handle_complete cfg ts ob m :
  binance_complete m →
  Binance.handleOrderBook cfg ts ob m
  = Ok (Outcome (binance_run ob (binance_events m))
          (Binance.insertOrderBookToDB cfg (binance_run ob (binance_events m)) ts)
          []).
Proof.
  destruct m as [[bs|] [as_|]]; intros [[? Hb] [? Ha]]; simplify_eq/=.
  unfold Binance.handleOrderBook, binance_events; simpl.
  by rewrite binance_run_app; unfold binance_run; rewrite !foldl_fmap.
Qed.

Lemma binance_handle_incomplete cfg ts ob m :
  ¬ binance_complete m → ∃ e, Binance.handleOrderBook cfg ts ob m = Throw e.
Proof.
  unfold binance_complete, Binance.handleOrderBook.
  destruct m as [[bs|] [as_|]]; simpl; intros Hm; eauto.
  destruct Hm. split; eauto.
Qed.

(** X4. The Binance message loop.  When every message has its [bids] and
    [asks] arrays, the loop ends in the book obtained by applying the
    changes one by one, the bids of a message before its asks, and every
    message starts one batch and logs nothing.  The time, the levels, the
    types and the prices of the rows of a batch are those of the
    projection of the book as that message left it: they are fixed when
    the message is handled.  Nothing is said here of the volumes, which
    the script reads when it builds each row.  When some message lacks one
    of the arrays, the loop ends with an uncaught TypeError. *)
Theorem X4_binance_message_loop cfg ob ms :
  (Forall (λ tm, binance_complete tm.2) ms →
   ∃ outs,
     message_loop (Binance.handleOrderBook cfg) ob ms
     = Ok (binance_run ob (ms ≫= λ tm, binance_events tm.2), outs)
     ∧ Forall2 (λ tm out,
         row_heading <$> emitted out
         = row_heading <$> Binance.insertOrderBookToDB cfg (book_after out) tm.1
         ∧ logged out = []) ms outs)
  ∧ (Exists (λ tm, ¬ binance_complete tm.2) ms →
     ∃ e, message_loop (Binance.handleOrderBook cfg) ob ms = Throw e).
Proof.
  split.
  - intros Hms. revert ob.
    induction Hms as [|[ts m] ms Hm _ IH]; intros ob; simpl.
    { exists []. by split. }
    rewrite binance_handle_complete by done. simpl.
    destruct (IH (binance_run ob (binance_events m))) as (outs & -> & Houts).
    eexists. rewrite binance_run_app. split; [done|].
    by constructor.
  - intros Hms. revert ob.
    induction Hms as [[ts m] ms Hm|[ts m] ms _ IH]; intros ob; simpl.
    + destruct (binance_handle_incomplete cfg ts ob m Hm) as [e ->]. eauto.
    + destruct (Binance.handleOrderBook cfg ts ob m) as [out|e]; [|eauto].
      destruct (IH (book_after out)) as [e ->]. eauto.
Qed.

Lemma X4_binance_message_loop_witness :
  (Forall (λ tm, binance_complete tm.2) binance_two_messages
   ∧ ∃ outs,
       message_loop (Binance.handleOrderBook (Config 20 true))
         binance_small_book binance_two_messages
       = Ok (binance_run binance_small_book
               [(Buy, ("98", VStr "1.00000000"));
                (Sell, ("100", VStr "0.00000000"))], outs))
  ∧ (Exists (λ tm, ¬ binance_complete tm.2) [("t1", binance_reply)]
     ∧ ∃ e, message_loop (Binance.handleOrderBook (Config 20 true))
              binance_small_book [("t1", binance_reply)] = Throw e).
Proof.
  assert (H1 : Forall (λ tm, binance_complete tm.2) binance_two_messages).
  { repeat constructor; simpl; eauto. }
  assert (H2 : Exists (λ tm : string * Binance.message, ¬ binance_complete tm.2)
                 [("t1", binance_reply)]).
  { constructor. intros [[? Hb] _]. discriminate Hb. }
  split; (split; [done|]).
  - destruct (X4_binance_message_loop (Config 20 true) binance_small_book
                binance_two_messages) as [Hok _].
    destruct (Hok H1) as (outs & Heq & _). by exists outs.
  - destruct (X4_binance_message_loop (Config 20 true) binance_small_book
                [("t1", binance_reply)]) as [_ Hthrow].
    exact (Hthrow H2).
Defined.

(** ** The shape of a batch of rows *)

Lemma fmap_with_levels {A B C} (g : B → C) (f : nat → A → B) l :
  g <$> with_levels f l = with_levels (λ i x, g (f i x)) l.
Proof. unfold with_levels. by rewrite fmap_imap. Qed.

Lemma with_levels_const {A B} (c : B) (l : list A) :
  with_levels (λ _ _, c) l = replicate (length l) c.
Proof.
  unfold with_levels.
  change (imap (const (const c)) l = replicate (length l) c).
  rewrite imap_const. by apply const_fmap.
Qed.

Lemma with_levels_index {A} (l : list A) :
  with_levels (λ i _, i) l = seq 1 (length l).
Proof.
  unfold with_levels. rewrite (imap_seq_0 l S). apply fmap_S_seq.
Qed.

Lemma with_levels_shape {A} (f g : nat → A → row) ts pf t1 t2 l1 l2 :
  (∀ i x, f i x = Row ts pf i t1 (row_price (f i x)) (volume (f i x))) →
  (∀ i x, g i x = Row ts pf i t2 (row_price (g i x)) (volume (g i x))) →
  batch_shape ts pf t1 t2 (length l1) (length l2)
    (with_levels f l1 ++ with_levels g l2).
Proof.
  intros Hf Hg.
  assert (Hshape : ∀ (h : nat → A → row) t l,
    (∀ i x, h i x = Row ts pf i t (row_price (h i x)) (volume (h i x))) →
    timestamp <$> with_levels h l = replicate (length l) ts
    ∧ platform <$> with_levels h l = replicate (length l) pf
    ∧ order_type <$> with_levels h l = replicate (length l) t
    ∧ order_level <$> with_levels h l = seq 1 (length l)).
  { intros h t l Hh.
    rewrite !fmap_with_levels, <-!with_levels_const, <-with_levels_index.
    unfold with_levels.
    split_and!; apply imap_ext; intros i x _; simpl; by rewrite Hh. }
  destruct (Hshape f t1 l1 Hf) as (Hf1 & Hf2 & Hf3 & Hf4).
  destruct (Hshape g t2 l2 Hg) as (Hg1 & Hg2 & Hg3 & Hg4).
  unfold batch_shape. rewrite !fmap_app, !replicate_add.
  by rewrite Hf1, Hf2, Hf3, Hf4, Hg1, Hg2, Hg3, Hg4.
Qed.

Ltac by_shape ts pf t1 t2 :=
  match goal with
  | |- batch_shape _ _ _ _ _ _ (?r1 ++ ?r2) =>
      match r1 with
      | with_levels ?f ?l1 =>
          match r2 with
          | with_levels ?g ?l2 =>
              generalize (with_levels_shape f g ts pf t1 t2 l1 l2
                            (λ _ _, eq_refl) (λ _ _, eq_refl))
          end
      end;
      rewrite ?length_take, ?length_js_sort; intros Hshape; exact Hshape
  end.

(** X5. The shape of one batch.  Every row of a batch carries the time the
    message was received and the venue's name.  Binance and BitMEX write
    the bids (['Bid']) before the asks (['Ask']), Kucoin the ['bids'] before
    the ['asks'], Kraken the asks (['ask']) before the bids (['bid']).  The
    rows of each side are numbered 1, 2, ... without gaps, and a side has
    as many rows as it has levels, up to [numLevel] (for Kucoin: as many as
    the stored side has). *)
Theorem X5_batch_shape cfg ts :
  (∀ ob,
     batch_shape ts "Binance" "Bid" "Ask"
       (numLevel cfg `min` length (filter (λ o, Binance.side o = Buy) ob))
       (numLevel cfg `min` length (filter (λ o, Binance.side o = Sell) ob))
       (Binance.insertOrderBookToDB cfg ob ts))
  ∧ (∀ ob,
     batch_shape ts "BitMEX" "Bid" "Ask"
       (numLevel cfg `min` length (filter (λ o, BitMEX.side o = Buy) ob))
       (numLevel cfg `min` length (filter (λ o, BitMEX.side o = Sell) ob))
       (BitMEX.rows cfg ob ts))
  ∧ (∀ ob,
     batch_shape ts "Kraken" "ask" "bid"
       (numLevel cfg `min` length (Kraken.toPairs (Kraken.asks ob)))
       (numLevel cfg `min` length (Kraken.toPairs (Kraken.bids ob)))
       (Kraken.insertOrderBookToDB cfg ob ts))
  ∧ (∀ ob,
     batch_shape ts "Kucoin" "bids" "asks"
       (length (Kucoin.ob_bids ob)) (length (Kucoin.ob_asks ob))
       (Kucoin.insertOrderBooktoDB ob ts)).
Proof.
  split_and!; intros ob.
  - unfold Binance.insertOrderBookToDB, Binance.top_bids, Binance.top_asks.
    by_shape ts "Binance" "Bid" "Ask".
  - unfold BitMEX.rows, BitMEX.sorted_bids, BitMEX.sorted_asks.
    by_shape ts "BitMEX" "Bid" "Ask".
  - unfold Kraken.insertOrderBookToDB, Kraken.orderedAsks, Kraken.orderedBids.
    by_shape ts "Kraken" "ask" "bid".
  - unfold Kucoin.insertOrderBooktoDB.
    assert (Himap : ∀ ty (l : list Kucoin.level),
      imap (λ index order, Row ts "Kucoin" (index + 1) ty (VStr order.1) order.2) l
      = with_levels (λ i order, Row ts "Kucoin" i ty (VStr order.1) order.2) l).
    { intros ty l. apply imap_ext. intros i x _. simpl. by rewrite Nat.add_1_r. }
    rewrite !Himap. by_shape ts "Kucoin" "bids" "asks".
Qed.

(** ** What the projection keeps *)

Section JsSortBest.
Context {A : Type} (cmp : A → A → Qc).

Hypothesis cmp_total : ∀ a b, (cmp a b ≤ 0)%Qc ∨ (cmp b a ≤ 0)%Qc.
Hypothesis cmp_trans :
  ∀ a b c, (cmp a b ≤ 0)%Qc → (cmp b c ≤ 0)%Qc → (cmp a c ≤ 0)%Qc.

Lemma js_sort_top_from n l x : x ∈ take n (js_sort cmp l) → x ∈ l.
Proof.
  intros Hx. rewrite <-(js_sort_Permutation cmp l).
  apply elem_of_take in Hx as (i & Hi & _). by eapply list_elem_of_lookup_2.
Qed.

Lemma js_sort_top_best n l x y :
  x ∈ take n (js_sort cmp l) → y ∈ l → y ∉ take n (js_sort cmp l) →
  (cmp x y ≤ 0)%Qc.
Proof.
  intros Hx Hy Hny.
  rewrite <-(js_sort_Permutation cmp l), <-(take_drop n (js_sort cmp l)) in Hy.
  apply elem_of_app in Hy as [?|Hy]; [done|].
  pose proof (js_sort_StronglySorted cmp cmp_total cmp_trans l) as Hs.
  rewrite <-(take_drop n (js_sort cmp l)) in Hs.
  exact (StronglySorted_app_1_elem_of _ _ _ x y Hs Hx Hy).
Qed.

Lemma js_sort_top_all n l : length l ≤ n → take n (js_sort cmp l) ≡ₚ l.
Proof.
  intros Hn. rewrite take_ge by (by rewrite length_js_sort).
  apply js_sort_Permutation.
Qed.
End JsSortBest.

(** X6. What the projection keeps.  On Binance, Kraken and BitMEX every
    projected level is a level of that side of the book, and every level
    of the side that was left out is priced no better than each projected
    one: no higher for a bid, no lower for an ask.  When the side has at
    most [n] levels, all of them are projected. *)
Theorem X6_projection_keeps_the_best sd n :
  (∀ ob x, x ∈ binance_top sd n ob →
     (x ∈ ob ∧ Binance.side x = sd)
     ∧ ∀ y, y ∈ ob → Binance.side y = sd → y ∉ binance_top sd n ob →
            no_worse sd (Binance.price y) (Binance.price x))
  ∧ (∀ ob, length (filter (λ o, Binance.side o = sd) ob) ≤ n →
       binance_top sd n ob ≡ₚ filter (λ o, Binance.side o = sd) ob)
  ∧ (∀ ob x, x ∈ bitmex_top sd n ob →
       (x ∈ ob ∧ BitMEX.side x = sd)
       ∧ ∀ y, y ∈ ob → BitMEX.side y = sd → y ∉ bitmex_top sd n ob →
              no_worse_price sd (BitMEX.price y) (BitMEX.price x))
  ∧ (∀ ob, length (filter (λ o, BitMEX.side o = sd) ob) ≤ n →
       bitmex_top sd n ob ≡ₚ filter (λ o, BitMEX.side o = sd) ob)
  ∧ (∀ ob l, l ∈ kraken_top sd n ob →
       l ∈ Kraken.toPairs (kraken_side sd ob)
       ∧ ∀ l', l' ∈ Kraken.toPairs (kraken_side sd ob) →
               l' ∉ kraken_top sd n ob → no_worse sd l'.1 l.1)
  ∧ (∀ ob, length (Kraken.toPairs (kraken_side sd ob)) ≤ n →
       kraken_top sd n ob ≡ₚ Kraken.toPairs (kraken_side sd ob)).
Proof.
  split_and!.
  - intros ob x Hx. split.
    + destruct sd; apply js_sort_top_from in Hx;
        apply list_elem_of_filter in Hx; tauto.
    + intros y Hy Hsd Hny.
      assert (Hy' : y ∈ filter (λ o, Binance.side o = sd) ob)
        by (by apply list_elem_of_filter).
      destruct sd; simpl in *; apply Qc_sub_le_0.
      * exact (js_sort_top_best _
                 (descending_total (λ o, toNumber (Binance.price o)))
                 (descending_trans (λ o, toNumber (Binance.price o)))
                 n _ x y Hx Hy' Hny).
      * exact (js_sort_top_best _
                 (ascending_total (λ o, toNumber (Binance.price o)))
                 (ascending_trans (λ o, toNumber (Binance.price o)))
                 n _ x y Hx Hy' Hny).
  - intros ob Hn. destruct sd; by apply js_sort_top_all.
  - intros ob x Hx. split.
    + destruct sd; apply js_sort_top_from in Hx;
        apply list_elem_of_filter in Hx; tauto.
    + intros y Hy Hsd Hny.
      assert (Hy' : y ∈ filter (λ o, BitMEX.side o = sd) ob)
        by (by apply list_elem_of_filter).
      destruct sd; simpl in *; apply Qc_sub_le_0.
      * exact (js_sort_top_best _
                 (descending_total BitMEX.price) (descending_trans BitMEX.price)
                 n _ x y Hx Hy' Hny).
      * exact (js_sort_top_best _
                 (ascending_total BitMEX.price) (ascending_trans BitMEX.price)
                 n _ x y Hx Hy' Hny).
  - intros ob Hn. destruct sd; by apply js_sort_top_all.
  - intros ob l Hl. split.
    + destruct sd; by apply js_sort_top_from in Hl.
    + intros l' Hl' Hnl'.
      destruct sd; simpl in *; apply Qc_sub_le_0.
      * exact (js_sort_top_best _
                 (descending_total (λ x : string * value, toNumber x.1))
                 (descending_trans (λ x : string * value, toNumber x.1))
                 n _ l l' Hl Hl' Hnl').
      * exact (js_sort_top_best _
                 (ascending_total (λ x : string * value, toNumber x.1))
                 (ascending_trans (λ x : string * value, toNumber x.1))
                 n _ l l' Hl Hl' Hnl').
  - intros ob Hn. destruct sd; by apply js_sort_top_all.
Qed.

Lemma X6_projection_keeps_the_best_witness :
  (Binance.Order "100" (VStr "1.00000000") Sell
     ∈ binance_top Sell 1 binance_small_book
   ∧ Binance.Order "101" (VStr "2.00000000") Sell ∈ binance_small_book
   ∧ Binance.Order "101" (VStr "2.00000000") Sell
       ∉ binance_top Sell 1 binance_small_book)
  ∧ no_worse Sell "101" "100".
Proof.
  assert (Hx : Binance.Order "100" (VStr "1.00000000") Sell
                 ∈ binance_top Sell 1 binance_small_book) by by_evaluation.
  assert (Hy : Binance.Order "101" (VStr "2.00000000") Sell ∈ binance_small_book)
    by by_evaluation.
  assert (Hny : Binance.Order "101" (VStr "2.00000000") Sell
                  ∉ binance_top Sell 1 binance_small_book) by by_evaluation.
  split; [done|].
  destruct (X6_projection_keeps_the_best Sell 1) as (Hbest & _).
  destruct (Hbest binance_small_book _ Hx) as (_ & Hrest).
  exact (Hrest _ Hy eq_refl Hny).
Defined.

(** ** BitMEX: the gate along the stream *)

Lemma bitmex_handle_table cfg ts st m :
  BitMEX.table m = "orderBookL2_25" →
  BitMEX.handleOrderBook cfg ts st m
  = Ok (BitMEX.insertOrderBookToDB cfg
          (BitMEX.State (bitmex_next (BitMEX.orderBook st) (BitMEX.act m))
             (BitMEX.lastInsertedOrderBook st)) ts).
Proof.
  intros Ht. unfold BitMEX.handleOrderBook. by rewrite bool_decide_eq_true_2.
Qed.

Lemma bitmex_gate_step cfg ts st m :
  bitmex_settled st →
  BitMEX.table m = "orderBookL2_25" →
  ∃ out,
    BitMEX.handleOrderBook cfg ts st m = Ok out
    ∧ book_after out
      = BitMEX.State (bitmex_next (BitMEX.orderBook st) (BitMEX.act m))
          (Some (bitmex_next (BitMEX.orderBook st) (BitMEX.act m)))
    ∧ if decide (bitmex_next (BitMEX.orderBook st) (BitMEX.act m)
                 = BitMEX.orderBook st
                 ∧ is_Some (BitMEX.lastInsertedOrderBook st))
      then emitted out = [] ∧ logged out = ["Insertion Skipped"]
      else emitted out
           = BitMEX.rows cfg
               (bitmex_next (BitMEX.orderBook st) (BitMEX.act m)) ts
           ∧ logged out = [].
Proof.
  intros Hs Ht. rewrite bitmex_handle_table by done.
  eexists. split; [done|].
  destruct st as [ob last]. unfold BitMEX.insertOrderBookToDB, BitMEX.same_as_last.
  simpl. generalize (bitmex_next ob (BitMEX.act m)). intros next.
  destruct Hs as [Hlast|Hinit]; simpl in *.
  - subst last. destruct (decide (next = ob)) as [->|Hne].
    + rewrite bool_decide_eq_true_2 by done.
      rewrite decide_True by (split; [done|eauto]). done.
    + rewrite bool_decide_eq_false_2 by congruence.
      rewrite decide_False by tauto. done.
  - injection Hinit as -> ->.
    rewrite bool_decide_eq_false_2 by done.
    rewrite decide_False by (by intros [_ [? ?]]). done.
Qed.

(** X7. The BitMEX gate follows the book.  From the start of the script on,
    the remembered book is the book itself.  So a message of the
    [orderBookL2_25] table is answered by ["Insertion Skipped"] and no row
    exactly when it leaves the book as it was and some book has been
    inserted before; otherwise the rows of the new book are written.  In
    both cases the remembered book is the new book afterwards. *)
Theorem X7_bitmex_gate_follows_the_book cfg ts st m :
  bitmex_settled st →
  BitMEX.table m = "orderBookL2_25" →
  ∃ out,
    BitMEX.handleOrderBook cfg ts st m = Ok out
    ∧ book_after out
      = BitMEX.State (bitmex_next (BitMEX.orderBook st) (BitMEX.act m))
          (Some (bitmex_next (BitMEX.orderBook st) (BitMEX.act m)))
    ∧ bitmex_settled (book_after out)
    ∧ if decide (bitmex_next (BitMEX.orderBook st) (BitMEX.act m)
                 = BitMEX.orderBook st
                 ∧ is_Some (BitMEX.lastInsertedOrderBook st))
      then emitted out = [] ∧ logged out = ["Insertion Skipped"]
      else emitted out
           = BitMEX.rows cfg
               (bitmex_next (BitMEX.orderBook st) (BitMEX.act m)) ts
           ∧ logged out = [].
Proof.
  intros Hs Ht.
  destruct (bitmex_gate_step cfg ts st m Hs Ht) as (out & Hout & Hbook & Hrows).
  exists out. split_and!; [done..| |done].
  rewrite Hbook. by left.
Qed.

Lemma X7_bitmex_gate_follows_the_book_witness :
  (bitmex_settled (BitMEX.State bitmex_two_bids (Some bitmex_two_bids))
   ∧ BitMEX.table (BitMEX.Message bitmex_table
                     (BitMEX.update [bitmex_resize_unknown]))
     = "orderBookL2_25")
  ∧ ∃ out,
      BitMEX.handleOrderBook (Config 25 false) "ts"
        (BitMEX.State bitmex_two_bids (Some bitmex_two_bids))
        (BitMEX.Message bitmex_table (BitMEX.update [bitmex_resize_unknown]))
      = Ok out
      ∧ book_after out = BitMEX.State bitmex_two_bids (Some bitmex_two_bids).
Proof.
  assert (Hs : bitmex_settled (BitMEX.State bitmex_two_bids (Some bitmex_two_bids)))
    by (by left).
  split; [done|].
  destruct (X7_bitmex_gate_follows_the_book (Config 25 false) "ts"
              (BitMEX.State bitmex_two_bids (Some bitmex_two_bids))
              (BitMEX.Message bitmex_table (BitMEX.update [bitmex_resize_unknown]))
              Hs eq_refl) as (out & Hout & Hbook & _).
  exists out. split; [done|]. rewrite Hbook. by_evaluation.
Defined.

(** X8. The BitMEX message loop.  The handler never raises.  Started from a
    state in which the remembered book is the book (as at the start of the
    script), the loop ends in such a state; the book is the one obtained by
    replaying the messages of the [orderBookL2_25] table; and each message
    either writes no row or writes the rows of the book as that message
    left it, stamped with that message's time. *)
Theorem X8_bitmex_message_loop cfg st ms :
  bitmex_settled st →
  ∃ st' outs,
    message_loop (BitMEX.handleOrderBook cfg) st ms = Ok (st', outs)
    ∧ bitmex_settled st'
    ∧ BitMEX.orderBook st' = bitmex_replay (BitMEX.orderBook st) ms
    ∧ Forall2 (λ tm out,
        emitted out = []
        ∨ emitted out
          = BitMEX.rows cfg (BitMEX.orderBook (book_after out)) tm.1)
        ms outs.
Proof.
  revert st. induction ms as [|[ts m] ms IH]; intros st Hs; simpl.
  { exists st, []. by split_and!. }
  destruct (decide (BitMEX.table m = "orderBookL2_25")) as [Ht|Ht].
  - destruct (bitmex_gate_step cfg ts st m Hs Ht) as (out & -> & Hbook & Hrows).
    assert (Hs' : bitmex_settled (book_after out)) by (rewrite Hbook; by left).
    destruct (IH _ Hs') as (st' & outs & -> & Hst' & Hob & Houts).
    exists st', (out :: outs). split_and!; [done..| |].
    + rewrite Hob, Hbook. unfold bitmex_replay at 2. simpl.
      by rewrite bool_decide_eq_true_2.
    + constructor; [|done]. simpl. rewrite Hbook. simpl.
      destruct (decide _); [left|right]; tauto.
  - assert (Hh : BitMEX.handleOrderBook cfg ts st m = Ok (Outcome st [] [])).
    { unfold BitMEX.handleOrderBook. by rewrite bool_decide_eq_false_2. }
    rewrite Hh. simpl. destruct (IH _ Hs) as (st' & outs & -> & Hst' & Hob & Houts).
    eexists _, _. split_and!; [done..| |].
    + rewrite Hob. unfold bitmex_replay at 2. simpl.
      by rewrite bool_decide_eq_false_2.
    + constructor; [by left|done].
Qed.

Lemma X8_bitmex_message_loop_witness :
  bitmex_settled (BitMEX.State [] None)
  ∧ ∃ st' outs,
      message_loop (BitMEX.handleOrderBook (Config 25 false))
        (BitMEX.State [] None) bitmex_four_messages = Ok (st', outs)
      ∧ BitMEX.orderBook st' = bitmex_two_bids_resized.
Proof.
  assert (Hs : bitmex_settled (BitMEX.State [] None)) by (by right).
  split; [done|].
  destruct (X8_bitmex_message_loop (Config 25 false) (BitMEX.State [] None)
              bitmex_four_messages Hs) as (st' & outs & Hloop & _ & Hob & _).
  exists st', outs. split; [done|]. rewrite Hob. by_evaluation.
Defined.

(** ** BitMEX: updates and deletions *)

Lemma findIndex_key {A B} `{EqDecision B} (key : A → B) (l : list A) k :
  findIndex (λ x, key x = k) l = None ↔ k ∉ key <$> l.
Proof.
  rewrite findIndex_None, Forall_forall. split.
  - intros Hl (x & -> & Hx)%list_elem_of_fmap. by apply (Hl x).
  - intros Hk x Hx Hkey. apply Hk. subst k. by apply list_elem_of_fmap_2.
Qed.

Lemma delete_app_l {A} (l1 l2 : list A) i :
  i < length l1 → delete i (l1 ++ l2) = delete i l1 ++ l2.
Proof.
  revert i. induction l1 as [|x l1 IH]; intros [|i] Hi; simpl in *;
    try lia; [done|].
  f_equal. apply IH. lia.
Qed.

Lemma bitmex_applyUpdate_ids ob u :
  BitMEX.id <$> BitMEX.applyUpdate ob u = BitMEX.id <$> ob.
Proof.
  unfold BitMEX.applyUpdate.
  destruct (findIndex _ ob) as [i|] eqn:Hi; [|done].
  apply findIndex_Some_lookup in Hi as (x & Hx & Hid).
  apply list_eq. intros j. rewrite !list_lookup_fmap, list_lookup_alter.
  destruct (decide (i = j)) as [->|]; [|done].
  rewrite Hx. simpl. by rewrite Hid.
Qed.

Lemma bitmex_applyUpdate_absent ob u :
  BitMEX.u_id u ∉ BitMEX.id <$> ob → BitMEX.applyUpdate ob u = ob.
Proof.
  intros Hu%findIndex_key. unfold BitMEX.applyUpdate. by rewrite Hu.
Qed.

Lemma bitmex_updates_absent ob us :
  Forall (λ u, BitMEX.u_id u ∉ BitMEX.id <$> ob) us →
  foldl BitMEX.applyUpdate ob us = ob.
Proof.
  induction 1 as [|u us Hu _ IH]; simpl; [done|].
  by rewrite bitmex_applyUpdate_absent.
Qed.

(** X9. A BitMEX [update] message never adds, removes or reorders an order:
    the ids of the book, in order, are as before.  An update for an id the
    book does not hold is dropped; a message whose updates are all of that
    kind leaves the book as it was and, once a book has been inserted, is
    answered by ["Insertion Skipped"]. *)
Theorem X9_bitmex_update_keeps_the_orders cfg ts ob us :
  BitMEX.id <$> foldl BitMEX.applyUpdate ob us = BitMEX.id <$> ob
  ∧ (Forall (λ u, BitMEX.u_id u ∉ BitMEX.id <$> ob) us →
     foldl BitMEX.applyUpdate ob us = ob
     ∧ BitMEX.handleOrderBook cfg ts (BitMEX.State ob (Some ob))
         (BitMEX.Message "orderBookL2_25" (BitMEX.update us))
       = Ok (Outcome (BitMEX.State ob (Some ob)) [] ["Insertion Skipped"])).
Proof.
  split.
  - revert ob. induction us as [|u us IH]; intros ob; simpl; [done|].
    by rewrite IH, bitmex_applyUpdate_ids.
  - intros Hus. split; [by apply bitmex_updates_absent|].
    rewrite bitmex_handle_table by done. simpl.
    rewrite bitmex_updates_absent by done.
    unfold BitMEX.insertOrderBookToDB, BitMEX.same_as_last. simpl.
    by rewrite bool_decide_eq_true_2.
Qed.

Lemma X9_bitmex_update_keeps_the_orders_witness :
  Forall (λ u, BitMEX.u_id u ∉ BitMEX.id <$> bitmex_two_bids)
    [bitmex_resize_unknown]
  ∧ BitMEX.handleOrderBook (Config 25 false) "ts"
      (BitMEX.State bitmex_two_bids (Some bitmex_two_bids))
      (BitMEX.Message "orderBookL2_25" (BitMEX.update [bitmex_resize_unknown]))
    = Ok (Outcome (BitMEX.State bitmex_two_bids (Some bitmex_two_bids))
            [] ["Insertion Skipped"]).
Proof.
  assert (Hus : Forall (λ u, BitMEX.u_id u ∉ BitMEX.id <$> bitmex_two_bids)
                  [bitmex_resize_unknown]).
  { repeat constructor. by_evaluation. }
  split; [done|].
  destruct (X9_bitmex_update_keeps_the_orders (Config 25 false) "ts"
              bitmex_two_bids [bitmex_resize_unknown]) as (_ & Hskip).
  by destruct (Hskip Hus) as (_ & ->).
Defined.

Lemma bitmex_applyDelete_snoc ob o i :
  BitMEX.id o = i →
  BitMEX.applyDelete (ob ++ [o]) i
  = if decide (i ∈ BitMEX.id <$> ob) then BitMEX.applyDelete ob i ++ [o] else ob.
Proof.
  intros Hid. unfold BitMEX.applyDelete.
  destruct (findIndex _ ob) as [k|] eqn:Hk.
  - assert (Hin : i ∈ BitMEX.id <$> ob).
    { destruct (decide (i ∈ BitMEX.id <$> ob)) as [|Hn]; [done|].
      apply findIndex_key in Hn. congruence. }
    rewrite decide_True by done.
    assert (Hk' : findIndex (λ item, BitMEX.id item = i) (ob ++ [o]) = Some k).
    { unfold findIndex in *.
      destruct (list_find _ ob) as [[k' x]|] eqn:Hf; simplify_eq/=.
      by rewrite (list_find_app_l _ _ _ _ _ Hf). }
    rewrite Hk'. apply delete_app_l.
    apply findIndex_Some_lookup in Hk as (x & Hx & _).
    by eapply lookup_lt_Some.
  - rewrite decide_False by (by apply findIndex_key).
    rewrite (findIndex_snoc_absent _ _ _ Hk Hid).
    by rewrite (delete_middle ob []), app_nil_r.
Qed.

(** X10. Deleting on BitMEX.  A [delete] removes one order at most, the
    first that carries the id.  When the ids of the book are distinct that
    is every order with the id.  An order inserted under a fresh id and
    then deleted leaves the book as it was; inserted under an id the book
    already holds and then deleted, it stays, and the older order of that
    id is the one removed. *)
Theorem X10_bitmex_delete ob i :
  length (BitMEX.applyDelete ob i)
  = length ob - (if decide (i ∈ BitMEX.id <$> ob) then 1 else 0)
  ∧ (NoDup (BitMEX.id <$> ob) →
     BitMEX.applyDelete ob i = filter (λ o, BitMEX.id o ≠ i) ob)
  ∧ (∀ o, BitMEX.id o = i →
     BitMEX.applyDelete (BitMEX.applyInsert ob o) i
     = if decide (i ∈ BitMEX.id <$> ob)
       then BitMEX.applyDelete ob i ++ [o] else ob).
Proof.
  split_and!.
  - unfold BitMEX.applyDelete.
    destruct (findIndex _ ob) as [k|] eqn:Hk.
    + rewrite decide_True.
      * apply findIndex_Some_lookup in Hk as (x & Hx & _).
        apply length_delete. eauto.
      * destruct (decide (i ∈ BitMEX.id <$> ob)) as [|Hn]; [done|].
        apply findIndex_key in Hn. congruence.
    + rewrite decide_False by (by apply findIndex_key). lia.
  - intros Hnd. unfold BitMEX.applyDelete.
    destruct (findIndex _ ob) as [k|] eqn:Hk.
    + apply findIndex_Some_lookup in Hk as (x & Hx & Hid).
      rewrite (delete_unique_key BitMEX.id ob k x) by done.
      apply list_filter_iff. intros y. by rewrite Hid.
    + symmetry. apply filter_Forall.
      exact (proj1 (findIndex_None _ ob) Hk).
  - intros o Hid. by apply bitmex_applyDelete_snoc.
Qed.

Lemma X10_bitmex_delete_witness :
  (NoDup (BitMEX.id <$> bitmex_two_bids)
   ∧ BitMEX.applyDelete bitmex_two_bids 1
     = filter (λ o, BitMEX.id o ≠ 1%Z) bitmex_two_bids)
  ∧ (BitMEX.id bitmex_duplicate_of_first = 1%Z
     ∧ BitMEX.applyDelete
         (BitMEX.applyInsert bitmex_two_bids bitmex_duplicate_of_first) 1
       = [ BitMEX.Order "XBTUSD" 2 Buy (Q2Qc 5) (Q2Qc 40) "t0";
           bitmex_duplicate_of_first ]).
Proof.
  destruct (X10_bitmex_delete bitmex_two_bids 1) as (_ & Hfilter & Hinsert).
  assert (Hnd : NoDup (BitMEX.id <$> bitmex_two_bids)) by by_evaluation.
  split; (split; [done|]).
  - exact (Hfilter Hnd).
  - rewrite (Hinsert bitmex_duplicate_of_first eq_refl). by_evaluation.
Defined.

(** X11. The BitMEX projection.  The projected bids are in non-increasing
    order of price, the projected asks in non-decreasing order; each side
    has at most [n] orders; and when the ids of the book are distinct, so
    are those of the projection. *)
Theorem X11_bitmex_projection_sorted sd n ob :
  StronglySorted (flip Qcle) (BitMEX.price <$> bitmex_top Buy n ob)
  ∧ StronglySorted Qcle (BitMEX.price <$> bitmex_top Sell n ob)
  ∧ length (bitmex_top sd n ob) ≤ n
  ∧ (NoDup (BitMEX.id <$> ob) → NoDup (BitMEX.id <$> bitmex_top sd n ob)).
Proof.
  split_and!.
  - apply (top_descending_sorted BitMEX.price).
  - apply (top_ascending_sorted BitMEX.price).
  - destruct sd; apply top_length.
  - intros Hnd.
    assert (Hside : ∀ s, NoDup (BitMEX.id <$> filter (λ o, BitMEX.side o = s) ob)).
    { intros s. eapply sublist_NoDup; [exact Hnd|].
      apply fmap_sublist, sublist_filter. }
    destruct sd; apply top_NoDup, Hside.
Qed.

Lemma X11_bitmex_projection_sorted_witness :
  NoDup (BitMEX.id <$> bitmex_two_bids)
  ∧ NoDup (BitMEX.id <$> bitmex_top Buy 1 bitmex_two_bids).
Proof.
  assert (Hnd : NoDup (BitMEX.id <$> bitmex_two_bids)) by by_evaluation.
  split; [done|].
  destruct (X11_bitmex_projection_sorted Buy 1 bitmex_two_bids)
    as (_ & _ & _ & Hids).
  exact (Hids Hnd).
Defined.

(** ** Kraken: the stream *)

Lemma kraken_handle_synced cfg ts ob m :
  kraken_synced ob →
  ∃ out,
    Kraken.handleOrderBook cfg ts ob m = Ok out
    ∧ kraken_synced (book_after out)
    ∧ emitted out = Kraken.insertOrderBookToDB cfg (book_after out) ts
    ∧ logged out = [].
Proof.
  destruct ob as [asks bids]. intros [[ma Ha] [mb Hb]]. simpl in *. subst.
  assert (Hs : ∀ ma' mb', kraken_synced (Kraken.Orderbook (Some ma') (Some mb')))
    by (intros; split; simpl; eauto).
  destruct m as [[[as_|] [bs|] [[|ua a]|] [[|ub b]|]]|]; simpl;
    eexists; (split; [reflexivity|]); simpl; split_and!;
    first [done | apply Hs].
Qed.

(** X12. Kraken after the snapshot.  Once both sides of the book have been
    defined, no message makes the handler raise, both sides stay defined,
    and every message, recognised or not, is answered by a batch: the rows
    of the book as the message left it, stamped with the message's time.
    There is no duplicate-insertion gate and nothing is logged. *)
Theorem X12_kraken_message_loop cfg ob ms :
  kraken_synced ob →
  ∃ ob' outs,
    message_loop (Kraken.handleOrderBook cfg) ob ms = Ok (ob', outs)
    ∧ kraken_synced ob'
    ∧ Forall2 (λ tm out,
        emitted out = Kraken.insertOrderBookToDB cfg (book_after out) tm.1
        ∧ logged out = []) ms outs.
Proof.
  revert ob. induction ms as [|[ts m] ms IH]; intros ob Hs; simpl.
  { exists ob, []. by split_and!. }
  destruct (kraken_handle_synced cfg ts ob m Hs) as (out & -> & Hs' & Hrows & Hlog).
  destruct (IH _ Hs') as (ob' & outs & -> & Hob' & Houts).
  exists ob', (out :: outs). split_and!; [done..|].
  by constructor.
Qed.

Lemma X12_kraken_message_loop_witness :
  kraken_synced kraken_small_book
  ∧ ∃ ob' outs,
      message_loop (Kraken.handleOrderBook (Config 100 true))
        kraken_small_book kraken_three_messages = Ok (ob', outs)
      ∧ kraken_synced ob'.
Proof.
  assert (Hs : kraken_synced kraken_small_book) by (split; simpl; eauto).
  split; [done|].
  destruct (X12_kraken_message_loop (Config 100 true) kraken_small_book
              kraken_three_messages Hs) as (ob' & outs & Hloop & Hs' & _).
  by exists ob', outs.
Defined.

(** X13. Kraken before the snapshot.  The book starts as [{}].  A snapshot
    defines both sides, whatever the book was.  A message with a non-empty
    list of updates for a side that is still undefined raises a TypeError;
    a message without updates is answered by an empty batch and leaves the
    book undefined. *)
Theorem X13_kraken_before_the_snapshot cfg ts :
  (∀ ob as_ bs a b,
     Kraken.handleOrderBook cfg ts ob
       (Some (Kraken.Payload (Some as_) (Some bs) a b))
     = Ok (Outcome
             (Kraken.Orderbook (Some (Kraken.fromPairs as_))
                (Some (Kraken.fromPairs bs)))
             (Kraken.insertOrderBookToDB cfg
                (Kraken.Orderbook (Some (Kraken.fromPairs as_))
                   (Some (Kraken.fromPairs bs))) ts)
             []))
  ∧ (∀ a b,
       (∃ u us, a = Some (u :: us)) ∨ (∃ u us, b = Some (u :: us)) →
       Kraken.handleOrderBook cfg ts (Kraken.Orderbook None None)
         (Some (Kraken.Payload None None a b))
       = Throw "TypeError")
  ∧ (∀ m,
       (∀ p, m = Some p →
          ¬ (is_Some (Kraken.p_as p) ∧ is_Some (Kraken.p_bs p))
          ∧ Kraken.p_a p ∈ [None; Some []] ∧ Kraken.p_b p ∈ [None; Some []]) →
       Kraken.handleOrderBook cfg ts (Kraken.Orderbook None None) m
       = Ok (Outcome (Kraken.Orderbook None None) [] [])).
Proof.
  split_and!.
  - done.
  - intros a b [(u & us & ->)|(u & us & ->)]; [done|].
    by destruct a as [[|ua a]|].
  - assert (Hrows : Kraken.insertOrderBookToDB cfg (Kraken.Orderbook None None) ts
                    = []).
    { unfold Kraken.insertOrderBookToDB, Kraken.orderedAsks, Kraken.orderedBids.
      simpl. unfold js_sort. simpl. by rewrite !take_nil. }
    intros [p|] Hm; [|by simpl; rewrite Hrows].
    destruct (Hm p eq_refl) as (Hsnap & Ha & Hb).
    destruct p as [as_ bs a b]. simpl in *.
    assert (Ha' : a = None ∨ a = Some [])
      by (rewrite !elem_of_cons, elem_of_nil in Ha; tauto).
    assert (Hb' : b = None ∨ b = Some [])
      by (rewrite !elem_of_cons, elem_of_nil in Hb; tauto).
    destruct as_ as [as_|], bs as [bs|];
      try (destruct Hsnap; split; eauto; fail);
      destruct Ha' as [-> | ->], Hb' as [-> | ->]; simpl;
      by rewrite ?Hrows.
Qed.

Lemma X13_kraken_before_the_snapshot_witness :
  ((∃ u us, Some [("100.0", VStr "1.00000000")] = Some (u :: us))
   ∨ (∃ u us, (None : option (list (string * value))) = Some (u :: us)))
  ∧ Kraken.handleOrderBook (Config 100 true) "ts" (Kraken.Orderbook None None)
      (kraken_ask_update ("100.0", VStr "1.00000000"))
    = Throw "TypeError".
Proof.
  assert (Hu : (∃ u us, Some [("100.0", VStr "1.00000000")] = Some (u :: us))
               ∨ (∃ u us, (None : option (list (string * value)))
                          = Some (u :: us))).
  { left. by eexists _, _. }
  split; [done|].
  destruct (X13_kraken_before_the_snapshot (Config 100 true) "ts")
    as (_ & Hthrow & _).
  exact (Hthrow _ _ Hu).
Defined.

(** ** Kraken: the updates of one message, the snapshot *)

Lemma kraken_applyUpdate_lookup (levels : gmap string value) u p :
  Kraken.applyUpdate levels u !! p
  = if decide (u.1 = p)
    then if strict_eq u.2 (VStr "0.00000000") then None else Some u.2
    else levels !! p.
Proof.
  unfold Kraken.applyUpdate.
  destruct (strict_eq u.2 (VStr "0.00000000")), (decide (u.1 = p)) as [->|];
    by rewrite ?lookup_delete_eq, ?lookup_delete_ne, ?lookup_insert_eq,
         ?lookup_insert_ne by done.
Qed.

Lemma kraken_updates_lookup (levels : gmap string value) us p :
  foldl Kraken.applyUpdate levels us !! p = kraken_decided levels us p.
Proof.
  unfold kraken_decided.
  induction us as [|u us IH] using rev_ind; [done|].
  rewrite foldl_snoc, kraken_applyUpdate_lookup, filter_app, filter_cons, filter_nil.
  destruct (decide (u.1 = p)) as [Hu|Hu].
  - by rewrite last_snoc.
  - by rewrite app_nil_r.
Qed.

(** X14. The updates of one Kraken message.  After the updates of a side
    have been applied in order, the side holds at a price what the last
    update for that price says: nothing if it carries the sentinel
    ["0.00000000"], its volume otherwise; a price no update names is as
    before.  So a level deleted and set again within a message is present,
    and one set and then deleted is absent. *)
Theorem X14_kraken_last_update_decides (levels : gmap string value) us p :
  foldl Kraken.applyUpdate levels us !! p = kraken_decided levels us p
  ∧ (p ∉ us.*1 → foldl Kraken.applyUpdate levels us !! p = levels !! p)
  ∧ (∀ v, strict_eq v (VStr "0.00000000") = false →
       foldl Kraken.applyUpdate levels
         (us ++ [(p, VStr "0.00000000"); (p, v)]) !! p = Some v
       ∧ foldl Kraken.applyUpdate levels
           (us ++ [(p, v); (p, VStr "0.00000000")]) !! p = None).
Proof.
  assert (Hlast : ∀ (l : list (string * value)) a b, last (l ++ [a; b]) = Some b).
  { intros l a b. change [a; b] with ([a] ++ [b]). by rewrite app_assoc, last_snoc. }
  split_and!.
  - apply kraken_updates_lookup.
  - intros Hp. rewrite kraken_updates_lookup. unfold kraken_decided.
    replace (filter (λ u : string * value, u.1 = p) us) with (@nil (string * value));
      [done|].
    induction us as [|u us IH]; [done|].
    rewrite fmap_cons, not_elem_of_cons in Hp. destruct Hp as [Hu Hp].
    rewrite filter_cons, decide_False by done. by apply IH.
  - intros v Hv. rewrite !kraken_updates_lookup. unfold kraken_decided.
    rewrite !filter_app, !filter_cons_True, !filter_nil, !Hlast by done.
    simpl. by rewrite Hv.
Qed.

Lemma X14_kraken_last_update_decides_witness :
  (("102.0" ∉ kraken_delete_then_set.*1)
   ∧ foldl Kraken.applyUpdate kraken_asks kraken_delete_then_set !! "102.0"
     = kraken_asks !! "102.0")
  ∧ (strict_eq (VStr "3.00000000") (VStr "0.00000000") = false
     ∧ foldl Kraken.applyUpdate kraken_asks
         ([] ++ [("100.0", VStr "0.00000000"); ("100.0", VStr "3.00000000")])
         !! "100.0"
       = Some (VStr "3.00000000")).
Proof.
  split.
  - assert (Hp : "102.0" ∉ kraken_delete_then_set.*1) by by_evaluation.
    split; [done|].
    destruct (X14_kraken_last_update_decides kraken_asks
                kraken_delete_then_set "102.0") as (_ & Huntouched & _).
    exact (Huntouched Hp).
  - split; [done|].
    destruct (X14_kraken_last_update_decides kraken_asks [] "100.0")
      as (_ & _ & Hagain).
    by destruct (Hagain (VStr "3.00000000") eq_refl) as [-> _].
Defined.

Lemma kraken_fromPairs_snoc l x :
  Kraken.fromPairs (l ++ [x]) = <[x.1 := x.2]> (Kraken.fromPairs l).
Proof. unfold Kraken.fromPairs. by rewrite foldl_snoc. Qed.

Lemma kraken_fromPairs_list_to_map l :
  Kraken.fromPairs l = list_to_map (reverse l).
Proof.
  induction l as [|[k v] l IH] using rev_ind; [done|].
  by rewrite kraken_fromPairs_snoc, reverse_snoc, list_to_map_cons, IH.
Qed.

Lemma kraken_toPairs_fromPairs l :
  NoDup l.*1 → Kraken.toPairs (Some (Kraken.fromPairs l)) ≡ₚ l.
Proof.
  intros Hnd. simpl. rewrite kraken_fromPairs_list_to_map.
  rewrite map_to_list_to_map.
  - apply reverse_Permutation.
  - by rewrite fmap_reverse, reverse_Permutation.
Qed.

(** X15. The Kraken snapshot.  [_.fromPairs] keeps for each price the
    volume of the last pair with that price.  When the prices of the
    snapshot are distinct, each side of the book holds the levels of the
    snapshot, each once, and the batch written for the snapshot has
    [min(numLevel, number of levels)] rows per side. *)
Theorem X15_kraken_snapshot_pairs cfg ts as_ bs :
  (∀ p, Kraken.fromPairs as_ !! p
        = snd <$> last (filter (λ u : string * value, u.1 = p) as_))
  ∧ (NoDup as_.*1 → Kraken.toPairs (Some (Kraken.fromPairs as_)) ≡ₚ as_)
  ∧ (NoDup as_.*1 → NoDup bs.*1 →
     length (Kraken.insertOrderBookToDB cfg
               (Kraken.Orderbook (Some (Kraken.fromPairs as_))
                  (Some (Kraken.fromPairs bs))) ts)
     = numLevel cfg `min` length as_ + numLevel cfg `min` length bs).
Proof.
  split_and!.
  - intros p. induction as_ as [|x l IH] using rev_ind; [done|].
    rewrite kraken_fromPairs_snoc, filter_app, filter_cons, filter_nil.
    destruct (decide (x.1 = p)) as [<-|Hx].
    + by rewrite lookup_insert_eq, last_snoc.
    + by rewrite lookup_insert_ne, app_nil_r.
  - apply kraken_toPairs_fromPairs.
  - intros Ha Hb. unfold Kraken.insertOrderBookToDB.
    rewrite length_app, !length_with_levels, !length_take.
    unfold Kraken.orderedAsks, Kraken.orderedBids. rewrite !length_js_sort.
    cbn [Kraken.asks Kraken.bids].
    by rewrite (kraken_toPairs_fromPairs as_ Ha), (kraken_toPairs_fromPairs bs Hb).
Qed.

Lemma X15_kraken_snapshot_pairs_witness :
  (NoDup scenario_asks.*1 ∧ NoDup scenario_bids.*1)
  ∧ length (Kraken.insertOrderBookToDB (Config 1 true)
              (Kraken.Orderbook (Some (Kraken.fromPairs scenario_asks))
                 (Some (Kraken.fromPairs scenario_bids))) "ts")
    = 2.
Proof.
  assert (Ha : NoDup scenario_asks.*1) by by_evaluation.
  assert (Hb : NoDup scenario_bids.*1) by by_evaluation.
  split; [done|].
  destruct (X15_kraken_snapshot_pairs (Config 1 true) "ts"
              scenario_asks scenario_bids) as (_ & _ & Hrows).
  by rewrite (Hrows Ha Hb).
Defined.

(** ** Kucoin: the handler and the message loop *)

Lemma kucoin_applySide_run t c ob :
  Kucoin.applySide t c ob
  = kucoin_run ob ((λ change, (t, change)) <$> Kucoin.changes_of t c).
Proof. unfold Kucoin.applySide, kucoin_run. by rewrite foldl_fmap. Qed.

Lemma kucoin_applyChanges_run c ob :
  Kucoin.applyChanges c ob = kucoin_run ob (kucoin_events c).
Proof.
  unfold Kucoin.applyChanges. rewrite !kucoin_applySide_run.
  unfold kucoin_events, kucoin_run. by rewrite foldl_app.
Qed.

Lemma kucoin_applySide_get t c ob :
  Kucoin.get t (Kucoin.applySide t c ob)
  = foldl (Kucoin.applyChange t) (Kucoin.get t ob) (Kucoin.changes_of t c)
  ∧ ∀ t', t' ≠ t → Kucoin.get t' (Kucoin.applySide t c ob) = Kucoin.get t' ob.
Proof.
  unfold Kucoin.applySide. generalize (Kucoin.changes_of t c). intros l.
  revert ob. induction l as [|change l IH]; intros ob; simpl; [done|].
  destruct (IH (Kucoin.set t (Kucoin.applyChange t (Kucoin.get t ob) change) ob))
    as [-> Hother].
  split.
  - by rewrite Kucoin_get_set.
  - intros t' Ht'. rewrite Hother by done. by destruct t, t'.
Qed.

Lemma kucoin_handle_recognized cfg ts ob m c :
  Kucoin.recognized m → Kucoin.m_data m = Some c →
  Kucoin.handleOrderBook cfg ts ob m
  = Ok (Outcome (kucoin_run ob (kucoin_events c))
          (Kucoin.insertOrderBooktoDB (kucoin_run ob (kucoin_events c)) ts) []).
Proof.
  intros Hm Hc. unfold Kucoin.handleOrderBook.
  by rewrite bool_decide_eq_true_2, Hc, kucoin_applyChanges_run.
Qed.

(** X16. The Kucoin handler on a recognised message.  The changes are
    applied one by one, those of the asks before those of the bids; each
    side is rebuilt from its own changes alone, so the changes of one side
    never touch the other; the batch is the whole stored book.  A
    recognised message without [data.changes] raises a TypeError. *)
Theorem X16_kucoin_handler_applies_each_side cfg ts ob m :
  Kucoin.recognized m →
  (∀ c, Kucoin.m_data m = Some c →
     ∃ out,
       Kucoin.handleOrderBook cfg ts ob m = Ok out
       ∧ book_after out = kucoin_run ob (kucoin_events c)
       ∧ Kucoin.ob_asks (book_after out)
         = foldl (Kucoin.applyChange Kucoin.asks) (Kucoin.ob_asks ob)
             (Kucoin.c_asks c)
       ∧ Kucoin.ob_bids (book_after out)
         = foldl (Kucoin.applyChange Kucoin.bids) (Kucoin.ob_bids ob)
             (Kucoin.c_bids c)
       ∧ emitted out = Kucoin.insertOrderBooktoDB (book_after out) ts
       ∧ logged out = [])
  ∧ (Kucoin.m_data m = None →
     Kucoin.handleOrderBook cfg ts ob m = Throw "TypeError").
Proof.
  intros Hm. split.
  - intros c Hc. rewrite (kucoin_handle_recognized cfg ts ob m c Hm Hc).
    eexists. split; [done|]. simpl. split_and!; try done.
    + rewrite <-kucoin_applyChanges_run. unfold Kucoin.applyChanges.
      destruct (kucoin_applySide_get Kucoin.bids c
                  (Kucoin.applySide Kucoin.asks c ob)) as [_ Hother].
      destruct (kucoin_applySide_get Kucoin.asks c ob) as [Hasks _].
      change (Kucoin.get Kucoin.asks
                (Kucoin.applySide Kucoin.bids c (Kucoin.applySide Kucoin.asks c ob))
              = foldl (Kucoin.applyChange Kucoin.asks)
                  (Kucoin.get Kucoin.asks ob) (Kucoin.changes_of Kucoin.asks c)).
      by rewrite Hother, Hasks.
    + rewrite <-kucoin_applyChanges_run. unfold Kucoin.applyChanges.
      destruct (kucoin_applySide_get Kucoin.bids c
                  (Kucoin.applySide Kucoin.asks c ob)) as [Hbids _].
      destruct (kucoin_applySide_get Kucoin.asks c ob) as [_ Hother].
      change (Kucoin.get Kucoin.bids
                (Kucoin.applySide Kucoin.bids c (Kucoin.applySide Kucoin.asks c ob))
              = foldl (Kucoin.applyChange Kucoin.bids)
                  (Kucoin.get Kucoin.bids ob) (Kucoin.changes_of Kucoin.bids c)).
      by rewrite Hbids, Hother.
  - intros Hc. unfold Kucoin.handleOrderBook.
    by rewrite bool_decide_eq_true_2, Hc.
Qed.

Lemma X16_kucoin_handler_applies_each_side_witness :
  Kucoin.recognized kucoin_l2update
  ∧ ∃ out,
      Kucoin.handleOrderBook (Config 50 true) "ts" kucoin_three_bids
        kucoin_l2update = Ok out
      ∧ Kucoin.ob_bids (book_after out) = Kucoin.ob_bids kucoin_three_bids.
Proof.
  assert (Hm : Kucoin.recognized kucoin_l2update) by done.
  split; [done|].
  destruct (X16_kucoin_handler_applies_each_side (Config 50 true) "ts"
              kucoin_three_bids kucoin_l2update Hm) as [Hdata _].
  destruct (Hdata _ eq_refl) as (out & Hout & _ & _ & Hbids & _).
  exists out. split; [done|]. by rewrite Hbids.
Defined.

Lemma kucoin_length_rows ob ts :
  length (Kucoin.insertOrderBooktoDB ob ts)
  = length (Kucoin.ob_bids ob) + length (Kucoin.ob_asks ob).
Proof.
  unfold Kucoin.insertOrderBooktoDB. by rewrite length_app, !length_imap.
Qed.

(** X17. The Kucoin message loop.  Started from a book whose sides are
    sorted, hold at most 50 levels and one level per price, and fed
    messages that carry their changes whenever they are recognised, the
    loop never raises and ends in such a book.  A message that is not
    recognised writes nothing; a recognised one writes the whole stored
    book, at most 100 rows. *)
Theorem X17_kucoin_message_loop cfg ob ms :
  (∀ t, kucoin_side_ok t (Kucoin.get t ob)) →
  Forall (λ tm, Kucoin.recognized tm.2 → is_Some (Kucoin.m_data tm.2)) ms →
  ∃ ob' outs,
    message_loop (Kucoin.handleOrderBook cfg) ob ms = Ok (ob', outs)
    ∧ (∀ t, kucoin_side_ok t (Kucoin.get t ob'))
    ∧ Forall2 (λ tm out,
        (if decide (Kucoin.recognized tm.2)
         then emitted out = Kucoin.insertOrderBooktoDB (book_after out) tm.1
         else emitted out = [])
        ∧ length (emitted out) ≤ 100) ms outs.
Proof.
  intros Hob Hms. revert ob Hob.
  induction Hms as [|[ts m] ms Hm _ IH]; intros ob Hob; simpl.
  { exists ob, []. by split_and!. }
  destruct (decide (Kucoin.recognized m)) as [Hrec|Hrec].
  - destruct (Hm Hrec) as [c Hc]. simpl in Hc.
    rewrite (kucoin_handle_recognized cfg ts ob m c Hrec Hc). simpl.
    pose proof (kucoin_run_ok ob (kucoin_events c) Hob) as Hob1.
    destruct (IH _ Hob1) as (ob' & outs & -> & Hob' & Houts).
    eexists _, _. split_and!; [done..|].
    constructor; [|done]. simpl. rewrite decide_True by done.
    split; [done|]. rewrite kucoin_length_rows.
    destruct (Hob1 Kucoin.asks) as (_ & Hasks & _).
    destruct (Hob1 Kucoin.bids) as (_ & Hbids & _).
    simpl in *. lia.
  - assert (Hh : Kucoin.handleOrderBook cfg ts ob m = Ok (Outcome ob [] [])).
    { unfold Kucoin.handleOrderBook. by rewrite bool_decide_eq_false_2. }
    rewrite Hh. simpl.
    destruct (IH _ Hob) as (ob' & outs & -> & Hob' & Houts).
    eexists _, _. split_and!; [done..|].
    constructor; [|done]. simpl. rewrite decide_False by done.
    split; [done|]. lia.
Qed.

Lemma X17_kucoin_message_loop_witness :
  ((∀ t, kucoin_side_ok t (Kucoin.get t kucoin_three_bids))
   ∧ Forall (λ tm, Kucoin.recognized tm.2 → is_Some (Kucoin.m_data tm.2))
       kucoin_three_messages)
  ∧ ∃ ob' outs,
      message_loop (Kucoin.handleOrderBook (Config 50 true))
        kucoin_three_bids kucoin_three_messages = Ok (ob', outs)
      ∧ ∀ t, kucoin_side_ok t (Kucoin.get t ob').
Proof.
  assert (Hob : ∀ t, kucoin_side_ok t (Kucoin.get t kucoin_three_bids)).
  { intros []; unfold kucoin_side_ok; split_and!; by_evaluation. }
  assert (Hms : Forall (λ tm, Kucoin.recognized tm.2 → is_Some (Kucoin.m_data tm.2))
                  kucoin_three_messages).
  { repeat constructor; simpl; eauto. by intros [? _]. }
  split; [done|].
  destruct (X17_kucoin_message_loop (Config 50 true) kucoin_three_bids
              kucoin_three_messages Hob Hms) as (ob' & outs & Hloop & Hob' & _).
  by exists ob', outs.
Defined.

(** ** Kucoin: the cut at 50 levels *)

Lemma insert_sorted_split {A} (cmp : A → A → Qc) x l :
  ∃ l1 l2, l = l1 ++ l2 ∧ insert_sorted cmp x l = l1 ++ x :: l2.
Proof.
  induction l as [|y l (l1 & l2 & Hl & Hins)]; simpl.
  { by exists [], []. }
  case_bool_decide.
  - exists (y :: l1), l2. split; simpl; by f_equal.
  - by exists [], (y :: l).
Qed.

Lemma take_insert_sorted_in {A} (cmp : A → A → Qc) n x l :
  x ∉ l → x ∈ take (S n) (insert_sorted cmp x l) →
  ∃ l1 l2, l = l1 ++ l2 ∧ length l1 ≤ n
    ∧ take (S n) (insert_sorted cmp x l) = l1 ++ x :: take (n - length l1) l2.
Proof.
  intros Hx Hin.
  destruct (insert_sorted_split cmp x l) as (l1 & l2 & Hl & Hins).
  exists l1, l2. rewrite Hins in *.
  destruct (decide (length l1 ≤ n)) as [Hle|Hgt].
  - split_and!; [done..|]. rewrite take_app_ge by lia.
    by replace (S n - length l1) with (S (n - length l1)) by lia.
  - exfalso. rewrite take_app_le in Hin by lia.
    apply Hx. rewrite Hl. apply elem_of_app. left.
    apply elem_of_take in Hin as (i & Hi & _). by eapply list_elem_of_lookup_2.
Qed.

Lemma StronglySorted_filter {A} (R : relation A) (P : A → Prop)
    `{∀ x, Decision (P x)} l :
  StronglySorted R l → StronglySorted R (filter P l).
Proof.
  induction 1 as [|x l Hl IH Hx]; [constructor|].
  rewrite filter_cons. case_decide; [|done].
  constructor; [done|]. apply Forall_forall.
  intros y [_ Hy]%list_elem_of_filter. by eapply Forall_forall in Hx.
Qed.

Lemma kucoin_keys_other (levels : list Kucoin.level) p :
  p ∉ levels.*1 → Forall (λ l : Kucoin.level, l.1 ≠ p) levels.
Proof.
  intros Hp. apply Forall_forall. intros l Hl Heq. apply Hp.
  rewrite <-Heq. by apply list_elem_of_fmap_2.
Qed.

Lemma kucoin_applyChange_new t levels p s :
  strict_eq s (VStr "0") = false →
  StronglySorted (λ a b, (Kucoin.cmp t a b ≤ 0)%Qc) levels →
  p ∉ levels.*1 →
  Kucoin.applyChange t levels (p, s)
  = take 50 (insert_sorted (Kucoin.cmp t) (p, s) levels).
Proof.
  intros Hs Hsorted Hp.
  rewrite applyChange_upsert, kucoin_upsert_absent by done.
  by rewrite js_sort_snoc, js_sort_sorted.
Qed.

Lemma kucoin_new_then_filter t (levels : list Kucoin.level) p s :
  p ∉ levels.*1 →
  (p, s) ∈ take 50 (insert_sorted (Kucoin.cmp t) (p, s) levels) →
  filter (λ l : Kucoin.level, l.1 ≠ p)
    (take 50 (insert_sorted (Kucoin.cmp t) (p, s) levels))
  = take 49 levels.
Proof.
  intros Hp Hin.
  assert (Hx : (p, s) ∉ levels).
  { intros Hx. apply Hp. by apply (list_elem_of_fmap_2 fst) in Hx. }
  destruct (take_insert_sorted_in (Kucoin.cmp t) 49 (p, s) levels Hx Hin)
    as (l1 & l2 & -> & Hlen & ->).
  apply kucoin_keys_other in Hp. apply Forall_app in Hp as [Hp1 Hp2].
  rewrite filter_app, filter_cons_False by (simpl; tauto).
  rewrite !filter_Forall by (done || by apply Forall_take).
  by rewrite take_app_ge.
Qed.

(** X18. A full Kucoin side.  On a side that holds 50 levels, a change at
    a new price that no stored level has to follow is dropped: the side is
    as before and the level is lost.  A change at a new price that some
    stored level has to follow enters the side, and the 50th level is
    dropped to make room; the other levels keep their order. *)
Theorem X18_kucoin_full_side t levels p s :
  strict_eq s (VStr "0") = false →
  kucoin_side_ok t levels → length levels = 50 → p ∉ levels.*1 →
  (Forall (λ l, (Kucoin.cmp t l (p, s) ≤ 0)%Qc) levels →
   Kucoin.applyChange t levels (p, s) = levels)
  ∧ (Exists (λ l, ¬ (Kucoin.cmp t l (p, s) ≤ 0)%Qc) levels →
     (p, s) ∈ Kucoin.applyChange t levels (p, s)
     ∧ length (Kucoin.applyChange t levels (p, s)) = 50
     ∧ filter (λ l : Kucoin.level, l.1 ≠ p) (Kucoin.applyChange t levels (p, s))
       = take 49 levels).
Proof.
  intros Hs (Hsorted & _ & _) Hlen Hp.
  rewrite kucoin_applyChange_new by done. split.
  - intros Hall. rewrite insert_sorted_last by done.
    by apply take_app_length'.
  - intros Hex.
    assert (Hin : (p, s) ∈ take 50 (insert_sorted (Kucoin.cmp t) (p, s) levels)).
    { destruct (decide ((p, s) ∈ take 50 (insert_sorted (Kucoin.cmp t) (p, s) levels)))
        as [|Hout]; [done|].
      apply take_insert_sorted_out in Hout as (_ & Hall & _).
      rewrite take_ge in Hall by lia.
      apply Exists_exists in Hex as (l & Hl & Hnot).
      destruct Hnot. by eapply Forall_forall in Hall. }
    split_and!; [done| |by apply kucoin_new_then_filter].
    rewrite length_take, (Permutation_length (insert_sorted_Permutation _ _ _)).
    cbn [length]. by rewrite Hlen.
Qed.

Lemma X18_kucoin_full_side_witness :
  (strict_eq (VStr "2") (VStr "0") = false
   ∧ kucoin_side_ok Kucoin.asks kucoin_full_asks
   ∧ length kucoin_full_asks = 50
   ∧ ("150" ∉ kucoin_full_asks.*1)
   ∧ Forall (λ l, (Kucoin.cmp Kucoin.asks l ("150", VStr "2") ≤ 0)%Qc)
       kucoin_full_asks)
  ∧ Kucoin.applyChange Kucoin.asks kucoin_full_asks ("150", VStr "2")
    = kucoin_full_asks.
Proof.
  assert (Hok : kucoin_side_ok Kucoin.asks kucoin_full_asks).
  { unfold kucoin_side_ok; split_and!; by_evaluation. }
  assert (Hp : "150" ∉ kucoin_full_asks.*1) by by_evaluation.
  assert (Hall : Forall (λ l, (Kucoin.cmp Kucoin.asks l ("150", VStr "2") ≤ 0)%Qc)
                   kucoin_full_asks) by by_evaluation.
  split; [done|].
  destruct (X18_kucoin_full_side Kucoin.asks kucoin_full_asks "150" (VStr "2")
              eq_refl Hok eq_refl Hp) as [Hdrop _].
  exact (Hdrop Hall).
Defined.

Lemma kucoin_applyChange_delete t levels p :
  kucoin_side_ok t levels →
  Kucoin.applyChange t levels (p, VStr "0")
  = filter (λ l : Kucoin.level, l.1 ≠ p) levels.
Proof.
  intros (Hsorted & Hlen & _). unfold Kucoin.applyChange; simpl.
  rewrite js_sort_sorted by (by apply StronglySorted_filter).
  apply take_ge. etrans; [apply length_filter|done].
Qed.

(** X19. Deleting a Kucoin level.  On a side that is sorted, holds at most
    50 levels and one level per price, a change of size ["0"] leaves the
    other levels as they are, in their order.  If the price was stored, the
    side is one level shorter afterwards: a full side is left with 49
    levels, nothing is fetched to fill the gap. *)
Theorem X19_kucoin_delete_shrinks t levels p :
  kucoin_side_ok t levels →
  Kucoin.applyChange t levels (p, VStr "0")
  = filter (λ l : Kucoin.level, l.1 ≠ p) levels
  ∧ (p ∈ levels.*1 →
     S (length (Kucoin.applyChange t levels (p, VStr "0"))) = length levels).
Proof.
  intros Hok. rewrite kucoin_applyChange_delete by done.
  split; [done|].
  destruct Hok as (_ & _ & Hnodup).
  intros (x & -> & (i & Hi)%list_elem_of_lookup)%list_elem_of_fmap.
  rewrite <-(delete_unique_key fst levels i x Hnodup Hi).
  rewrite length_delete by eauto.
  apply lookup_lt_Some in Hi. lia.
Qed.

Lemma X19_kucoin_delete_shrinks_witness :
  (kucoin_side_ok Kucoin.asks kucoin_full_asks ∧ "120" ∈ kucoin_full_asks.*1)
  ∧ length (Kucoin.applyChange Kucoin.asks kucoin_full_asks ("120", VStr "0"))
    = 49.
Proof.
  assert (Hok : kucoin_side_ok Kucoin.asks kucoin_full_asks).
  { unfold kucoin_side_ok; split_and!; by_evaluation. }
  assert (Hp : "120" ∈ kucoin_full_asks.*1) by by_evaluation.
  split; [done|].
  destruct (X19_kucoin_delete_shrinks Kucoin.asks kucoin_full_asks "120" Hok)
    as [_ Hlen].
  specialize (Hlen Hp).
  assert (Hfull : length kucoin_full_asks = 50) by done.
  rewrite Hfull in Hlen. exact (eq_add_S _ 49 Hlen).
Defined.

(** X20. A Kucoin level that comes and goes.  A level set at a new price
    and deleted again leaves a side of fewer than 50 levels as it was.  On
    a full side the level it displaced does not come back: if the new
    level entered the side, the side is left with its first 49 levels. *)
Theorem X20_kucoin_insert_then_delete t levels p s :
  strict_eq s (VStr "0") = false →
  kucoin_side_ok t levels → p ∉ levels.*1 →
  Kucoin.applyChange t (Kucoin.applyChange t levels (p, s)) (p, VStr "0")
  = (if decide ((p, s) ∈ Kucoin.applyChange t levels (p, s))
     then take 49 levels else levels)
  ∧ (length levels < 50 →
     Kucoin.applyChange t (Kucoin.applyChange t levels (p, s)) (p, VStr "0")
     = levels).
Proof.
  intros Hs Hok Hp.
  assert (Hfirst :
    Kucoin.applyChange t (Kucoin.applyChange t levels (p, s)) (p, VStr "0")
    = if decide ((p, s) ∈ Kucoin.applyChange t levels (p, s))
      then take 49 levels else levels).
  { destruct Hok as (Hsorted & Hlen & Hnodup).
    rewrite kucoin_applyChange_delete by (by apply kucoin_applyChange_ok).
    rewrite kucoin_applyChange_new by done.
    destruct (decide _) as [Hin|Hout].
    - by apply kucoin_new_then_filter.
    - apply take_insert_sorted_out in Hout as (-> & _ & _).
      rewrite take_ge by done.
      by apply filter_Forall, kucoin_keys_other. }
  split; [done|].
  intros Hlen. rewrite Hfirst.
  rewrite decide_True by (apply kucoin_zero_sized_level_kept; [done|by left]).
  apply take_ge. lia.
Qed.

Lemma X20_kucoin_insert_then_delete_witness :
  (strict_eq (VStr "2") (VStr "0") = false
   ∧ kucoin_side_ok Kucoin.asks kucoin_full_asks
   ∧ "099" ∉ kucoin_full_asks.*1)
  ∧ Kucoin.applyChange Kucoin.asks
      (Kucoin.applyChange Kucoin.asks kucoin_full_asks ("099", VStr "2"))
      ("099", VStr "0")
    = take 49 kucoin_full_asks.
Proof.
  assert (Hok : kucoin_side_ok Kucoin.asks kucoin_full_asks).
  { unfold kucoin_side_ok; split_and!; by_evaluation. }
  assert (Hp : "099" ∉ kucoin_full_asks.*1) by by_evaluation.
  split; [done|].
  destruct (X20_kucoin_insert_then_delete Kucoin.asks kucoin_full_asks "099"
              (VStr "2") eq_refl Hok Hp) as [-> _].
  apply decide_True. by_evaluation.
Defined.

(** X21. Updating a stored Kucoin level.  On a side that is sorted, holds
    at most 50 levels and one level per price, a change at a stored price
    with a size other than ["0"] replaces the size of that level and
    nothing else: every level keeps its rank and no level is dropped. *)
Theorem X21_kucoin_update_keeps_ranks t levels p s i s0 :
  strict_eq s (VStr "0") = false →
  kucoin_side_ok t levels →
  levels !! i = Some (p, s0) →
  Kucoin.applyChange t levels (p, s) = <[i := (p, s)]> levels
  ∧ (Kucoin.applyChange t levels (p, s)).*1 = levels.*1.
Proof.
  intros Hs (Hsorted & Hlen & Hnodup) Hi.
  assert (Hkeys : (<[i := (p, s)]> levels).*1 = levels.*1).
  { rewrite list_fmap_insert. apply list_insert_id.
    by rewrite list_lookup_fmap, Hi. }
  assert (Hupsert : kucoin_upsert levels p s = <[i := (p, s)]> levels).
  { unfold kucoin_upsert.
    assert (Hfind : list_find (λ l : Kucoin.level, l.1 = p) levels
                    = Some (i, (p, s0))).
    { apply list_find_Some. split_and!; [done..|].
      intros j y Hj Hlt Hy.
      assert (i = j); [|lia].
      apply (NoDup_lookup levels.*1 i j p Hnodup);
        rewrite list_lookup_fmap; [by rewrite Hi|by rewrite Hj; simpl; f_equal]. }
    by rewrite Hfind. }
  assert (Hresult : Kucoin.applyChange t levels (p, s) = <[i := (p, s)]> levels).
  { rewrite applyChange_upsert, Hupsert by done.
    rewrite js_sort_sorted.
    - apply take_ge. by rewrite length_insert.
    - apply kucoin_sorted_keys. rewrite list_fmap_insert, list_insert_id.
      + by apply kucoin_sorted_keys.
      + by rewrite list_lookup_fmap, Hi. }
  split; [done|]. by rewrite Hresult.
Qed.

Lemma X21_kucoin_update_keeps_ranks_witness :
  (strict_eq (VStr "7") (VStr "0") = false
   ∧ kucoin_side_ok Kucoin.asks kucoin_full_asks
   ∧ kucoin_full_asks !! 20 = Some ("120", VStr "1"))
  ∧ Kucoin.applyChange Kucoin.asks kucoin_full_asks ("120", VStr "7")
    = <[20 := ("120", VStr "7")]> kucoin_full_asks.
Proof.
  assert (Hok : kucoin_side_ok Kucoin.asks kucoin_full_asks).
  { unfold kucoin_side_ok; split_and!; by_evaluation. }
  split; [done|].
  by destruct (X21_kucoin_update_keeps_ranks Kucoin.asks kucoin_full_asks "120"
                 (VStr "7") 20 (VStr "1") eq_refl Hok eq_refl) as [-> _].
Defined.

(** ** Binance: the REST response and the stream *)

Lemma binance_findIndex_present sd ob p :
  (∃ o, o ∈ ob ∧ binance_key o = (p, sd)) →
  ∃ i x, findIndex (λ o, Binance.price o = p ∧ Binance.side o = sd) ob = Some i
         ∧ ob !! i = Some x ∧ Binance.price x = p ∧ Binance.side x = sd.
Proof.
  intros (o & Ho & Hkey).
  destruct (findIndex (λ o, Binance.price o = p ∧ Binance.side o = sd) ob)
    as [i|] eqn:Hi.
  - destruct (findIndex_Some_lookup _ _ _ Hi) as (x & Hx & Hp & Hs). eauto 10.
  - apply findIndex_None in Hi. eapply Forall_forall in Hi; [|exact Ho].
    destruct Hi. by injection Hkey.
Qed.

Lemma findIndex_cons {A} (P : A → Prop) `{∀ x, Decision (P x)} x (l : list A) :
  findIndex P (x :: l) = if decide (P x) then Some 0 else S <$> findIndex P l.
Proof.
  unfold findIndex. simpl. case_decide; [done|].
  by destruct (list_find P l) as [[i y]|].
Qed.

Lemma filter_delete_first {A} (P : A → Prop) `{∀ x, Decision (P x)}
    (l : list A) i :
  findIndex P l = Some i → filter P (delete i l) = tail (filter P l).
Proof.
  revert i. induction l as [|x l IH]; intros i; [done|].
  rewrite findIndex_cons, filter_cons. case_decide as Hx.
  - by intros [= <-].
  - destruct (findIndex P l) as [j|]; intros [= <-]. simpl.
    rewrite filter_cons_False by done. by apply IH.
Qed.

Lemma filter_alter_first {A} (P : A → Prop) `{∀ x, Decision (P x)}
    (f : A → A) (l : list A) i :
  (∀ x, P x → P (f x)) →
  findIndex P l = Some i →
  ∃ o rest, filter P l = o :: rest ∧ filter P (alter f i l) = f o :: rest.
Proof.
  intros Hf. revert i. induction l as [|x l IH]; intros i; [done|].
  rewrite findIndex_cons, filter_cons. case_decide as Hx.
  - intros [= <-]. exists x, (filter P l). simpl.
    by rewrite filter_cons_True by auto.
  - destruct (findIndex P l) as [j|]; intros [= <-]. simpl.
    rewrite filter_cons_False by done. by apply IH.
Qed.

Lemma filter_findIndex_None {A} (P : A → Prop) `{∀ x, Decision (P x)}
    (l : list A) :
  findIndex P l = None → filter P l = [].
Proof.
  induction l as [|x l IH]; [done|].
  rewrite findIndex_cons, filter_cons. case_decide; [done|].
  destruct (findIndex P l); [done|]. auto.
Qed.

(** The orders of one key behave as a queue: a change at the key rewrites
    or removes the oldest of them, or adds an order when there is none; a
    change at another key leaves them as they are. *)
Lemma binance_at_key_step p sd sd' ob u :
  binance_at_key p sd (Binance.applyUpdate sd' ob u)
  = if decide (u.1 = p ∧ sd' = sd)
    then if strict_eq u.2 (VStr "0.00000000")
         then tail (binance_at_key p sd ob)
         else match binance_at_key p sd ob with
              | [] => [Binance.Order p u.2 sd]
              | o :: rest => Binance.set_quantity u.2 o :: rest
              end
    else binance_at_key p sd ob.
Proof.
  unfold binance_at_key. case_decide as Hkey.
  - destruct Hkey as [<- <-].
    assert (Hsame : ∀ l : list Binance.order,
      filter (λ o, binance_key o = (u.1, sd')) l
      = filter (λ o, Binance.price o = u.1 ∧ Binance.side o = sd') l).
    { intros l. apply list_filter_iff. intros o. unfold binance_key.
      split; [by intros [= -> ->]|by intros [-> ->]]. }
    rewrite !Hsame. unfold Binance.applyUpdate.
    destruct (findIndex _ ob) as [i|] eqn:Hi, (strict_eq u.2 _).
    + by apply filter_delete_first.
    + destruct (filter_alter_first
                  (λ o, Binance.price o = u.1 ∧ Binance.side o = sd')
                  (Binance.set_quantity u.2) ob i)
        as (o & rest & -> & ->); [by intros o [? ?]|done|done].
    + by rewrite (filter_findIndex_None _ ob Hi).
    + rewrite filter_app, (filter_findIndex_None _ ob Hi).
      by rewrite filter_cons_True, filter_nil.
  - apply binance_applyUpdate_frame. intros o [= Hp Hs] [Hp' Hs'].
    apply Hkey. split; congruence.
Qed.

Lemma binance_at_key_run p sd ob events :
  Forall (λ e, ¬ binance_deletes p sd e) events →
  binance_at_key p sd ob ≠ [] →
  ∃ o, binance_at_key p sd (binance_run ob events)
       = o :: tail (binance_at_key p sd ob).
Proof.
  intros Hev. revert ob.
  induction Hev as [|[sd' u] events He _ IH]; intros ob Hob; simpl.
  { destruct (binance_at_key p sd ob) as [|o rest]; [done|]. by exists o. }
  assert (Hstep : ∃ o, binance_at_key p sd (Binance.applyUpdate sd' ob u)
                       = o :: tail (binance_at_key p sd ob)).
  { rewrite binance_at_key_step.
    destruct (binance_at_key p sd ob) as [|o rest]; [done|].
    case_decide as Hkey; [|by exists o].
    destruct (strict_eq u.2 _) eqn:Hq; [|by eexists].
    destruct He. destruct Hkey. by split_and!. }
  destruct Hstep as [o Ho].
  destruct (IH (Binance.applyUpdate sd' ob u)) as [o' Ho']; [by rewrite Ho|].
  exists o'. by rewrite Ho', Ho.
Qed.

(** X22. The REST response is appended.  The orders of the response are
    pushed behind whatever the stream has put into the book by then.  If
    the stream has already stored a bid at a price of the response, the
    book holds two orders for that price and side.  The orders of one key
    are served oldest first: as long as no deletion at that price arrives,
    every change rewrites the older order, and the copy of the response
    stays in the book with the quantity of the response; only after a
    deletion has removed the older order does the next change reach the
    copy. *)
Theorem X22_binance_snapshot_appends ob res_bids res_asks p q0 :
  (p, q0) ∈ res_bids →
  (∃ o, o ∈ ob ∧ binance_key o = (p, Buy)) →
  ¬ NoDup (binance_key <$> Binance.snapshot ob res_bids res_asks)
  ∧ (∀ events,
       Forall (λ e, ¬ binance_deletes p Buy e) events →
       Binance.Order p q0 Buy
         ∈ binance_run (Binance.snapshot ob res_bids res_asks) events
       ∧ 2 ≤ length (binance_at_key p Buy
                       (binance_run (Binance.snapshot ob res_bids res_asks)
                          events)))
  ∧ (∀ q,
       strict_eq q (VStr "0.00000000") = false →
       binance_at_key p Buy
         (binance_run (Binance.snapshot ob res_bids res_asks)
            [(Buy, (p, VStr "0.00000000")); (Buy, (p, q))])
       = match tail (binance_at_key p Buy
                       (Binance.snapshot ob res_bids res_asks)) with
         | [] => [Binance.Order p q Buy]
         | copy :: rest => Binance.set_quantity q copy :: rest
         end).
Proof.
  intros Hres Hob.
  assert (Hcopy : Binance.Order p q0 Buy
                    ∈ ((λ bid, Binance.Order bid.1 bid.2 Buy) <$> res_bids)
                      ++ ((λ ask, Binance.Order ask.1 ask.2 Sell) <$> res_asks)).
  { apply elem_of_app. left.
    by apply (list_elem_of_fmap_2 (λ bid, Binance.Order bid.1 bid.2 Buy)) in Hres. }
  split_and!.
  - unfold Binance.snapshot. rewrite fmap_app. intros Hnd.
    apply NoDup_app in Hnd as (_ & Hdisj & _).
    destruct Hob as (o & Ho & Hkey).
    apply (Hdisj (p, Buy)).
    + rewrite <-Hkey. by apply list_elem_of_fmap_2.
    + by apply (list_elem_of_fmap_2 binance_key) in Hcopy.
  - intros events Hev.
    assert (Hold : binance_at_key p Buy ob ≠ []).
    { destruct Hob as (o & Ho & Hkey). intros Hnil.
      eapply (filter_nil_not_elem_of _ ob o); [exact Hnil|exact Hkey|exact Ho]. }
    assert (Hbook : binance_at_key p Buy (Binance.snapshot ob res_bids res_asks)
                    = binance_at_key p Buy ob
                      ++ binance_at_key p Buy
                           (((λ bid, Binance.Order bid.1 bid.2 Buy) <$> res_bids)
                            ++ ((λ ask, Binance.Order ask.1 ask.2 Sell)
                                  <$> res_asks)))
      by apply filter_app.
    assert (Hnew : Binance.Order p q0 Buy
                     ∈ binance_at_key p Buy
                         (((λ bid, Binance.Order bid.1 bid.2 Buy) <$> res_bids)
                          ++ ((λ ask, Binance.Order ask.1 ask.2 Sell)
                                <$> res_asks)))
      by (by apply list_elem_of_filter).
    destruct (binance_at_key_run p Buy (Binance.snapshot ob res_bids res_asks)
                events Hev) as [o Ho].
    { rewrite Hbook. by destruct (binance_at_key p Buy ob). }
    assert (Htail : Binance.Order p q0 Buy
                      ∈ tail (binance_at_key p Buy
                                (Binance.snapshot ob res_bids res_asks))).
    { rewrite Hbook. destruct (binance_at_key p Buy ob) as [|o1 rest]; [done|].
      simpl. apply elem_of_app. by right. }
    split.
    + assert (Hin : Binance.Order p q0 Buy
                      ∈ binance_at_key p Buy
                          (binance_run (Binance.snapshot ob res_bids res_asks)
                             events))
        by (rewrite Ho; by right).
      by apply list_elem_of_filter in Hin as [_ ?].
    + rewrite Ho.
      destruct (tail _) as [|c rest]; [by apply elem_of_nil in Htail|].
      simpl. lia.
  - intros q Hq. simpl. rewrite !binance_at_key_step. simpl.
    by rewrite Hq, !decide_True.
Qed.

Lemma X22_binance_snapshot_appends_witness :
  (("99", VStr "1") ∈ scenario_bids
   ∧ (∃ o, o ∈ binance_early_bid ∧ binance_key o = ("99", Buy))
   ∧ Forall (λ e, ¬ binance_deletes "99" Buy e) binance_rewrite_bid)
  ∧ Binance.Order "99" (VStr "1") Buy
      ∈ binance_run
          (Binance.snapshot binance_early_bid scenario_bids scenario_asks)
          binance_rewrite_bid.
Proof.
  assert (Hres : ("99", VStr "1") ∈ scenario_bids) by by_evaluation.
  assert (Hob : ∃ o, o ∈ binance_early_bid ∧ binance_key o = ("99", Buy)).
  { eexists. split; [apply list_elem_of_here|done]. }
  assert (Hev : Forall (λ e, ¬ binance_deletes "99" Buy e) binance_rewrite_bid)
    by by_evaluation.
  split; [done|].
  destruct (X22_binance_snapshot_appends binance_early_bid scenario_bids
              scenario_asks "99" (VStr "1") Hres Hob) as (_ & Hstays & _).
  by destruct (Hstays binance_rewrite_bid Hev) as [? _].
Defined.

(** The copy is reached once the older order is gone: after a deletion at
    99 the next change at 99 rewrites the order of the response. *)
Example binance_copy_reached_after_deletion :
  binance_run (Binance.snapshot binance_early_bid scenario_bids [])
    [(Buy, ("99", VStr "0.00000000")); (Buy, ("99", VStr "7"))]
  = [Binance.Order "99" (VStr "7") Buy].
Proof. by_evaluation. Qed.

(** X23. An upsert at a stored Binance key rewrites the quantity in place:
    the book keeps its length and its keys, in their order, and the first
    order of that key carries the new quantity. *)
Theorem X23_binance_update_in_place sd ob p q :
  strict_eq q (VStr "0.00000000") = false →
  (∃ o, o ∈ ob ∧ binance_key o = (p, sd)) →
  binance_key <$> Binance.applyUpdate sd ob (p, q) = binance_key <$> ob
  ∧ length (Binance.applyUpdate sd ob (p, q)) = length ob
  ∧ Binance.Order p q sd ∈ Binance.applyUpdate sd ob (p, q).
Proof.
  intros Hq Hob.
  destruct (binance_findIndex_present sd ob p Hob) as (i & x & Hi & Hx & Hp & Hs).
  split_and!; [| |by apply binance_upsert_elem].
  - unfold Binance.applyUpdate. simpl. rewrite Hq, Hi.
    rewrite (list_fmap_alter _ _ id).
    + by rewrite list_alter_id.
    + by apply Forall_forall.
  - unfold Binance.applyUpdate. simpl. rewrite Hq, Hi. apply length_alter.
Qed.

Lemma X23_binance_update_in_place_witness :
  (strict_eq (VStr "2.50000000") (VStr "0.00000000") = false
   ∧ ∃ o, o ∈ binance_small_book ∧ binance_key o = ("100", Sell))
  ∧ length (Binance.applyUpdate Sell binance_small_book ("100", VStr "2.50000000"))
    = length binance_small_book.
Proof.
  assert (Hob : ∃ o, o ∈ binance_small_book ∧ binance_key o = ("100", Sell)).
  { exists (Binance.Order "100" (VStr "1.00000000") Sell).
    split; [by_evaluation|done]. }
  split; [done|].
  by destruct (X23_binance_update_in_place Sell binance_small_book "100"
                 (VStr "2.50000000") eq_refl Hob) as (_ & -> & _).
Defined.

(** ** The level count of a script that has started *)

Lemma length_two_sides {A B} (f g : nat → A → B) n (l1 l2 : list A) :
  length (with_levels f (take n l1) ++ with_levels g (take n l2)) ≤ 2 * n.
Proof.
  rewrite length_app, !length_with_levels, !length_take. lia.
Qed.

(** X25. The check of [numLevel] at start-up.  With a level count outside
    the venue's range the script does not print its message: it stops with
    a ReferenceError, since [err] is not declared.  A script that gets past
    the check has a level count within the range, so a batch has at most 40
    rows on Binance, 200 on Kraken and 50 on BitMEX. *)
Theorem X25_started_script_has_valid_levels limit cfg :
  (numLevel cfg < 1 ∨ limit < numLevel cfg →
   checkNumLevels limit cfg = Throw "ReferenceError: err is not defined")
  ∧ (∀ logged, checkNumLevels limit cfg = Ok logged →
       logged = [] ∧ 1 ≤ numLevel cfg ≤ limit)
  ∧ (∀ logged ob ts, checkNumLevels 20 cfg = Ok logged →
       length (Binance.insertOrderBookToDB cfg ob ts) ≤ 40)
  ∧ (∀ logged ob ts, checkNumLevels 100 cfg = Ok logged →
       length (Kraken.insertOrderBookToDB cfg ob ts) ≤ 200)
  ∧ (∀ logged ob ts, checkNumLevels 25 cfg = Ok logged →
       length (BitMEX.rows cfg ob ts) ≤ 50).
Proof.
  assert (Hpass : ∀ lim logged, checkNumLevels lim cfg = Ok logged →
                    logged = [] ∧ 1 ≤ numLevel cfg ≤ lim).
  { intros lim logged. unfold checkNumLevels. case_bool_decide; [done|].
    intros [= <-]. split; [done|lia]. }
  split_and!.
  - intros Hout. unfold checkNumLevels. by rewrite bool_decide_eq_true_2.
  - apply Hpass.
  - intros logged ob ts (_ & _ & Hn)%Hpass.
    etrans; [apply length_two_sides|lia].
  - intros logged ob ts (_ & _ & Hn)%Hpass.
    etrans; [apply length_two_sides|lia].
  - intros logged ob ts (_ & _ & Hn)%Hpass.
    etrans; [apply length_two_sides|lia].
Qed.

Lemma X25_started_script_has_valid_levels_witness :
  (numLevel (Config 0 true) < 1 ∨ 20 < numLevel (Config 0 true))
  ∧ checkNumLevels 20 (Config 0 true) = Throw "ReferenceError: err is not defined".
Proof.
  assert (Hout : numLevel (Config 0 true) < 1 ∨ 20 < numLevel (Config 0 true))
    by (left; simpl; lia).
  split; [done|].
  destruct (X25_started_script_has_valid_levels 20 (Config 0 true)) as [Hthrow _].
  exact (Hthrow Hout).
Defined.

(** ** Binance: rows built while the stream goes on *)

Lemma insert_sorted_fmap {A B} (f : A → B) (cmp : B → B → Qc) x (l : list A) :
  f <$> insert_sorted (λ a b, cmp (f a) (f b)) x l
  = insert_sorted cmp (f x) (f <$> l).
Proof.
  induction l as [|y l IH]; [done|]. cbn [insert_sorted fmap list_fmap].
  case_bool_decide; [|done]. rewrite fmap_cons. by f_equal.
Qed.

Lemma js_sort_fmap {A B} (f : A → B) (cmp : B → B → Qc) (l : list A) :
  f <$> js_sort (λ a b, cmp (f a) (f b)) l = js_sort cmp (f <$> l).
Proof.
  induction l as [|x l IH] using rev_ind; [done|].
  rewrite js_sort_snoc, insert_sorted_fmap, IH, fmap_app.
  change (f <$> [x]) with [f x]. by rewrite js_sort_snoc.
Qed.

Lemma filter_fmap {A B} (f : A → B) (P : B → Prop) `{∀ y, Decision (P y)}
    (l : list A) :
  filter P (f <$> l) = f <$> filter (λ x, P (f x)) l.
Proof.
  induction l as [|x l IH]; [done|].
  rewrite fmap_cons, !filter_cons. case_decide; by rewrite ?fmap_cons, IH.
Qed.

Section BinanceObjectFacts.
Import BinanceObjects.

Abbreviation aligned st book l :=
  (Forall2 (λ (r : nat) (o : Binance.order), objects st !! r = Some o) book l).

Lemma aligned_contents st : wf st → aligned st (orderBook st) (contents st).
Proof.
  intros [_ Hvalid]. unfold contents.
  induction Hvalid as [|r book Hr _ IH]; [constructor|].
  apply lookup_lt_is_Some_2 in Hr as [o Ho].
  cbn [omap list_omap]. rewrite Ho. by constructor.
Qed.

Lemma contents_aligned st l : aligned st (orderBook st) l → contents st = l.
Proof.
  unfold contents. induction 1 as [|r o book l Hr _ IH]; [done|].
  cbn [omap list_omap]. rewrite Hr. by f_equal.
Qed.

Lemma contents_entries st : contents st = (entries st).*2.
Proof.
  unfold contents, entries. induction (orderBook st) as [|r book IH]; [done|].
  cbn [omap list_omap]. destruct (objects st !! r); simpl; by rewrite IH.
Qed.

Lemma entries_lookup st e : e ∈ entries st → objects st !! e.1 = Some e.2.
Proof.
  intros (r & _ & Hr)%list_elem_of_omap.
  destruct (objects st !! r) as [o|] eqn:Ho; simplify_eq/=. done.
Qed.

Lemma findIndex_aligned st p sd book l :
  aligned st book l →
  findIndex (is_at st p sd) book
  = findIndex (λ o, Binance.price o = p ∧ Binance.side o = sd) l.
Proof.
  induction 1 as [|r o book l Hr _ IH]; [done|].
  rewrite !findIndex_cons, IH.
  destruct (decide (is_at st p sd r)) as [Hat|Hat],
           (decide (Binance.price o = p ∧ Binance.side o = sd)) as [Ho|Ho];
    try done; exfalso; unfold is_at in Hat; rewrite Hr in Hat; simpl in Hat.
  - destruct Hat as [[= ?] [= ?]]. by apply Ho.
  - destruct Ho as [Hp Hs]. apply Hat. by rewrite Hp, Hs.
Qed.

Lemma applyUpdate_aligned sd st u l :
  wf st → aligned st (orderBook st) l →
  wf (applyUpdate sd st u)
  ∧ aligned (applyUpdate sd st u) (orderBook (applyUpdate sd st u))
      (Binance.applyUpdate sd l u).
Proof.
  intros [Hnd Hvalid] Hal. unfold applyUpdate, Binance.applyUpdate.
  rewrite (findIndex_aligned st u.1 sd _ l Hal).
  destruct (findIndex _ l) as [i|] eqn:Hi, (strict_eq u.2 _); simpl.
  - split; [split; simpl|].
    + eapply sublist_NoDup; [exact Hnd|apply sublist_delete].
    + by apply Forall_delete.
    + by apply Forall2_delete.
  - apply findIndex_Some_lookup in Hi as (x & Hx & _).
    destruct (Forall2_lookup_r _ _ _ _ _ Hal Hx) as (r & Hr & Hrx).
    rewrite Hr. simpl. split; [split; simpl|].
    + done.
    + by rewrite length_alter.
    + apply Forall2_same_length_lookup. split.
      { rewrite length_alter. by eapply Forall2_length. }
      intros j rj y Hj Hy. destruct (decide (i = j)) as [<-|Hne].
      * rewrite list_lookup_alter_eq, Hx in Hy. simplify_eq/=.
        by rewrite list_lookup_alter_eq, Hrx.
      * rewrite list_lookup_alter_ne in Hy by done.
        rewrite list_lookup_alter_ne.
        { exact (Forall2_lookup_lr _ _ _ j rj y Hal Hj Hy). }
        intros <-. apply Hne. exact (NoDup_lookup _ i j r Hnd Hr Hj).
  - done.
  - split; [split; simpl|].
    + apply NoDup_app. split_and!; [done| |apply NoDup_singleton].
      intros r Hr ->%list_elem_of_singleton.
      eapply Forall_forall in Hvalid; [|exact Hr]. lia.
    + apply Forall_app. rewrite length_app. simpl. split.
      * eapply Forall_impl; [exact Hvalid|]. simpl. lia.
      * repeat constructor. lia.
    + simpl. apply Forall2_app.
      * eapply Forall2_impl; [exact Hal|]. simpl.
        intros r o Hr. by apply lookup_app_l_Some.
      * repeat constructor. by apply list_lookup_middle.
Qed.

Lemma run_aligned st events l :
  wf st → aligned st (orderBook st) l →
  wf (run st events)
  ∧ aligned (run st events) (orderBook (run st events)) (binance_run l events).
Proof.
  revert st l. induction events as [|[sd u] events IH]; intros st l Hwf Hal;
    [done|].
  destruct (applyUpdate_aligned sd st u l Hwf Hal) as [Hwf' Hal'].
  by apply IH.
Qed.

Lemma applyUpdate_object sd st u r o :
  objects st !! r = Some o →
  ∃ o', objects (applyUpdate sd st u) !! r = Some o'
        ∧ Binance.price o' = Binance.price o
        ∧ Binance.side o' = Binance.side o
        ∧ (¬ binance_rewrites (Binance.price o) (Binance.side o) (sd, u) →
           o' = o).
Proof.
  intros Ho. unfold applyUpdate.
  destruct (findIndex _ (orderBook st)) as [i|] eqn:Hi,
           (strict_eq u.2 _) eqn:Hq; simpl; eauto.
  - apply findIndex_Some_lookup in Hi as (r' & Hr' & Hat).
    rewrite Hr'. simpl. destruct (decide (r' = r)) as [->|Hne].
    + exists (Binance.set_quantity u.2 o). rewrite list_lookup_alter_eq, Ho.
      split_and!; [done..|]. intros Hnot. destruct Hnot.
      unfold is_at in Hat. rewrite Ho in Hat.
      destruct Hat as [[= Hp] [= Hs]]. by split_and!.
    + exists o. by rewrite list_lookup_alter_ne.
  - exists o. split_and!; [|done..]. by apply lookup_app_l_Some.
Qed.

Lemma run_object st events r o :
  objects st !! r = Some o →
  ∃ o', objects (run st events) !! r = Some o'
        ∧ Binance.price o' = Binance.price o
        ∧ Binance.side o' = Binance.side o
        ∧ (Forall (λ e, ¬ binance_rewrites (Binance.price o) (Binance.side o) e)
             events → o' = o).
Proof.
  revert st o. induction events as [|[sd u] events IH]; intros st o Ho.
  { exists o. by split_and!. }
  destruct (applyUpdate_object sd st u r o Ho) as (o1 & Ho1 & Hp1 & Hs1 & Hsame1).
  destruct (IH _ _ Ho1) as (o' & Ho' & Hp' & Hs' & Hsame').
  exists o'. split_and!; [done|congruence..|].
  intros [He Hev]%Forall_cons.
  rewrite Hp1, Hs1 in Hsame'. rewrite Hsame' by done. by apply Hsame1.
Qed.

Lemma batch_object cfg st w :
  w ∈ batch cfg st → ∃ o, objects st !! row_object w = Some o.
Proof.
  assert (Htop : ∀ cmp (P : nat * Binance.order → Prop) `{∀ e, Decision (P e)} n e,
    e ∈ take n (js_sort cmp (filter P (entries st))) →
    objects st !! e.1 = Some e.2).
  { intros cmp P ? n e (i & Hi & _)%elem_of_take.
    apply list_elem_of_lookup_2 in Hi. rewrite js_sort_Permutation in Hi.
    apply list_elem_of_filter in Hi as [_ Hi]. by apply entries_lookup. }
  unfold batch.
  intros [(i & e & He & ->)%elem_of_with_levels
         |(i & e & He & ->)%elem_of_with_levels]%elem_of_app;
    apply list_elem_of_lookup_2 in He; simpl; eauto.
Qed.

Lemma omap_build cfg ts st ty (g : nat → nat) (E : list (nat * Binance.order)) :
  Forall (λ e, objects st !! e.1 = Some e.2) E →
  omap (build cfg ts st) (imap (λ i e, Pending ty (g i) e.1) E)
  = imap (λ i o, Row ts "Binance" (g i) ty (VStr (Binance.price o))
                   (Binance.volume_of (baseVolume cfg) o)) E.*2.
Proof.
  intros HE. revert g. induction HE as [|e E He _ IH]; intros g; [done|].
  rewrite fmap_cons, !imap_cons. cbn [omap list_omap].
  unfold build at 1. simpl. rewrite He. simpl. f_equal.
  apply (IH (g ∘ S)).
Qed.

Lemma build_at_once cfg ts st :
  omap (build cfg ts st) (batch cfg st)
  = Binance.insertOrderBookToDB cfg (contents st) ts.
Proof.
  assert (Htop : ∀ cmp (P : nat * Binance.order → Prop) `{∀ e, Decision (P e)} n,
    Forall (λ e, objects st !! e.1 = Some e.2)
      (take n (js_sort cmp (filter P (entries st))))).
  { intros cmp P ? n. apply Forall_forall. intros e (i & Hi & _)%elem_of_take.
    apply list_elem_of_lookup_2 in Hi. rewrite js_sort_Permutation in Hi.
    apply list_elem_of_filter in Hi as [_ Hi]. by apply entries_lookup. }
  unfold batch, Binance.insertOrderBookToDB, with_levels.
  rewrite omap_app.
  rewrite (omap_build cfg ts st "Bid" S) by apply Htop.
  rewrite (omap_build cfg ts st "Ask" S) by apply Htop.
  unfold top_bids, top_asks, Binance.top_bids, Binance.top_asks.
  rewrite !fmap_take, contents_entries.
  rewrite (js_sort_fmap snd
             (λ a b, toNumber (Binance.price b) - toNumber (Binance.price a))%Qc).
  rewrite (js_sort_fmap snd
             (λ a b, toNumber (Binance.price a) - toNumber (Binance.price b))%Qc).
  by rewrite !filter_fmap.
Qed.

Lemma snapshot_aligned st res_bids res_asks l :
  wf st → aligned st (orderBook st) l →
  wf (snapshot st res_bids res_asks)
  ∧ aligned (snapshot st res_bids res_asks)
      (orderBook (snapshot st res_bids res_asks))
      (Binance.snapshot l res_bids res_asks).
Proof.
  intros [Hnd Hvalid] Hal. unfold snapshot, Binance.snapshot.
  generalize (((λ bid, Binance.Order bid.1 bid.2 Buy) <$> res_bids)
              ++ ((λ ask, Binance.Order ask.1 ask.2 Sell) <$> res_asks)).
  intros new. split; [split; simpl|simpl].
  - apply NoDup_app. split_and!; [done| |apply NoDup_seq].
    intros r Hr (? & _)%elem_of_seq.
    eapply Forall_forall in Hvalid; [|exact Hr]. lia.
  - apply Forall_app. rewrite length_app. split.
    + eapply Forall_impl; [exact Hvalid|]. simpl. lia.
    + apply Forall_forall. intros r (_ & ?)%elem_of_seq. lia.
  - apply Forall2_app.
    + eapply Forall2_impl; [exact Hal|]. simpl.
      intros r o Hr. by apply lookup_app_l_Some.
    + apply Forall2_same_length_lookup. split; [by rewrite length_seq|].
      intros i r o [-> _]%lookup_seq Ho.
      by rewrite lookup_app_r, Nat.add_comm, Nat.add_sub by lia.
Qed.

End BinanceObjectFacts.

(** X26. Binance rows are built one by one.  Built all at once, the rows
    of a call are those of the book as it is at the call.  The script
    builds a row only after the INSERT of the row before it has been
    answered, and by then later messages may have been handled.  Whatever
    those messages are, each row keeps the time of its own message, its
    level, its type and its price, which were fixed at the call; its
    volume is computed from the quantity its order object holds when the
    row is built.  If none of the later changes sets a quantity at the
    price and side of the object, the row is the one the call would have
    built at once; otherwise a row stamped with the time of one message
    can carry the quantity of a later one.  The array of objects holds at
    all times what the book of [handleOrderBook] holds. *)
Theorem X26_binance_rows_built_later cfg ts st :
  BinanceObjects.wf st →
  omap (BinanceObjects.build cfg ts st) (BinanceObjects.batch cfg st)
  = Binance.insertOrderBookToDB cfg (BinanceObjects.contents st) ts
  ∧ (∀ res_bids res_asks,
       BinanceObjects.wf (BinanceObjects.snapshot st res_bids res_asks)
       ∧ BinanceObjects.contents (BinanceObjects.snapshot st res_bids res_asks)
         = Binance.snapshot (BinanceObjects.contents st) res_bids res_asks)
  ∧ (∀ events,
       (BinanceObjects.wf (BinanceObjects.run st events)
        ∧ BinanceObjects.contents (BinanceObjects.run st events)
          = binance_run (BinanceObjects.contents st) events)
       ∧ ∀ w, w ∈ BinanceObjects.batch cfg st →
           ∃ o o',
             BinanceObjects.objects st !! BinanceObjects.row_object w = Some o
             ∧ BinanceObjects.objects (BinanceObjects.run st events)
                 !! BinanceObjects.row_object w = Some o'
             ∧ Binance.price o' = Binance.price o
             ∧ Binance.side o' = Binance.side o
             ∧ BinanceObjects.build cfg ts (BinanceObjects.run st events) w
               = Some (Row ts "Binance" (BinanceObjects.row_level w)
                         (BinanceObjects.row_type w) (VStr (Binance.price o))
                         (Binance.volume_of (baseVolume cfg) o'))
             ∧ (Forall (λ e, ¬ binance_rewrites (Binance.price o)
                                 (Binance.side o) e) events →
                BinanceObjects.build cfg ts (BinanceObjects.run st events) w
                = BinanceObjects.build cfg ts st w)).
Proof.
  intros Hwf. pose proof (aligned_contents st Hwf) as Hal. split_and!.
  - apply build_at_once.
  - intros res_bids res_asks.
    destruct (snapshot_aligned st res_bids res_asks _ Hwf Hal) as [Hwf' Hal'].
    split; [done|]. by apply contents_aligned.
  - intros events. split.
    + destruct (run_aligned st events _ Hwf Hal) as [Hwf' Hal'].
      split; [done|]. by apply contents_aligned.
    + intros w [o Ho]%batch_object.
      destruct (run_object st events _ o Ho) as (o' & Ho' & Hp & Hs & Hsame).
      exists o, o'. split_and!; [done..| |].
      * unfold BinanceObjects.build. rewrite Ho'. simpl. by rewrite Hp.
      * intros Hev. unfold BinanceObjects.build.
        by rewrite Ho', Ho, (Hsame Hev).
Qed.

Lemma X26_binance_rows_built_later_witness :
  (BinanceObjects.wf binance_scenario_store
   ∧ BinanceObjects.Pending "Ask" 1 1
       ∈ BinanceObjects.batch (Config 2 true) binance_scenario_store)
  ∧ ∃ o o',
      BinanceObjects.objects binance_scenario_store !! 1 = Some o
      ∧ BinanceObjects.objects
          (BinanceObjects.run binance_scenario_store binance_rewrite_ask) !! 1
        = Some o'
      ∧ Binance.price o' = Binance.price o.
Proof.
  assert (Hwf : BinanceObjects.wf binance_scenario_store).
  { split; by_evaluation. }
  assert (Hw : BinanceObjects.Pending "Ask" 1 1
                 ∈ BinanceObjects.batch (Config 2 true) binance_scenario_store)
    by by_evaluation.
  split; [done|].
  destruct (X26_binance_rows_built_later (Config 2 true) "t1"
              binance_scenario_store Hwf) as (_ & _ & Hlater).
  destruct (Hlater binance_rewrite_ask) as [_ Hrows].
  destruct (Hrows _ Hw) as (o & o' & Ho & Ho' & Hp & _).
  by exists o, o'.
Defined.

(** A row stamped with the time of one message that carries the quantity
    of the next: the batch of the first message holds the ask at 100 with
    quantity 1; built after the next message has set that quantity to 9,
    its row has volume 9. *)
Example binance_row_of_a_later_quantity :
  BinanceObjects.batch (Config 2 true) binance_scenario_store
  = [ BinanceObjects.Pending "Bid" 1 0;
      BinanceObjects.Pending "Ask" 1 1;
      BinanceObjects.Pending "Ask" 2 2 ]
  ∧ BinanceObjects.build (Config 2 true) "t1" binance_scenario_store
      (BinanceObjects.Pending "Ask" 1 1)
    = Some (Row "t1" "Binance" 1 "Ask" (VStr "100") (VStr "1"))
  ∧ BinanceObjects.build (Config 2 true) "t1"
      (BinanceObjects.run binance_scenario_store binance_rewrite_ask)
      (BinanceObjects.Pending "Ask" 1 1)
    = Some (Row "t1" "Binance" 1 "Ask" (VStr "100") (VStr "9")).
Proof. split_and!; by_evaluation. Qed.
